(** * agentic-web-search: the served pipeline of [backend/server.py]

    A shallow embedding of the search / extract / qualify / summarize
    pipeline and of the [/search] endpoint, with the external collaborators
    (search provider, page fetchers, markup parsers, LLM) taken as
    parameters, followed by the properties of the pipeline. *)

From Stdlib Require Import ZArith Ascii String DecimalString.
From stdpp Require Import base option list strings gmap.

Local Open Scope Z_scope.
Set Warnings "-clear-no-such-hyp".

(** ** Python values and strings *)

(** The values stored under the keys the pipeline reads: a string or
    [None].  A missing key reads as [None] through [dict.get]. *)
Inductive pyval : Type :=
| PyNone
| PyStr (s : string).

Global Instance pyval_eq_dec : EqDecision pyval.
Proof. solve_decision. Defined.

Abbreviation dict := (gmap string pyval).

Module Py.

(** [len(s)] *)
Definition len (s : string) : Z := Z.of_nat (String.length s).

(** [len(l)] on lists *)
Definition llen {A} (l : list A) : Z := Z.of_nat (length l).

(** Truth value of a string: non-empty. *)
Definition str_truthy (s : string) : bool :=
  match s with EmptyString => false | String _ _ => true end.

(** Truth value of a string-or-None. *)
Definition truthy (v : pyval) : bool :=
  match v with PyNone => false | PyStr s => str_truthy s end.

(** [str(v)], as an f-string renders the value. *)
Definition str (v : pyval) : string :=
  match v with PyNone => "None" | PyStr s => s end.

(** [a or b] *)
Definition or_ (a b : pyval) : pyval := if truthy a then a else b.

(** [v or ""], a string whatever [v] is. *)
Definition or_empty (v : pyval) : string :=
  match v with PyNone => EmptyString | PyStr s => s end.

(** [d.get(key)] and [d.get(key, default)] *)
Definition get (d : dict) (key : string) : pyval := default PyNone (d !! key).
Definition get_default (d : dict) (key : string) (dflt : pyval) : pyval :=
  default dflt (d !! key).

(** [l[:n]] on lists: a negative [n] counts from the end. *)
Definition take_to {A} (n : Z) (l : list A) : list A :=
  if 0 <=? n then take (Z.to_nat n) l
  else take (length l - Z.to_nat (- n))%nat l.

Fixpoint str_take (n : nat) (s : string) : string :=
  match n, s with
  | O, _ => EmptyString
  | S n', String c s' => String c (str_take n' s')
  | S _, EmptyString => EmptyString
  end.

(** [s[:n]] on strings. *)
Definition slice_to (n : Z) (s : string) : string :=
  if 0 <=? n then str_take (Z.to_nat n) s
  else str_take (String.length s - Z.to_nat (- n))%nat s.

(** [d in s]: [d] occurs in [s] as a substring. *)
Fixpoint contains (d s : string) : bool :=
  String.prefix d s ||
  match s with
  | EmptyString => false
  | String _ s' => contains d s'
  end.

(** [s.startswith(p)] and [s.endswith(p)] *)
Definition startswith (p s : string) : bool := String.prefix p s.
Definition endswith (p s : string) : bool :=
  String.prefix (String.rev p) (String.rev s).

(** [c.isspace()] for a character below 256. *)
Definition isspace (c : ascii) : bool :=
  let n := nat_of_ascii c in
  ((9 <=? n) && (n <=? 13) || (28 <=? n) && (n <=? 32)
   || (n =? 133) || (n =? 160))%nat.

Fixpoint lstrip (s : string) : string :=
  match s with
  | EmptyString => EmptyString
  | String c s' => if isspace c then lstrip s' else s
  end.

Fixpoint rstrip (s : string) : string :=
  match s with
  | EmptyString => EmptyString
  | String c s' =>
      match rstrip s' with
      | EmptyString => if isspace c then EmptyString else String c EmptyString
      | r => String c r
      end
  end.

(** [s.strip()] *)
Definition strip (s : string) : string := rstrip (lstrip s).

(** Line boundaries of [str.splitlines] below 256; a carriage return
    directly followed by a line feed is one boundary. *)
Definition is_linebreak (c : ascii) : bool :=
  let n := nat_of_ascii c in
  ((10 <=? n) && (n <=? 13) || (28 <=? n) && (n <=? 30) || (n =? 133))%nat.

Fixpoint splitlines_go (after_cr : bool) (cur : string) (s : string)
  : list string :=
  match s with
  | EmptyString =>
      match cur with EmptyString => [] | _ => [String.rev cur] end
  | String c s' =>
      if after_cr && (nat_of_ascii c =? 10)%nat
      then splitlines_go false EmptyString s'
      else if is_linebreak c
      then String.rev cur
             :: splitlines_go (nat_of_ascii c =? 13)%nat EmptyString s'
      else splitlines_go false (String c cur) s'
  end.

(** [s.splitlines()] *)
Definition splitlines (s : string) : list string :=
  splitlines_go false EmptyString s.

(** [sep.join(parts)] *)
Fixpoint join (sep : string) (parts : list string) : string :=
  match parts with
  | [] => EmptyString
  | [p] => p
  | p :: rest => p +:+ sep +:+ join sep rest
  end.

(** [str(i)] for an integer. *)
Definition str_of_int (i : Z) : string := NilZero.string_of_int (Z.to_int i).

End Py.

(** The line feed, as a one-character string. *)
Definition NL : string := String (ascii_of_nat 10) EmptyString.

(** ** Exceptions, results and the pipeline monad *)

(** The exception classes the pipeline raises or tells apart.  All of them
    derive from Python's [Exception]; [Exception_] stands for any other
    subclass a collaborator raises. *)
Inductive exn : Type :=
| HTTPException (status_code : Z) (detail : string)
| APIStatusError (message : string)
| HTTPError (status_code : Z)
| KeyError (key : string)
| Exception_ (message : string).

Inductive result (A : Type) : Type :=
| Ok (a : A)
| Raise (e : exn).
Arguments Ok {A} a.
Arguments Raise {A} e.

(** One part of the message the LLM returns. *)
Record part := { ptype : string; ptext : string }.

(** An HTTP response as [requests] hands it out. *)
Record Response := { status_code_of : Z; text_of : string }.

(** The schemas of the endpoint; [k] defaults to 6. *)
Record SearchRequest := { query_of : string; k_of : Z }.

Record SearchResponse :=
  { response_query : string;
    response_answer : string;
    response_sources : list dict }.

(** What the run does to the outside, in order. *)
Inductive event : Type :=
| EvSearch (q : string) (num : Z) (items : list dict)
| EvFetch (url : pyval)
| EvLLM (system user_prompt : string).

(** The external collaborators.  [World] is whatever the network and the
    providers depend on; a call may change it, and may raise. *)
Record Collaborators (World : Type) := {
  (** [build("customsearch", "v1", developerKey=)], then
      [service.cse().list(q=, cx=, num=).execute()], read at ["items"] *)
  cse_list_execute : string → Z → World → result (option (list dict)) * World;
  (** [trafilatura.fetch_url(url)] *)
  trafilatura_fetch_url : pyval → World → result (option string) * World;
  (** [trafilatura.extract(downloaded, include_comments=False,
      include_tables=False)] *)
  trafilatura_extract : string → result (option string);
  (** [SESSION.get(url, timeout=)] *)
  session_get : pyval → Z → World → result Response * World;
  (** [BeautifulSoup(html, "html.parser")], the four kinds of tags
      decomposed, then [soup.get_text("\n")] *)
  soup_get_text : string → result string;
  (** [textwrap.dedent] *)
  textwrap_dedent : string → string;
  (** [claude.messages.create(model=, max_tokens=, temperature=0.2,
      system=, messages=[one user message])], read at [.content] *)
  claude_messages_create :
    string → Z → string → string → World → result (list part) * World;
  (** [str(e)] *)
  exn_str : exn → string;
}.
Arguments cse_list_execute {World}.
Arguments trafilatura_fetch_url {World}.
Arguments trafilatura_extract {World}.
Arguments session_get {World}.
Arguments soup_get_text {World}.
Arguments textwrap_dedent {World}.
Arguments claude_messages_create {World}.
Arguments exn_str {World}.

Record state (World : Type) := { world : World; trace : list event }.
Arguments world {World}.
Arguments trace {World}.
Arguments Build_state {World}.

(** A computation reads and updates the state and returns or raises; what
    it did before raising stays done. *)
Definition M (World A : Type) : Type := state World → result A * state World.

Section Monad.
Context {World : Type}.

Definition ret {A} (a : A) : M World A := fun st => (Ok a, st).

Definition raise {A} (e : exn) : M World A := fun st => (Raise e, st).

Definition bind {A B} (m : M World A) (f : A → M World B) : M World B :=
  fun st =>
    match m st with
    | (Ok a, st') => f a st'
    | (Raise e, st') => (Raise e, st')
    end.

(** [try: m  except Exception as e: h e] *)
Definition try_except {A} (m : M World A) (h : exn → M World A)
  : M World A :=
  fun st =>
    match m st with
    | (Ok a, st') => (Ok a, st')
    | (Raise e, st') => h e st'
    end.

(** A call to a collaborator that may change the world. *)
Definition call {A} (f : World → result A * World) : M World A :=
  fun st =>
    let '(r, w) := f (world st) in
    (r, {| world := w; trace := trace st |}).

(** A call to a collaborator that only computes. *)
Definition lift {A} (r : result A) : M World A := fun st => (r, st).

Definition log (ev : event) : M World unit :=
  fun st => (Ok tt, {| world := world st; trace := trace st ++ [ev] |}).

End Monad.

Notation "'do' x <- m ; k" := (bind m (fun x => k))
  (at level 10, x name, m at level 100, k at level 200,
   format "'[v' 'do'  x  <-  m ;  '/' k ']'").
Notation "'run' m ; k" := (bind m (fun _ => k))
  (at level 10, m at level 100, k at level 200,
   format "'[v' 'run'  m ;  '/' k ']'").

(** ** Constants of [server.py] *)

Definition AUTHORITATIVE_HINTS : list string :=
  [ "site:wikipedia.org";
    "site:britannica.com";
    "site:new7wonders.com";
    "site:nationalgeographic.com";
    "site:unesco.org" ].

Definition WHITELIST_DOMAINS : list string :=
  [ "wikipedia.org";
    "britannica.com";
    "new7wonders.com";
    "nationalgeographic.com";
    "unesco.org" ].

(** The default of [fetch_text]'s [max_chars]. *)
Definition FETCH_MAX_CHARS : Z := 30000.

(** The cut-off of [long_enough] in [strong_sources]. *)
Definition LONG_ENOUGH : Z := 800.

(** The excerpt cap of [summarize_with_claude]. *)
Definition EXCERPT_CAP : Z := 6000.

(** ** The pipeline *)

Section Pipeline.
Context {World : Type} (env : Collaborators World).

Local Abbreviation M := (M World).

(** *** Search *)

Definition google_search_once (query : string) (num_results : Z)
  : M (list dict) :=
  do res <- call (cse_list_execute env query (Z.min num_results 10));
  let items := default [] res in
  run log (EvSearch query (Z.min num_results 10) items);
  ret items.

(** *** Extraction *)

(** The text the fallback keeps: the stripped non-blank lines, joined. *)
Definition clean_lines (raw : string) : string :=
  Py.join NL
    (map Py.strip
       (filter (λ line, Py.str_truthy (Py.strip line) = true)
               (Py.splitlines raw))).

(** The body of the [try] block of [fetch_text]. *)
Definition fetch_text_try (url : pyval) (max_chars : Z) : M string :=
  do downloaded <- call (trafilatura_fetch_url env url);
  do primary <-
    match downloaded with
    | Some html =>
        if Py.str_truthy html then
          do text <- lift (trafilatura_extract env html);
          match text with
          | Some t =>
              if Py.str_truthy t && Py.str_truthy (Py.strip t)
              then ret (Some (Py.slice_to max_chars (Py.strip t)))
              else ret None
          | None => ret None
          end
        else ret None
    | None => ret None
    end;
  match primary with
  | Some t => ret t
  | None =>
      do resp <- call (session_get env url 15);
      run (if (400 <=? status_code_of resp) && (status_code_of resp <? 600)
           then raise (HTTPError (status_code_of resp)) else ret tt);
      do raw <- lift (soup_get_text env (text_of resp));
      let text := clean_lines raw in
      ret (if Py.str_truthy text then Py.slice_to max_chars text
           else EmptyString)
  end.

(** The placeholder of the [except] branch. *)
Definition fetch_error (url : pyval) (e : exn) : string :=
  "[Fetch error for " +:+ Py.str url +:+ ": " +:+ exn_str env e +:+ "]".

Definition fetch_text (url : pyval) (max_chars : Z) : M string :=
  run log (EvFetch url);
  try_except (fetch_text_try url max_chars)
             (λ e, ret (fetch_error url e)).

(** *** Query expansion *)

(** The inner loop of [smart_search] over one variant's results; it
    returns [seen] and [items] as the loop leaves them. *)
Fixpoint scan_results (budget : Z) (results : list dict)
    (seen : gset string) (items : list dict) : gset string * list dict :=
  match results with
  | [] => (seen, items)
  | it :: rest =>
      match Py.get it "link" with
      | PyStr link =>
          if negb (Py.str_truthy link) || bool_decide (link ∈ seen)
          then scan_results budget rest seen items
          else
            let seen' := seen ∪ {[link]} in
            let items' := items ++ [it] in
            if budget <=? Py.llen items' then (seen', items')
            else scan_results budget rest seen' items'
      | PyNone => scan_results budget rest seen items
      end
  end.

(** The outer loop of [smart_search] over the query variants. *)
Fixpoint search_variants (budget : Z) (queries : list string)
    (seen : gset string) (items : list dict) : M (list dict) :=
  match queries with
  | [] => ret items
  | q :: rest =>
      do results <- google_search_once q 10;
      let '(seen', items') := scan_results budget results seen items in
      if budget <=? Py.llen items' then ret items'
      else search_variants budget rest seen' items'
  end.

Definition query_variants (query : string) : list string :=
  [query; query +:+ " official list"; query +:+ " locations"]
    ++ map (λ hint, query +:+ " " +:+ hint) AUTHORITATIVE_HINTS.

Definition search_budget (k : Z) : Z := Z.max 12 (k * 2).

(** [smart_search] up to its light quality filter: the merged
    candidate list [items]. *)
Definition smart_search_items (query : string) (k : Z) : M (list dict) :=
  search_variants (search_budget k) (query_variants query) ∅ [].

Definition has_title_and_link (it : dict) : bool :=
  Py.truthy (Py.get it "title") && Py.truthy (Py.get it "link").

Definition smart_search (query : string) (k : Z) : M (list dict) :=
  do items <- smart_search_items query k;
  let good := filter (λ it, has_title_and_link it = true) items in
  ret (Py.take_to (Z.max 10 k) good).

(** *** Qualification *)

(** The dictionary [{"title": .., "link": .., "content": ..}]. *)
Definition source_dict (title link content : pyval) : dict :=
  {[ "title" := title; "link" := link; "content" := content ]}.

Definition is_whitelisted (link : pyval) : bool :=
  existsb (λ d, Py.contains d (Py.or_empty link)) WHITELIST_DOMAINS.

Definition long_enough (content : string) : bool :=
  Py.str_truthy content && (LONG_ENOUGH <=? Py.len content).

(** The loop of [strong_sources], from the sources collected so far. *)
Fixpoint strong_sources_loop (results : list dict) (k : Z)
    (sources : list dict) : M (list dict) :=
  match results with
  | [] => ret sources
  | r :: rest =>
      let link := Py.get r "link" in
      let title := Py.or_ (Py.get r "title") (PyStr "Untitled") in
      if negb (Py.truthy link) then strong_sources_loop rest k sources
      else
        do content <- fetch_text link FETCH_MAX_CHARS;
        let sources' :=
          if is_whitelisted link || long_enough content
          then sources ++ [source_dict title link (PyStr content)]
          else sources in
        if k <=? Py.llen sources' then ret sources'
        else strong_sources_loop rest k sources'
  end.

Definition strong_sources (results : list dict) (k : Z) : M (list dict) :=
  strong_sources_loop results k [].

(** *** Summary *)

Definition excerpt (s : dict) : string :=
  Py.slice_to EXCERPT_CAP (Py.or_empty (Py.get s "content")).

(** The lines of one block, as the f-string fills them in. *)
Definition source_line (i : Z) : string :=
  "[Source " +:+ Py.str_of_int i +:+ "]".

Definition title_line (s : dict) : string :=
  "Title: " +:+ Py.str (Py.or_ (Py.get s "title") (PyStr "Untitled")).

Definition url_line (s : dict) : string :=
  "URL: " +:+ Py.str (Py.get s "link").

(** The indentation of the template in the source. *)
Definition INDENT : string := "        ".

(** The f-string of one block, before [dedent] and [strip]. *)
Definition block_text (i : Z) (s : dict) : string :=
  NL +:+ INDENT +:+ source_line i +:+ NL
     +:+ INDENT +:+ title_line s +:+ NL
     +:+ INDENT +:+ url_line s +:+ NL
     +:+ INDENT +:+ "Excerpt:" +:+ NL
     +:+ INDENT +:+ excerpt s +:+ NL
     +:+ INDENT.

Definition block (i : Z) (s : dict) : string :=
  Py.strip (textwrap_dedent env (block_text i s)).

(** The loop over [enumerate(sources, start=i)]. *)
Fixpoint context_blocks_from (i : Z) (sources : list dict) : list string :=
  match sources with
  | [] => []
  | s :: rest => block i s :: context_blocks_from (i + 1) rest
  end.

Definition context_blocks (sources : list dict) : list string :=
  context_blocks_from 1 sources.

(** The apostrophe of [aren't] is a mis-decoded three-character sequence
    in the source. *)
Definition system_prompt : string :=
  "You are a precise research assistant. Prefer answers grounded in the provided sources, "
  +:+ "with citations like [1], [2]. If the question concerns widely accepted general facts "
  +:+ "(e.g., capitals, well-known lists, definitions) and the provided sources are thin, you may "
  +:+ "answer succinctly using general knowledge, but still try to ground with at least one reputable "
  +:+ "source from those provided. If essential details truly aren't in the sources and not reliable "
  +:+ "as general knowledge, say what is missing and suggest the single best next source to check.".

Definition user_prompt (sources : list dict) (user_query : string) : string :=
  "user_query: " +:+ user_query +:+ NL +:+ NL +:+ "Sources:" +:+ NL
    +:+ Py.join (NL +:+ NL) (context_blocks sources).

Definition summarize_with_claude (sources : list dict) (user_query : string)
  : M string :=
  let prompt := user_prompt sources user_query in
  run log (EvLLM system_prompt prompt);
  do content <- call (claude_messages_create env
                        "claude-3-5-sonnet-latest" 1400 system_prompt prompt);
  let parts :=
    map ptext (filter (λ p, ptype p = "text") content) in
  ret (Py.strip (Py.join EmptyString parts)).

(** *** Orchestration *)

(** [d[key]] *)
Definition getitem (d : dict) (key : string) : M pyval :=
  match d !! key with
  | Some v => ret v
  | None => raise (KeyError key)
  end.

(** The comprehension of the final fallback, over [results[:k]]. *)
Fixpoint fallback_each (rs : list dict) : M (list dict) :=
  match rs with
  | [] => ret []
  | r :: rest =>
      let title := Py.get_default r "title" (PyStr "Untitled") in
      let link := Py.get r "link" in
      do content <- fetch_text (Py.get r "link") FETCH_MAX_CHARS;
      do more <- fallback_each rest;
      ret (source_dict title link (PyStr content) :: more)
  end.

Definition fallback_sources (results : list dict) (k : Z) : M (list dict) :=
  fallback_each (Py.take_to k results).

(** The comprehension that builds the slim sources. *)
Fixpoint slim_sources (sources : list dict) : M (list dict) :=
  match sources with
  | [] => ret []
  | s :: rest =>
      do title <- getitem s "title";
      do link <- getitem s "link";
      do more <- slim_sources rest;
      ret (({[ "title" := title; "link" := link ]} : dict) :: more)
  end.

Definition NO_RESULTS : exn :=
  HTTPException 400 "No search results. Check Google CSE settings.".

Definition agentic_search (query : string) (k : Z)
  : M (string * list dict) :=
  do results <- smart_search query (Z.max 10 (k * 2));
  match results with
  | [] => raise NO_RESULTS
  | _ :: _ =>
      do strong <- strong_sources results k;
      do sources <-
        match strong with
        | [] => fallback_sources results k
        | _ :: _ => ret strong
        end;
      do answer <- summarize_with_claude sources query;
      do slim <- slim_sources sources;
      ret (answer, slim)
  end.

(** *** The endpoint *)

(** Building the [SearchResponse] checks that the slim titles and links
    are strings, which they are by then; the check is left out. *)
Definition search (req : SearchRequest) : M SearchResponse :=
  try_except
    (do r <- agentic_search (query_of req) (k_of req);
     ret {| response_query := query_of req;
            response_answer := fst r;
            response_sources := snd r |})
    (λ e,
       match e with
       | APIStatusError _ =>
           raise (HTTPException 502 ("Claude error: " +:+ exn_str env e))
       | _ => raise (HTTPException 500 (exn_str env e))
       end).

End Pipeline.

(** ** Notions the properties are stated with *)

(** The link an item is merged under: its ["link"], when non-empty. *)
Definition item_link (it : dict) : option string :=
  match Py.get it "link" with
  | PyStr link => if Py.str_truthy link then Some link else None
  | PyNone => None
  end.

(** The links of a list of items, in order, and as a set. *)
Definition links (l : list dict) : list string := omap item_link l.
Definition link_set (l : list dict) : gset string := list_to_set (links l).

(** First-seen deduplication by link, as the data model words it: going
    through [l] in order, an item is kept when it has a link that no
    earlier item had (nor [seen]); the kept items stay in their order. *)
Fixpoint first_seen (seen : gset string) (l : list dict) : list dict :=
  match l with
  | [] => []
  | it :: rest =>
      match item_link it with
      | Some link =>
          if decide (link ∈ seen) then first_seen seen rest
          else it :: first_seen (seen ∪ {[link]}) rest
      | None => first_seen seen rest
      end
  end.

(** The items the search provider returned, over a stretch of the trace,
    in the order of the calls. *)
Fixpoint searched (evs : list event) : list dict :=
  match evs with
  | [] => []
  | EvSearch _ _ items :: rest => items ++ searched rest
  | _ :: rest => searched rest
  end.

Definition is_search (ev : event) : Prop :=
  match ev with EvSearch _ _ _ => True | _ => False end.

(** The content a source carries, and the policy of [strong_sources]:
    the link is on a trusted domain, or the content is long enough. *)
Definition content_of (s : dict) : string := Py.or_empty (Py.get s "content").

Definition meets_policy (s : dict) : bool :=
  is_whitelisted (Py.get s "link") || long_enough (content_of s).

(** A string of the form ["[Fetch error for {url}: ...]"]. *)
Definition is_fetch_error (url : pyval) (content : string) : bool :=
  Py.startswith ("[Fetch error for " +:+ Py.str url +:+ ": ") content
  && Py.endswith "]" content.

(** The policy with error placeholders ruled out of the long-enough
    case. *)
Definition meets_policy_sans_errors (s : dict) : bool :=
  is_whitelisted (Py.get s "link")
  || long_enough (content_of s)
     && negb (is_fetch_error (Py.get s "link") (content_of s)).

(** A dictionary with the three keys of a qualified source. *)
Definition is_source (s : dict) : Prop :=
  ∃ title link content, s = source_dict title link (PyStr content).

Definition is_fetch (ev : event) : Prop :=
  match ev with EvFetch _ => True | _ => False end.

(** The slim projection of a source. *)
Definition slim_of (s : dict) : dict :=
  {[ "title" := Py.get s "title"; "link" := Py.get s "link" ]}.

(** ** A small world to run the pipeline in

    The world is the number of calls made so far; each collaborator is a
    plain function of its argument. *)

Definition plain_str (e : exn) : string :=
  match e with
  | HTTPException c d => Py.str_of_int c +:+ ": " +:+ d
  | APIStatusError m => m
  | HTTPError c => Py.str_of_int c +:+ " Error"
  | KeyError k => "'" +:+ k +:+ "'"
  | Exception_ m => m
  end.

Definition tick {A} (r : result A) (w : nat) : result A * nat := (r, S w).

Definition toy_env
    (search : string → result (option (list dict)))
    (fetch_url : pyval → result (option string))
    (extract : string → result (option string))
    (get : pyval → result Response)
    (soup : string → result string)
    (llm : string → result (list part)) : Collaborators nat :=
  {| cse_list_execute := λ q _, tick (search q);
     trafilatura_fetch_url := λ url, tick (fetch_url url);
     trafilatura_extract := extract;
     session_get := λ url _, tick (get url);
     soup_get_text := soup;
     textwrap_dedent := λ s, s;
     claude_messages_create := λ _ _ _ user, tick (llm user);
     exn_str := plain_str |}.

Definition start : state nat := {| world := O; trace := [] |}.

(** Nothing can be reached: every page fetch fails with [msg]. *)
Definition offline_env (search : string → result (option (list dict)))
    (msg : string) : Collaborators nat :=
  toy_env search
    (λ _, Raise (Exception_ msg)) (λ _, Ok None)
    (λ _, Raise (Exception_ msg)) (λ s, Ok s)
    (λ _, Ok [{| ptype := "text"; ptext := "answer [1]" |}]).

(** Every page is served as [page url] and the primary extractor finds
    nothing in it, so the fallback extraction decides. *)
Definition plain_env (search : string → result (option (list dict)))
    (page : pyval → string) : Collaborators nat :=
  toy_env search
    (λ _, Ok None) (λ _, Ok None)
    (λ url, Ok {| status_code_of := 200; text_of := page url |}) (λ s, Ok s)
    (λ _, Ok [{| ptype := "text"; ptext := "answer [1]" |}]).

(** A search result with a title and a link. *)
Definition item (title link : string) : dict :=
  {[ "title" := PyStr title; "link" := PyStr link ]}.

(** Ten results per query, with links that differ between queries. *)
Definition ten_results (q : string) : list dict :=
  map (λ d, item ("Page " +:+ d) ("http://" +:+ q +:+ ".test/" +:+ d))
      ["0"; "1"; "2"; "3"; "4"; "5"; "6"; "7"; "8"; "9"].

(** The same two results whatever the query, the first of them twice. *)
Definition same_results : list dict :=
  [ item "A" "http://a.test/"; item "A again" "http://a.test/";
    item "B" "http://b.test/" ].

(** Three results off the trusted domains, whatever the query. *)
Definition three_results : list dict :=
  [ item "A" "http://a.test/"; item "B" "http://b.test/";
    item "C" "http://c.test/" ].

(** The trace of the eight variants of ["q"], each answered by [items]. *)
Definition searches (items : list dict) : list event :=
  (λ q, EvSearch q 10 items) <$> query_variants "q".

(** A text of [n] characters. *)
Fixpoint filler (n : nat) : string :=
  match n with O => EmptyString | S n' => String "e" (filler n') end.

(** ** Start-up *)

(** The check the module makes on its three environment variables when it
    is loaded; [os.getenv] gives a string or [None], and the
    [RuntimeError] is rendered by [Exception_]. *)
Definition check_env (ANTHROPIC_API_KEY GSEARCH_API_KEY SEARCH_ENGINE_ID : pyval)
  : result unit :=
  if negb (Py.truthy ANTHROPIC_API_KEY)
  then Raise (Exception_ "ANTHROPIC_API_KEY missing in .env")
  else if negb (Py.truthy GSEARCH_API_KEY && Py.truthy SEARCH_ENGINE_ID)
  then Raise (Exception_ "GSEARCH_API_KEY or SEARCH_ENGINE_ID missing in .env")
  else Ok tt.

(** ** Further notions *)

(** A candidate the qualifier does not skip. *)
Definition has_link (r : dict) : bool := Py.truthy (Py.get r "link").

(** The trace entries of a fetch of a candidate's link and of a search
    that asked for ten results. *)
Definition fetch_of (r : dict) : event := EvFetch (Py.get r "link").
Definition search_of (q : string) (items : list dict) : event :=
  EvSearch q 10 items.

(** The source [strong_sources] makes of a candidate and a content. *)
Definition strong_source (r : dict) (content : string) : dict :=
  source_dict (Py.or_ (Py.get r "title") (PyStr "Untitled"))
              (Py.get r "link") (PyStr content).

(** A slim source whose title and link are non-empty strings. *)
Definition is_slim (d : dict) : Prop :=
  ∃ title link, d = item title link ∧ title ≠ "" ∧ link ≠ "".

(** No white space at either end. *)
Definition stripped (s : string) : Prop := Py.strip s = s.

(** What the primary extraction of [fetch_text] makes of a download: the
    text it returns for the page, if it finds any. *)
Definition primary_text {World} (env : Collaborators World)
    (downloaded : option string) (max_chars : Z) : result (option string) :=
  match downloaded with
  | Some html =>
      if Py.str_truthy html then
        match trafilatura_extract env html with
        | Ok (Some t) =>
            if Py.str_truthy t && Py.str_truthy (Py.strip t)
            then Ok (Some (Py.slice_to max_chars (Py.strip t)))
            else Ok None
        | Ok None => Ok None
        | Raise e => Raise e
        end
      else Ok None
  | None => Ok None
  end.

(** No line boundary among the characters of a string. *)
Fixpoint one_line (s : string) : Prop :=
  match s with
  | EmptyString => True
  | String c s' => Py.is_linebreak c = false ∧ one_line s'
  end.

(** A candidate on a trusted domain. *)
Definition on_whitelist (r : dict) : bool := is_whitelisted (Py.get r "link").

(** ** [textwrap.dedent]

    The function of Python's standard library that [summarize_with_claude]
    passes every block through, as it is implemented with two patterns in
    multi-line mode: [_whitespace_only_re], a line of one or more spaces
    and tabs, and [_leading_whitespace_re], the spaces and tabs before the
    first other character of a line.  In that mode the lines of a text are
    what lies between its line feeds, so the function is given line by
    line: the lines of spaces and tabs are emptied, the margin is the
    longest run of spaces and tabs that all lines with text begin with,
    and a margin that is not empty is cut off every line that begins with
    it.  (This is the library up to Python 3.13; later versions also
    empty the lines made of other white space, and give the same result
    on a text that has no such line.) *)

(** A space or a tab. *)
Definition is_blank (c : ascii) : bool :=
  ((nat_of_ascii c =? 32) || (nat_of_ascii c =? 9))%nat.

(** The stretches of a text between its line feeds: [text.split("\n")]. *)
Fixpoint lines_of (text : string) : list string :=
  match text with
  | EmptyString => [EmptyString]
  | String c rest =>
      if (nat_of_ascii c =? 10)%nat then EmptyString :: lines_of rest
      else match lines_of rest with
           | line :: lines => String c line :: lines
           | [] => [String c EmptyString]
           end
  end.

(** The spaces and tabs a line begins with. *)
Fixpoint indent_of (line : string) : string :=
  match line with
  | EmptyString => EmptyString
  | String c rest =>
      if is_blank c then String c (indent_of rest) else EmptyString
  end.

(** A line with a character other than space and tab: the lines
    [_leading_whitespace_re] finds an indentation for. *)
Definition has_text (line : string) : bool :=
  negb (String.eqb (indent_of line) line).

(** [_whitespace_only_re.sub('', text)], line by line. *)
Definition blank_out (line : string) : string :=
  if has_text line then line else EmptyString.

(** [margin[:i]] for the first [i] at which [margin] and [indent]
    differ. *)
Fixpoint common_prefix (a b : string) : string :=
  match a, b with
  | String x a', String y b' =>
      if Ascii.eqb x y then String x (common_prefix a' b') else EmptyString
  | _, _ => EmptyString
  end.

(** One round of the loop over [indents]; [margin] is [None] before the
    first. *)
Definition narrow (margin : option string) (indent : string) : option string :=
  match margin with
  | None => Some indent
  | Some m =>
      if Py.startswith m indent then Some m
      else if Py.startswith indent m then Some indent
      else Some (common_prefix m indent)
  end.

(** [s[n:]] *)
Fixpoint str_drop (n : nat) (s : string) : string :=
  match n, s with
  | O, _ => s
  | S n', String _ s' => str_drop n' s'
  | S _, EmptyString => EmptyString
  end.

(** [re.sub(r'(?m)^' + margin, '', text)], line by line. *)
Definition cut_margin (margin line : string) : string :=
  if Py.startswith margin line then str_drop (String.length margin) line
  else line.

(** [_leading_whitespace_re.findall(text)], over the lines. *)
Definition indents (lines : list string) : list string :=
  map indent_of (filter (λ line, has_text line = true) lines).

(** [dedent] on the lines of the text; [if margin:] is false for [None]
    and for the empty margin. *)
Definition dedent_lines (lines : list string) : list string :=
  let lines := map blank_out lines in
  match foldl narrow None (indents lines) with
  | Some margin =>
      if Py.str_truthy margin then map (cut_margin margin) lines else lines
  | None => lines
  end.

Definition dedent (text : string) : string :=
  Py.join NL (dedent_lines (lines_of text)).

(** A text without a line feed. *)
Definition single_line (text : string) : Prop := lines_of text = [text].

(** A line that is empty or begins with a character other than white
    space, and a text all of whose lines are such. *)
Definition flush_left (line : string) : bool :=
  match line with
  | EmptyString => true
  | String c _ => negb (Py.isspace c)
  end.

Definition flush (text : string) : Prop :=
  Forall (λ line, flush_left line = true) (lines_of text).

(** The collaborators [env], with [textwrap.dedent] as the standard
    library has it. *)
Definition with_dedent {World} (env : Collaborators World)
  : Collaborators World :=
  {| cse_list_execute := cse_list_execute env;
     trafilatura_fetch_url := trafilatura_fetch_url env;
     trafilatura_extract := trafilatura_extract env;
     session_get := session_get env;
     soup_get_text := soup_get_text env;
     textwrap_dedent := dedent;
     claude_messages_create := claude_messages_create env;
     exn_str := exn_str env |}.

(** ** Notions for the fallback and the trusted domains *)

(** The contents [fetch_text] returns for the links of the candidates
    [rs], fetched one after the other from [st] on; [st'] is the state
    after the last of them. *)
Fixpoint fetched_in_turn {World} (env : Collaborators World)
    (st : state World) (rs : list dict) (contents : list string)
    (st' : state World) : Prop :=
  match rs, contents with
  | [], [] => st' = st
  | r :: rs, content :: contents =>
      ∃ st1,
        fetch_text env (Py.get r "link") FETCH_MAX_CHARS st = (Ok content, st1)
        ∧ fetched_in_turn env st1 rs contents st'
  | _, _ => False
  end.

(** The source the fallback makes of a candidate and a content. *)
Definition fallback_source (r : dict) (content : string) : dict :=
  source_dict (Py.get_default r "title" (PyStr "Untitled"))
              (Py.get r "link") (PyStr content).

(** A blog and an encyclopedia article, whatever the query; the blog has
    a short text and the article no text at all. *)
Definition blog_and_wiki : list dict :=
  [ item "Blog" "http://blog.test/wonders";
    item "Wonders" "https://en.wikipedia.org/wiki/Wonders" ].

Definition blog_or_blank (url : pyval) : string :=
  if is_whitelisted url then "   " +:+ NL +:+ "  " else "A short post.".

(** ** The standalone script, [backend/agentic_search.py]

    The script has its own search, extraction and summary, close to those
    of the server but not the same: no query variants, no status check, no
    qualification, other limits. *)

Module Standalone.

(** The default of [fetch_text]'s [max_chars], and the excerpt cap. *)
Definition FETCH_MAX_CHARS : Z := 20000.
Definition EXCERPT_CAP : Z := 4000.

(** The collaborators of the script. *)
Record Env (World : Type) := {
  (** [build(...)], then [service.cse().list(q=, cx=, num=).execute()],
      read at ["items"] *)
  cse_list_execute : string → Z → World → result (option (list dict)) * World;
  (** [requests.get(url, timeout=)] *)
  requests_get : pyval → Z → World → result Response * World;
  (** [BeautifulSoup(html, "html.parser")], the three kinds of tags
      decomposed, then [soup.get_text(separator="\n")] *)
  soup_get_text : string → result string;
  (** [textwrap.dedent] *)
  textwrap_dedent : string → string;
  (** [claude.messages.create(...)], read at [.content] *)
  claude_messages_create :
    string → Z → string → string → World → result (list part) * World;
  (** [str(e)] *)
  exn_str : exn → string;
  (** [print(line)] *)
  print : string → World → result unit * World;
}.
Arguments cse_list_execute {World}.
Arguments requests_get {World}.
Arguments soup_get_text {World}.
Arguments textwrap_dedent {World}.
Arguments claude_messages_create {World}.
Arguments exn_str {World}.
Arguments print {World}.

Section Script.
Context {World : Type} (env : Env World).

Local Abbreviation M := (M World).

Definition google_search (query : string) (num_results : Z) : M (list dict) :=
  do res <- call (cse_list_execute env query num_results);
  let items := default [] res in
  run log (EvSearch query num_results items);
  ret items.

(** The body of the [try] block of [fetch_text]. *)
Definition fetch_text_try (url : pyval) (max_chars : Z) : M string :=
  do resp <- call (requests_get env url 12);
  do raw <- lift (soup_get_text env (text_of resp));
  ret (Py.slice_to max_chars (clean_lines raw)).

Definition fetch_error (url : pyval) (e : exn) : string :=
  "[Fetch error for " +:+ Py.str url +:+ ": " +:+ exn_str env e +:+ "]".

Definition fetch_text (url : pyval) (max_chars : Z) : M string :=
  run log (EvFetch url);
  try_except (fetch_text_try url max_chars)
             (λ e, ret (fetch_error url e)).

(** [s.get('content', '')[:4000]]: a [None] cannot be sliced. *)
Definition excerpt (s : dict) : result string :=
  match Py.get_default s "content" (PyStr "") with
  | PyStr content => Ok (Py.slice_to EXCERPT_CAP content)
  | PyNone => Raise (Exception_ "'NoneType' object is not subscriptable")
  end.

(** One block: the f-string, then [dedent] and [strip]. *)
Definition block (i : Z) (s : dict) : result string :=
  match excerpt s with
  | Ok ex =>
      Ok (Py.strip (textwrap_dedent env
            (NL +:+ INDENT +:+ source_line i +:+ NL
                +:+ INDENT +:+ title_line s +:+ NL
                +:+ INDENT +:+ url_line s +:+ NL
                +:+ INDENT +:+ "Excerpt:" +:+ NL
                +:+ INDENT +:+ ex +:+ NL
                +:+ INDENT)))
  | Raise e => Raise e
  end.

Fixpoint context_blocks_from (i : Z) (sources : list dict)
  : result (list string) :=
  match sources with
  | [] => Ok []
  | s :: rest =>
      match block i s with
      | Ok b =>
          match context_blocks_from (i + 1) rest with
          | Ok bs => Ok (b :: bs)
          | Raise e => Raise e
          end
      | Raise e => Raise e
      end
  end.

Definition system_prompt : string :=
  "You are a careful research assistant. "
  +:+ "Answer the user query using only the information from the provided sources when possible. "
  +:+ "Cite sources inline like [1], [2] where you use them. If something isn't supported by the sources, say so.".

Definition user_prompt (context user_query : string) : string :=
  Py.strip (textwrap_dedent env
    (NL +:+ "    user_query: " +:+ user_query +:+ NL
        +:+ NL
        +:+ "    Here are web sources. Use them to produce a concise, well-structured answer with citations:" +:+ NL
        +:+ NL
        +:+ "    " +:+ context +:+ NL
        +:+ "    ")).

Definition summarize_with_claude (sources : list dict) (user_query : string)
  : M string :=
  do blocks <- lift (context_blocks_from 1 sources);
  let prompt := user_prompt (Py.join (NL +:+ NL) blocks) user_query in
  run log (EvLLM system_prompt prompt);
  do content <- call (claude_messages_create env
                        "claude-3-5-sonnet-latest" 1200 system_prompt prompt);
  ret (Py.join EmptyString
         (map ptext (filter (λ p, ptype p = "text") content))).

Definition NO_RESULTS : string :=
  "No search results returned. Check your Google CSE settings (entire web, API enabled).".

(** The loop of [agentic_search] over the results. *)
Fixpoint fetch_all (results : list dict) (sources : list dict)
  : M (list dict) :=
  match results with
  | [] => ret sources
  | r :: rest =>
      let link := Py.get r "link" in
      let title := Py.get r "title" in
      run call (print env ("📎 Fetching: " +:+ Py.str title +:+ " — "
                            +:+ Py.str link));
      do content <- fetch_text link FETCH_MAX_CHARS;
      fetch_all rest (sources ++ [source_dict title link (PyStr content)])
  end.

Definition agentic_search (query : string) (k : Z) : M string :=
  run call (print env ("🔎 Searching: " +:+ query));
  do results <- google_search query k;
  match results with
  | [] => ret NO_RESULTS
  | _ :: _ =>
      do sources <- fetch_all results [];
      run call (print env "🤖 Asking Claude...");
      summarize_with_claude sources query
  end.

End Script.

End Standalone.

(** A small world for the script: the search answers [search], every
    page is served as [get url], printing works, and the LLM replies with
    [llm]. *)
Definition script_env (search : result (option (list dict)))
    (get : pyval → result Response) (llm : result (list part))
  : Standalone.Env nat :=
  {| Standalone.cse_list_execute := λ _ _, tick search;
     Standalone.requests_get := λ url _, tick (get url);
     Standalone.soup_get_text := λ s, Ok s;
     Standalone.textwrap_dedent := λ s, s;
     Standalone.claude_messages_create := λ _ _ _ _, tick llm;
     Standalone.exn_str := plain_str;
     Standalone.print := λ _, tick (Ok tt) |}.

(** ** Properties *)

(** Splits a conjunction and closes the parts that hold by a
    constructor or a hypothesis. *)
Ltac split_all :=
  repeat split; auto; repeat (constructor; simpl; auto).

(** Closed equations between runs of the pipeline are checked by
    evaluation. *)
Ltac vm_refl :=
  lazymatch goal with
  | |- ?l = ?r => exact (@eq_refl _ r <: l = r)
  end.

(** *** Strings and slices *)

Lemma str_take_length (n : nat) (s : string) :
  (String.length (Py.str_take n s) ≤ n)%nat.
Proof.
  revert s; induction n as [|n IH]; intros [|c s]; simpl; try lia.
  specialize (IH s); lia.
Qed.

Lemma slice_to_len (n : Z) (s : string) :
  0 ≤ n → Py.len (Py.slice_to n s) ≤ n.
Proof.
  intros Hn. unfold Py.slice_to, Py.len.
  destruct (Z.leb_spec 0 n); [|lia].
  pose proof (str_take_length (Z.to_nat n) s). lia.
Qed.

Lemma take_to_length {A} (n : Z) (l : list A) :
  0 ≤ n → Py.llen (Py.take_to n l) = Z.min n (Py.llen l).
Proof.
  intros Hn. unfold Py.take_to, Py.llen.
  destruct (Z.leb_spec 0 n); [|lia].
  rewrite length_take. lia.
Qed.

Lemma take_to_length_neg {A} (n : Z) (l : list A) :
  n < 0 → Py.llen (Py.take_to n l) = Z.max 0 (Py.llen l + n).
Proof.
  intros Hn. unfold Py.take_to, Py.llen.
  destruct (Z.leb_spec 0 n); [lia|].
  rewrite length_take. lia.
Qed.

(** *** Properties of extraction *)

Section Extraction.
Context {World : Type} (env : Collaborators World).

(** What the [try] block returns is cut to [max_chars]. *)
Lemma fetch_text_try_len url max_chars (st st' : state World) s :
  0 ≤ max_chars →
  fetch_text_try env url max_chars st = (Ok s, st') →
  Py.len s ≤ max_chars.
Proof.
  intros Hn. unfold fetch_text_try, bind, call, lift, ret, raise.
  intros H.
  repeat (case_match; simplify_eq/=);
    try (apply slice_to_len; assumption); exact Hn.
Qed.

(** [fetch_text] runs the [try] block after its log entry and turns an
    exception into the placeholder. *)
Lemma fetch_text_cases url max_chars (st : state World) :
  fetch_text env url max_chars st =
    match fetch_text_try env url max_chars
            {| world := world st; trace := trace st ++ [EvFetch url] |} with
    | (Ok s, st') => (Ok s, st')
    | (Raise e, st') => (Ok (fetch_error env url e), st')
    end.
Proof. reflexivity. Qed.

Lemma fetch_text_returns url max_chars (st : state World) :
  ∃ s st', fetch_text env url max_chars st = (Ok s, st').
Proof.
  rewrite fetch_text_cases.
  destruct (fetch_text_try _ _ _ _) as [[s|e] st']; eauto.
Qed.

End Extraction.

(** C7: [fetch_text] always returns a string, never an exception; when
    anything inside its [try] block raises [e] (the fetch, the HTTP status
    check, the extraction or the parse), the string it returns is the
    placeholder ["[Fetch error for {url}: {e}]"]. *)
Theorem fetch_text_never_raises {World} (env : Collaborators World)
    (url : pyval) (max_chars : Z) (st : state World) :
  (∃ s st', fetch_text env url max_chars st = (Ok s, st')) ∧
  (∀ e st1,
     fetch_text_try env url max_chars
       {| world := world st; trace := trace st ++ [EvFetch url] |}
       = (Raise e, st1) →
     fetch_text env url max_chars st = (Ok (fetch_error env url e), st1)).
Proof.
  split; [apply fetch_text_returns|].
  intros e st1 H. rewrite fetch_text_cases, H. reflexivity.
Qed.

Lemma fetch_text_never_raises_witness :
  fetch_text (offline_env (λ _, Ok None) "timed out")
             (PyStr "http://x.test/") 30000 start
  = (Ok "[Fetch error for http://x.test/: timed out]",
     {| world := 1%nat; trace := [EvFetch (PyStr "http://x.test/")] |}).
Proof.
  exact (proj2 (fetch_text_never_raises
                  (offline_env (λ _, Ok None) "timed out")
                  (PyStr "http://x.test/") 30000 start)
               (Exception_ "timed out") _ eq_refl).
Defined.

(** C8, as stated, fails: the placeholder of a failed fetch is returned
    whole, whatever [max_chars] is; and a negative [max_chars] cuts from
    the end of the text, as Python's slices do. *)
Lemma fetch_text_not_cut_to_max_chars :
  (∃ s st',
     fetch_text (offline_env (λ _, Ok None) "boom") (PyStr "u") 3 start
       = (Ok s, st') ∧ ¬ Py.len s ≤ 3) ∧
  (∃ s st',
     fetch_text (plain_env (λ _, Ok None) (λ _, "hello")) (PyStr "u") (-1) start
       = (Ok s, st') ∧ ¬ Py.len s ≤ -1).
Proof.
  split; eexists _, _; (split; [vm_compute; reflexivity|]); vm_compute; congruence.
Qed.

(** C8, amended: for [max_chars ≥ 0] the string [fetch_text] returns has
    length at most [max_chars], unless it is the error placeholder, which
    is not cut. *)
Theorem fetch_text_cut_unless_error {World} (env : Collaborators World)
    (url : pyval) (max_chars : Z) (st st' : state World) (s : string) :
  0 ≤ max_chars →
  fetch_text env url max_chars st = (Ok s, st') →
  Py.len s ≤ max_chars ∨ ∃ e, s = fetch_error env url e.
Proof.
  intros Hn. rewrite fetch_text_cases.
  destruct (fetch_text_try _ _ _ _) as [[s0|e] st0] eqn:Htry; intros [= <- <-].
  - left. eapply fetch_text_try_len; eassumption.
  - right. eauto.
Qed.

Lemma fetch_text_cut_unless_error_witness :
  let env := plain_env (λ _, Ok None) (λ _, "hello") in
  let st' := {| world := 2%nat; trace := [EvFetch (PyStr "u")] |} in
  (0 ≤ 3 ∧ fetch_text env (PyStr "u") 3 start = (Ok "hel", st')) ∧
  (Py.len "hel" ≤ 3 ∨ ∃ e, "hel" = fetch_error env (PyStr "u") e).
Proof.
  intros env st'.
  assert (Hrun : fetch_text env (PyStr "u") 3 start = (Ok "hel", st'))
    by vm_refl.
  split; [split; [lia | exact Hrun]|].
  apply (fetch_text_cut_unless_error env (PyStr "u") 3 start st');
    [lia | exact Hrun].
Defined.

(** *** Properties of query expansion *)

Lemma first_seen_app seen (l1 l2 : list dict) :
  first_seen seen (l1 ++ l2)
  = first_seen seen l1 ++ first_seen (seen ∪ link_set l1) l2.
Proof.
  revert seen; induction l1 as [|it l1 IH]; intros seen; simpl.
  - f_equal. unfold link_set; simpl. set_solver.
  - unfold link_set, links in *; simpl.
    destruct (item_link it) as [lk|]; simpl; [|apply IH].
    destruct (decide (lk ∈ seen)).
    + rewrite IH. do 2 f_equal. set_solver.
    + simpl. rewrite IH. do 3 f_equal. set_solver.
Qed.

Lemma first_seen_sublist seen (l : list dict) :
  first_seen seen l `sublist_of` l.
Proof.
  revert seen; induction l as [|it l IH]; intros seen; simpl; [constructor|].
  destruct (item_link it) as [lk|]; [destruct (decide (lk ∈ seen))|];
    try (apply sublist_cons, IH). apply sublist_skip, IH.
Qed.

Lemma first_seen_linked seen (l : list dict) :
  Forall (λ it, is_Some (item_link it)) (first_seen seen l).
Proof.
  revert seen; induction l as [|it l IH]; intros seen; simpl; [constructor|].
  destruct (item_link it) as [lk|] eqn:E; [destruct (decide (lk ∈ seen))|];
    try apply IH. constructor; [rewrite E; eauto | apply IH].
Qed.

Lemma first_seen_links seen (l : list dict) :
  NoDup (links (first_seen seen l)) ∧
  ∀ lk, lk ∈ links (first_seen seen l) → lk ∉ seen.
Proof.
  revert seen; induction l as [|it l IH]; intros seen; simpl.
  - split; [constructor | intros lk H; inversion H].
  - destruct (item_link it) as [lk|] eqn:E; [|apply IH].
    destruct (decide (lk ∈ seen)) as [Hin|Hout]; [apply IH|].
    destruct (IH (seen ∪ {[lk]})) as [Hnd Hfresh].
    unfold links in *; simpl; rewrite E; simpl. split.
    + constructor; [|exact Hnd]. intros H. apply Hfresh in H. set_solver.
    + intros x Hx. apply elem_of_cons in Hx as [->|Hx]; [exact Hout|].
      apply Hfresh in Hx. set_solver.
Qed.

Lemma links_sublist (l1 l2 : list dict) :
  l1 `sublist_of` l2 → links l1 `sublist_of` links l2.
Proof.
  unfold links. induction 1 as [|x l1 l2 _ IH|x l1 l2 _ IH]; simpl.
  - constructor.
  - destruct (item_link x); [apply sublist_skip|]; exact IH.
  - destruct (item_link x); [apply sublist_cons|]; exact IH.
Qed.

(** Every link of [l] is seen once [l] has been gone through. *)
Lemma first_seen_link_set seen (l : list dict) :
  seen ∪ link_set (first_seen seen l) = seen ∪ link_set l.
Proof.
  revert seen; induction l as [|it l IH]; intros seen; simpl; [done|].
  unfold link_set, links in *; simpl.
  destruct (item_link it) as [lk|] eqn:E; simpl; [|apply IH].
  destruct (decide (lk ∈ seen)).
  - rewrite IH. set_solver.
  - simpl. rewrite E. simpl. specialize (IH (seen ∪ {[lk]})). set_solver.
Qed.

Lemma link_set_cons it (l : list dict) :
  link_set (it :: l)
  = match item_link it with
    | Some lk => {[lk]} ∪ link_set l
    | None => link_set l
    end.
Proof. unfold link_set, links; simpl. destruct (item_link it); done. Qed.

(** The inner loop adds the first-seen items of [results], up to the
    budget; when it runs to the end, every link of [results] is seen. *)
Lemma scan_results_spec budget (results : list dict) seen (items : list dict) :
  Py.llen items < budget →
  (scan_results budget results seen items).2
    = items ++ take (Z.to_nat budget - length items) (first_seen seen results)
  ∧ (Py.llen (scan_results budget results seen items).2 < budget →
     (scan_results budget results seen items).1 = seen ∪ link_set results).
Proof.
  unfold Py.llen.
  revert seen items; induction results as [|it rest IH]; intros seen items Hlt.
  - simpl. rewrite take_nil, app_nil_r. split; [done|]. intros _.
    unfold link_set; simpl. set_solver.
  - simpl. rewrite link_set_cons. unfold item_link.
    destruct (Py.get it "link") as [|link]; [apply IH, Hlt|].
    destruct (Py.str_truthy link); simpl; [|apply IH, Hlt].
    rewrite bool_decide_decide.
    destruct (decide (link ∈ seen)) as [Hin|Hout]; simpl.
    + destruct (IH seen items Hlt) as [IH1 IH2]. split; [exact IH1|].
      intros H. rewrite (IH2 H). set_solver.
    + replace (Z.to_nat budget - length items)%nat
        with (S (Z.to_nat budget - length (items ++ [it])))%nat
        by (rewrite length_app; simpl; lia).
      simpl. unfold Py.llen.
      destruct (Z.leb_spec budget (Z.of_nat (length (items ++ [it]))))
        as [Hfull|Hroom]; simpl.
      * replace (Z.to_nat budget - length (items ++ [it]))%nat with O
          by (rewrite length_app in *; simpl in *; lia).
        rewrite take_0. split; [done|]. lia.
      * destruct (IH (seen ∪ {[link]}) (items ++ [it]) Hroom) as [IH1 IH2].
        split; [rewrite IH1, <- app_assoc; done|].
        intros H. rewrite (IH2 H). set_solver.
Qed.

Section Expansion.
Context {World : Type} (env : Collaborators World).

(** A search that returns adds one entry to the trace, with its items. *)
Lemma google_search_once_ok q num (st st' : state World) items :
  google_search_once env q num st = (Ok items, st') →
  trace st' = trace st ++ [EvSearch q (Z.min num 10) items].
Proof.
  unfold google_search_once, bind, call, log, ret. intros H.
  repeat (case_match; simplify_eq/=). reflexivity.
Qed.

(** The outer loop: what it returns is the items it started from, then
    the first-seen items of everything the provider returned, cut at the
    budget; and it only searches. *)
Lemma search_variants_spec budget queries seen (items : list dict)
    (st st' : state World) out :
  Py.llen items < budget →
  search_variants env budget queries seen items st = (Ok out, st') →
  ∃ evs, trace st' = trace st ++ evs ∧ Forall is_search evs ∧
    out = items ++ take (Z.to_nat budget - length items)
                        (first_seen seen (searched evs)).
Proof.
  revert seen items st; induction queries as [|q rest IH];
    intros seen items st Hlt; simpl.
  - intros [= <- <-]. exists []. rewrite !app_nil_r. simpl.
    rewrite take_nil, app_nil_r. done.
  - unfold bind at 1.
    destruct (google_search_once env q 10 st) as [[results|e] st1] eqn:Hs;
      [|discriminate].
    apply google_search_once_ok in Hs.
    destruct (scan_results_spec budget results seen items Hlt) as [H2 H1].
    destruct (scan_results budget results seen items) as [seen' items'].
    simpl in H1, H2.
    destruct (Z.leb_spec budget (Py.llen items')) as [Hfull|Hroom].
    + intros [= <- <-]. eexists [_]. split; [exact Hs|]. split.
      * repeat constructor.
      * simpl. rewrite app_nil_r. exact H2.
    + intros Hrec. apply IH in Hrec as (evs & Htr & Hsrch & Hout);
        [|exact Hroom].
      exists (EvSearch q (Z.min 10 10) results :: evs).
      split; [rewrite Htr, Hs, <- app_assoc; done|].
      split; [constructor; [exact I | exact Hsrch]|].
      simpl. rewrite first_seen_app, Hout, (H1 Hroom).
      assert (Hall : take (Z.to_nat budget - length items)
                       (first_seen seen results) = first_seen seen results).
      { apply take_ge. unfold Py.llen in *. rewrite H2, length_app in Hroom.
        rewrite length_take in Hroom. lia. }
      rewrite H2, Hall, take_app_ge, <- app_assoc, length_app.
      * do 3 f_equal. lia.
      * unfold Py.llen in *. rewrite H2, Hall, length_app in Hroom. lia.
Qed.

End Expansion.

(** The candidate list in closed form. *)
Lemma smart_search_items_spec {World} (env : Collaborators World)
    (query : string) (k : Z) (st st' : state World) (items : list dict) :
  smart_search_items env query k st = (Ok items, st') →
  ∃ evs, trace st' = trace st ++ evs ∧ Forall is_search evs ∧
    items = take (Z.to_nat (search_budget k)) (first_seen ∅ (searched evs)).
Proof.
  unfold smart_search_items. intros H.
  apply search_variants_spec in H as (evs & Htr & Hevs & Hitems);
    [|unfold search_budget, Py.llen; simpl; lia].
  simpl in Hitems. rewrite Nat.sub_0_r in Hitems. eauto.
Qed.

Lemma take_to_sublist {A} (n : Z) (l : list A) : Py.take_to n l `sublist_of` l.
Proof. unfold Py.take_to. destruct (0 <=? n); apply sublist_take. Qed.

(** C5: the candidate list [smart_search] merges holds each link at most
    once, also when several variants return it, and is in first-seen
    order: it is the first-seen deduplication of everything the provider
    returned, in the order of the calls, cut at the budget.  The list
    [smart_search] returns is taken from it in order, so it holds each
    link at most once too. *)
Theorem smart_search_items_dedup {World} (env : Collaborators World)
    (query : string) (k : Z) (st : state World) :
  (∀ items st',
     smart_search_items env query k st = (Ok items, st') →
     ∃ evs, trace st' = trace st ++ evs ∧
       items = take (Z.to_nat (Z.max 12 (k * 2)))
                    (first_seen ∅ (searched evs)) ∧
       NoDup (links items) ∧
       Forall (λ it, is_Some (item_link it)) items) ∧
  (∀ out st',
     smart_search env query k st = (Ok out, st') →
     NoDup (links out) ∧ Forall (λ it, is_Some (item_link it)) out).
Proof.
  assert (Hitems : ∀ items st',
    smart_search_items env query k st = (Ok items, st') →
    ∃ evs, trace st' = trace st ++ evs ∧
      items = take (Z.to_nat (Z.max 12 (k * 2)))
                   (first_seen ∅ (searched evs)) ∧
      NoDup (links items) ∧ Forall (λ it, is_Some (item_link it)) items).
  { intros items st' H.
    apply smart_search_items_spec in H as (evs & Htr & _ & Hitems).
    exists evs. split; [exact Htr|]. split; [exact Hitems|].
    subst items. split.
    - exact (sublist_NoDup _ _ (proj1 (first_seen_links _ _))
                             (links_sublist _ _ (sublist_take _ _))).
    - apply Forall_take, first_seen_linked. }
  split; [exact Hitems|].
  intros out st'. unfold smart_search, bind, ret.
  destruct (smart_search_items env query k st) as [[items|e] st1] eqn:Hs;
    [|discriminate].
  intros [= <- <-].
  destruct (Hitems _ _ eq_refl) as (evs & _ & _ & Hnd & Hlinked).
  assert (Hsub : Py.take_to (Z.max 10 k)
                   (filter (λ it, has_title_and_link it = true) items)
                 `sublist_of` items)
    by (etrans; [apply take_to_sublist | apply sublist_filter]).
  split.
  - exact (sublist_NoDup _ _ Hnd (links_sublist _ _ Hsub)).
  - rewrite Forall_forall in Hlinked |- *. intros it Hit.
    apply Hlinked. eapply sublist_submseteq, elem_of_submseteq in Hsub;
      eassumption.
Qed.

Lemma smart_search_items_dedup_witness :
  smart_search_items (plain_env (λ _, Ok (Some same_results)) (λ _, ""))
    "q" 6 start
  = (Ok [item "A" "http://a.test/"; item "B" "http://b.test/"],
     {| world := 8%nat; trace := searches same_results |})
  ∧ NoDup (links [item "A" "http://a.test/"; item "B" "http://b.test/"]).
Proof.
  assert (Hrun :
    smart_search_items (plain_env (λ _, Ok (Some same_results)) (λ _, ""))
      "q" 6 start
    = (Ok [item "A" "http://a.test/"; item "B" "http://b.test/"],
       {| world := 8%nat; trace := searches same_results |})) by vm_refl.
  split; [exact Hrun|].
  destruct (proj1 (smart_search_items_dedup _ _ _ _) _ _ Hrun)
    as (evs & _ & _ & Hnd & _).
  exact Hnd.
Defined.

(** C4: the candidate list never holds more than [max(12, k*2)] items
    before the title/link filter, and [smart_search] never returns more
    than [max(10, k)] items. *)
Theorem smart_search_sizes {World} (env : Collaborators World)
    (query : string) (k : Z) (st : state World) :
  (∀ items st',
     smart_search_items env query k st = (Ok items, st') →
     Py.llen items ≤ Z.max 12 (k * 2)) ∧
  (∀ out st',
     smart_search env query k st = (Ok out, st') →
     Py.llen out ≤ Z.max 10 k).
Proof.
  split.
  - intros items st' H.
    apply smart_search_items_spec in H as (evs & _ & _ & ->).
    unfold Py.llen, search_budget. rewrite length_take. lia.
  - intros out st'. unfold smart_search, bind, ret.
    destruct (smart_search_items env query k st) as [[items|e] st1];
      [|discriminate].
    intros [= <- <-]. rewrite take_to_length; lia.
Qed.

Lemma smart_search_sizes_witness :
  let env := plain_env (λ q, Ok (Some (ten_results q))) (λ _, "") in
  let st' :=
    {| world := 2%nat;
       trace := [EvSearch "q" 10 (ten_results "q");
                 EvSearch "q official list" 10
                          (ten_results "q official list")] |} in
  let items := ten_results "q" ++ take 2 (ten_results "q official list") in
  smart_search_items env "q" 6 start = (Ok items, st') ∧
  smart_search env "q" 6 start = (Ok (ten_results "q"), st') ∧
  Py.llen items ≤ Z.max 12 (6 * 2) ∧
  Py.llen (ten_results "q") ≤ Z.max 10 6.
Proof.
  intros env st' items.
  assert (Hitems : smart_search_items env "q" 6 start = (Ok items, st'))
    by vm_refl.
  assert (Hout : smart_search env "q" 6 start = (Ok (ten_results "q"), st'))
    by vm_refl.
  split; [exact Hitems|]. split; [exact Hout|]. split.
  - exact (proj1 (smart_search_sizes env "q" 6 start) _ _ Hitems).
  - exact (proj2 (smart_search_sizes env "q" 6 start) _ _ Hout).
Defined.

(** *** Properties of qualification *)

Lemma source_dict_title t l c : Py.get (source_dict t l c) "title" = t.
Proof. reflexivity. Qed.

Lemma source_dict_link t l c : Py.get (source_dict t l c) "link" = l.
Proof. reflexivity. Qed.

Lemma source_dict_content t l c : Py.get (source_dict t l c) "content" = c.
Proof. reflexivity. Qed.

Lemma source_dict_meets_policy t l content :
  meets_policy (source_dict t l (PyStr content))
  = is_whitelisted l || long_enough content.
Proof.
  unfold meets_policy, content_of.
  rewrite source_dict_link, source_dict_content. reflexivity.
Qed.

Section Qualification.
Context {World : Type} (env : Collaborators World).

(** A fetch adds its one entry to the trace. *)
Lemma fetch_text_trace url max_chars (st st' : state World) s :
  fetch_text env url max_chars st = (Ok s, st') →
  trace st' = trace st ++ [EvFetch url].
Proof.
  unfold fetch_text, try_except, fetch_text_try, bind, call, lift, log,
    ret, raise.
  intros H. repeat (case_match; simplify_eq/=); reflexivity.
Qed.

(** The loop of [strong_sources] always returns; it keeps what it had
    and adds sources that meet the policy; it only fetches. *)
Lemma strong_sources_loop_spec (results : list dict) k (sources : list dict)
    (st : state World) :
  ∃ more st' evs,
    strong_sources_loop env results k sources st = (Ok (sources ++ more), st')
    ∧ Forall (λ s, meets_policy s = true ∧ is_source s) more
    ∧ trace st' = trace st ++ evs ∧ Forall is_fetch evs.
Proof.
  revert sources st; induction results as [|r rest IH]; intros sources st;
    simpl.
  - exists [], st, []. rewrite !app_nil_r. done.
  - destruct (Py.truthy (Py.get r "link")); simpl; [|apply IH].
    unfold bind at 1.
    destruct (fetch_text_returns env (Py.get r "link") FETCH_MAX_CHARS st)
      as (content & st1 & Hfetch).
    rewrite Hfetch. apply fetch_text_trace in Hfetch.
    set (src := source_dict (Py.or_ (Py.get r "title") (PyStr "Untitled"))
                            (Py.get r "link") (PyStr content)).
    assert (Hsrc : is_source src) by (eexists _, _, _; reflexivity).
    destruct (is_whitelisted (Py.get r "link") || long_enough content)
      eqn:Hpol.
    + assert (Hmeets : meets_policy src = true)
        by (unfold src; rewrite source_dict_meets_policy; exact Hpol).
      destruct (k <=? _).
      * exists [src], st1, [EvFetch (Py.get r "link")].
        split_all.
      * destruct (IH (sources ++ [src]) st1)
          as (more & st' & evs & -> & Hmore & Htr & Hevs).
        exists (src :: more), st', (EvFetch (Py.get r "link") :: evs).
        rewrite <- app_assoc, Htr, Hfetch, <- app_assoc.
        split_all.
    + destruct (k <=? _).
      * exists [], st1, [EvFetch (Py.get r "link")]. rewrite app_nil_r.
        split_all.
      * destruct (IH sources st1)
          as (more & st' & evs & -> & Hmore & Htr & Hevs).
        exists more, st', (EvFetch (Py.get r "link") :: evs).
        rewrite Htr, Hfetch, <- app_assoc.
        split_all.
Qed.

End Qualification.

(** C2, as stated, fails: the placeholder of a failed fetch counts as
    content.  A page off the trusted domains whose fetch fails with a
    long message is selected, with the placeholder as its content. *)
Lemma strong_sources_keeps_long_error :
  let env := offline_env (λ _, Ok None) (filler 800) in
  let s := source_dict (PyStr "T") (PyStr "http://x.test/")
             (PyStr ("[Fetch error for http://x.test/: "
                     +:+ filler 800 +:+ "]")) in
  strong_sources env [item "T" "http://x.test/"] 1 start
    = (Ok [s], {| world := 1%nat;
                  trace := [EvFetch (PyStr "http://x.test/")] |})
  ∧ is_whitelisted (Py.get s "link") = false
  ∧ is_fetch_error (Py.get s "link") (content_of s) = true
  ∧ meets_policy_sans_errors s = false.
Proof.
  intros env s. repeat split; vm_refl.
Qed.

(** C2, amended: [strong_sources] always returns, and each source it
    selects has a link that contains a whitelisted domain, or a content of
    at least 800 characters; the content may be an error placeholder. *)
Theorem strong_sources_meet_policy {World} (env : Collaborators World)
    (results : list dict) (k : Z) (st : state World) :
  ∃ sources st',
    strong_sources env results k st = (Ok sources, st') ∧
    Forall (λ s,
              (∃ d, d ∈ WHITELIST_DOMAINS ∧
                    Py.contains d (Py.or_empty (Py.get s "link")) = true)
              ∨ 800 ≤ Py.len (content_of s)) sources.
Proof.
  destruct (strong_sources_loop_spec env results k [] st)
    as (sources & st' & evs & Hrun & Hpol & _).
  exists sources, st'. split; [exact Hrun|].
  eapply Forall_impl; [exact Hpol|]. intros s [Hs _].
  unfold meets_policy in Hs. apply orb_true_iff in Hs as [Hw|Hl].
  - left. unfold is_whitelisted in Hw. apply existsb_exists in Hw.
    destruct Hw as (d & Hd & Hc). exists d. split; [|exact Hc].
    apply list_elem_of_In, Hd.
  - right. unfold long_enough in Hl. apply andb_true_iff in Hl as [_ Hl].
    apply Z.leb_le in Hl. exact Hl.
Qed.

(** *** Properties of the summary *)

Lemma append_cons c (s1 s2 : string) :
  String c s1 +:+ s2 = String c (s1 +:+ s2).
Proof. reflexivity. Qed.

Lemma append_assoc (s1 s2 s3 : string) :
  (s1 +:+ s2) +:+ s3 = s1 +:+ (s2 +:+ s3).
Proof.
  induction s1 as [|c s1 IH]; [reflexivity|].
  rewrite !append_cons, IH. reflexivity.
Qed.

Lemma append_nil_r (s : string) : s +:+ "" = s.
Proof. induction s as [|c s IH]; [reflexivity|]. rewrite append_cons, IH. reflexivity. Qed.

Lemma prefix_append (d rest : string) : String.prefix d (d +:+ rest) = true.
Proof.
  induction d as [|c d IH]; [destruct rest; reflexivity|].
  rewrite append_cons. simpl. destruct (ascii_dec c c); [exact IH|congruence].
Qed.

Lemma contains_of_prefix (d s : string) :
  String.prefix d s = true → Py.contains d s = true.
Proof. destruct s; simpl; intros ->; reflexivity. Qed.

Lemma contains_here (d rest : string) : Py.contains d (d +:+ rest) = true.
Proof. apply contains_of_prefix, prefix_append. Qed.

Lemma contains_later (before d s : string) :
  Py.contains d s = true → Py.contains d (before +:+ s) = true.
Proof.
  intros H. induction before as [|c before IH]; [exact H|].
  rewrite append_cons. simpl. rewrite IH. apply orb_true_r.
Qed.

Lemma context_blocks_from_length {World} (env : Collaborators World) i
    (sources : list dict) :
  length (context_blocks_from env i sources) = length sources.
Proof.
  revert i; induction sources as [|s rest IH]; intros i; simpl; [done|].
  rewrite IH. done.
Qed.

Lemma context_blocks_from_lookup {World} (env : Collaborators World) i
    (sources : list dict) (n : nat) (s : dict) :
  sources !! n = Some s →
  context_blocks_from env i sources !! n = Some (block env (i + Z.of_nat n) s).
Proof.
  revert i n; induction sources as [|s0 rest IH]; intros i n; [done|].
  destruct n as [|n]; simpl.
  - intros [= ->]. rewrite Z.add_0_r. done.
  - intros H. rewrite (IH _ _ H). do 2 f_equal. lia.
Qed.

(** **** [textwrap.dedent] on the template of a block *)

Lemma lines_of_cons (text : string) : ∃ line lines, lines_of text = line :: lines.
Proof.
  induction text as [|c rest (l & ls & IH)]; simpl; [eauto|].
  destruct (_ =? _)%nat; [eauto|]. rewrite IH. eauto.
Qed.

Lemma lines_of_app_nl (a b : string) :
  lines_of (a +:+ NL +:+ b) = lines_of a ++ lines_of b.
Proof.
  induction a as [|c a IH]; [reflexivity|].
  rewrite append_cons. simpl. rewrite IH.
  destruct (_ =? _)%nat; [reflexivity|].
  destruct (lines_of_cons a) as (l & ls & ->). reflexivity.
Qed.

Lemma lines_of_app_first (a b : string) :
  single_line a →
  lines_of (a +:+ b)
  = (a +:+ hd EmptyString (lines_of b)) :: tail (lines_of b).
Proof.
  unfold single_line. induction a as [|c a IH]; intros Ha.
  - destruct (lines_of_cons b) as (l & ls & Hb). 
    change (EmptyString +:+ b) with b. rewrite Hb. reflexivity.
  - rewrite !append_cons. simpl in *.
    destruct (_ =? _)%nat; [discriminate|].
    destruct (lines_of_cons a) as (l & ls & Hl). rewrite Hl in *.
    injection Ha as -> ->. rewrite IH by reflexivity. reflexivity.
Qed.

Lemma join_lines_of (text : string) : Py.join NL (lines_of text) = text.
Proof.
  induction text as [|c rest IH]; [reflexivity|]. simpl.
  destruct (nat_of_ascii c =? 10)%nat eqn:Hc.
  - apply Nat.eqb_eq in Hc.
    assert (c = ascii_of_nat 10) as -> by (rewrite <- Hc, ascii_nat_embedding; reflexivity).
    destruct (lines_of_cons rest) as (l & ls & Hl). rewrite Hl in *.
    change (Py.join NL (EmptyString :: l :: ls))
      with (EmptyString +:+ NL +:+ Py.join NL (l :: ls)).
    rewrite IH. reflexivity.
  - destruct (lines_of_cons rest) as (l & ls & Hl). rewrite Hl in *.
    destruct ls as [|l2 ls].
    + simpl in *. rewrite IH. reflexivity.
    + change (Py.join NL (String c l :: l2 :: ls))
        with (String c l +:+ NL +:+ Py.join NL (l2 :: ls)).
      change (Py.join NL (l :: l2 :: ls))
        with (l +:+ NL +:+ Py.join NL (l2 :: ls)) in IH.
      rewrite append_cons, IH. reflexivity.
Qed.

Lemma single_line_app (a b : string) :
  single_line a → single_line b → single_line (a +:+ b).
Proof.
  intros Ha Hb. unfold single_line. rewrite (lines_of_app_first _ _ Ha), Hb.
  reflexivity.
Qed.

Lemma single_line_uint (d : Decimal.uint) :
  single_line (NilEmpty.string_of_uint d).
Proof.
  unfold single_line.
  induction d as [|d IH|d IH|d IH|d IH|d IH|d IH|d IH|d IH|d IH|d IH];
    simpl; rewrite ?IH; reflexivity.
Qed.

Lemma single_line_str_of_int (i : Z) : single_line (Py.str_of_int i).
Proof.
  unfold Py.str_of_int, NilZero.string_of_int, NilZero.string_of_uint.
  destruct (Z.to_int i) as [d|d].
  - destruct d; try apply single_line_uint; reflexivity.
  - apply (single_line_app "-"); [reflexivity|].
    destruct d; try apply single_line_uint; reflexivity.
Qed.

Lemma single_line_source_line (i : Z) : single_line (source_line i).
Proof.
  unfold source_line.
  apply (single_line_app "[Source "); [reflexivity|].
  apply single_line_app; [apply single_line_str_of_int | reflexivity].
Qed.

Lemma is_blank_isspace (c : ascii) : is_blank c = true → Py.isspace c = true.
Proof.
  unfold is_blank, Py.isspace. intros H.
  apply orb_true_iff in H as [H|H]; apply Nat.eqb_eq in H; rewrite H;
    reflexivity.
Qed.

Lemma INDENT_app (x : string) :
  INDENT +:+ x
  = String " " (String " " (String " " (String " "
      (String " " (String " " (String " " (String " " x))))))).
Proof. reflexivity. Qed.

Lemma indent_of_INDENT (x : string) :
  indent_of (INDENT +:+ x) = INDENT +:+ indent_of x.
Proof. reflexivity. Qed.

Lemma has_text_INDENT (x : string) : has_text (INDENT +:+ x) = has_text x.
Proof. reflexivity. Qed.

Lemma cut_margin_INDENT (x : string) : cut_margin INDENT (INDENT +:+ x) = x.
Proof.
  unfold cut_margin, Py.startswith. rewrite prefix_append. reflexivity.
Qed.

Lemma startswith_INDENT_text (c : ascii) (rest : string) :
  is_blank c = false → Py.startswith INDENT (String c rest) = false.
Proof.
  intros Hb. unfold Py.startswith, INDENT. cbn -[ascii_dec].
  destruct (ascii_dec " " c) as [<-|]; [discriminate | reflexivity].
Qed.

(** What the two patterns and the cut make of a line that is empty or
    begins with a character other than white space. *)
Lemma flush_left_line (line : string) :
  flush_left line = true →
  blank_out line = line ∧ cut_margin INDENT line = line ∧
  has_text line = Py.str_truthy line ∧ indent_of line = EmptyString.
Proof.
  destruct line as [|c rest]; [done|]. simpl. intros Hc.
  apply negb_true_iff in Hc.
  assert (Hb : is_blank c = false).
  { destruct (is_blank c) eqn:Hb; [|reflexivity].
    apply is_blank_isspace in Hb. congruence. }
  unfold blank_out, has_text, cut_margin.
  rewrite (startswith_INDENT_text _ _ Hb). simpl. rewrite Hb. done.
Qed.

Lemma flush_left_lines (lines : list string) :
  Forall (λ line, flush_left line = true) lines →
  map blank_out lines = lines ∧ map (cut_margin INDENT) lines = lines ∧
  Forall (λ x, x = EmptyString) (indents lines) ∧
  (Forall (λ line, line = EmptyString) lines → indents lines = []).
Proof.
  induction 1 as [|line lines Hl _ (IH1 & IH2 & IH3 & IH4)];
    [by repeat split|].
  destruct (flush_left_line _ Hl) as (H1 & H2 & H3 & H4).
  simpl. rewrite IH1, IH2, H1, H2. split; [done|]. split; [done|].
  unfold indents in *. rewrite filter_cons. split.
  - destruct (decide _); [|exact IH3]. simpl. constructor; [exact H4 | exact IH3].
  - intros Hall. apply Forall_cons in Hall as [-> Hall].
    exact (IH4 Hall).
Qed.

Lemma indents_app (l1 l2 : list string) :
  indents (l1 ++ l2) = indents l1 ++ indents l2.
Proof. unfold indents. rewrite filter_app, map_app. reflexivity. Qed.

(** The lines of an indented field of the template, all of whose lines
    are flush: after the blank lines are emptied, after the indentation is
    cut, and the indentations found. *)
Lemma field_lines (f : string) :
  flush f →
  map blank_out (lines_of (INDENT +:+ f))
  = lines_of ((if Py.str_truthy (hd EmptyString (lines_of f))
               then INDENT else EmptyString) +:+ f)
  ∧ map (cut_margin INDENT) (map blank_out (lines_of (INDENT +:+ f)))
    = lines_of f
  ∧ ∃ rest,
      indents (map blank_out (lines_of (INDENT +:+ f)))
      = (if Py.str_truthy (hd EmptyString (lines_of f))
         then [INDENT] else []) ++ rest
      ∧ Forall (λ x, x = EmptyString) rest
      ∧ (single_line f → rest = []).
Proof.
  unfold flush, single_line. intros Hf.
  rewrite (lines_of_app_first INDENT f) by reflexivity.
  destruct (lines_of_cons f) as (f1 & fs & Hl). rewrite Hl in *.
  apply Forall_cons in Hf as [Hf1 Hfs].
  destruct (flush_left_lines fs Hfs) as (B1 & B2 & B3 & B4).
  simpl hd. simpl tail. simpl map. rewrite B1, B2.
  assert (Hsingle : f1 :: fs = [f] → indents fs = []).
  { intros [= _ ->]. reflexivity. }
  destruct f1 as [|c r].
  - cbn [Py.str_truthy].
    change (blank_out (INDENT +:+ "")) with EmptyString.
    change (EmptyString +:+ f) with f. rewrite Hl.
    repeat split. exists (indents fs). done.
  - destruct (flush_left_line _ Hf1) as (H1 & H2 & H3 & H4).
    assert (Hb : blank_out (INDENT +:+ String c r) = INDENT +:+ String c r).
    { unfold blank_out. rewrite has_text_INDENT, H3. reflexivity. }
    rewrite Hb, cut_margin_INDENT. cbn [Py.str_truthy].
    rewrite (lines_of_app_first INDENT f) by reflexivity. rewrite Hl.
    repeat split. exists (indents fs). split; [|done].
    unfold indents. rewrite filter_cons, has_text_INDENT, H3.
    cbn [Py.str_truthy]. rewrite decide_True by done.
    rewrite map_cons, indent_of_INDENT, H4. reflexivity.
Qed.

Lemma narrow_empty (inds : list string) :
  foldl narrow (Some EmptyString) inds = Some EmptyString.
Proof.
  induction inds as [|x inds IH]; [reflexivity|]. destruct x; exact IH.
Qed.

Lemma narrow_fold (inds : list string) :
  Forall (λ x, x = INDENT ∨ x = EmptyString) inds →
  (foldl narrow (Some INDENT) inds = Some INDENT
   ∨ foldl narrow (Some INDENT) inds = Some EmptyString)
  ∧ (Forall (λ x, x = INDENT) inds →
     foldl narrow (Some INDENT) inds = Some INDENT).
Proof.
  induction 1 as [|x inds [->| ->] _ IH].
  - split; [left|]; reflexivity.
  - change (foldl narrow (Some INDENT) (INDENT :: inds))
      with (foldl narrow (Some INDENT) inds).
    destruct IH as [IH1 IH2]. split; [exact IH1|].
    intros Hall. apply Forall_cons in Hall as [_ Hall]. exact (IH2 Hall).
  - change (foldl narrow (Some INDENT) (EmptyString :: inds))
      with (foldl narrow (Some EmptyString) inds).
    rewrite narrow_empty. split; [right; reflexivity|].
    intros Hall. apply Forall_cons in Hall as [Hx _]. discriminate.
Qed.

(** [dedent] on a template of five indented fields between an opening
    line feed and a closing indentation, the lines of every field being
    flush and the first four fields beginning with text: either the
    indentation goes, or it stays before the first line of every field
    that has a non-empty first line; it goes when the fields are single
    lines. *)
Lemma dedent_template (a b c d e : string) :
  flush a → single_line a → Py.str_truthy (hd EmptyString (lines_of a)) = true →
  flush b → Py.str_truthy (hd EmptyString (lines_of b)) = true →
  flush c → Py.str_truthy (hd EmptyString (lines_of c)) = true →
  flush d → Py.str_truthy (hd EmptyString (lines_of d)) = true →
  flush e →
  ∃ pad pad',
    (pad = EmptyString ∨ pad = INDENT) ∧ (pad' = EmptyString ∨ pad' = pad) ∧
    dedent (NL +:+ INDENT +:+ a +:+ NL
               +:+ INDENT +:+ b +:+ NL
               +:+ INDENT +:+ c +:+ NL
               +:+ INDENT +:+ d +:+ NL
               +:+ INDENT +:+ e +:+ NL
               +:+ INDENT)
    = NL +:+ pad +:+ a +:+ NL +:+ pad +:+ b +:+ NL +:+ pad +:+ c +:+ NL
         +:+ pad +:+ d +:+ NL +:+ pad' +:+ e +:+ NL ∧
    (single_line b → single_line c → single_line d → single_line e →
     pad = EmptyString).
Proof.
  intros Ha Ha1 Hat Hb Hbt Hc Hct Hd Hdt He.
  destruct (field_lines a Ha) as (Ba & Ca & ra & Ia & Ra & Sa).
  destruct (field_lines b Hb) as (Bb & Cb & rb & Ib & Rb & Sb).
  destruct (field_lines c Hc) as (Bc & Cc & rc & Ic & Rc & Sc).
  destruct (field_lines d Hd) as (Bd & Cd & rd & Id & Rd & Sd).
  destruct (field_lines e He) as (Be & Ce & re & Ie & Re & Se).
  rewrite Hat in Ba, Ia. rewrite Hbt in Bb, Ib. rewrite Hct in Bc, Ic.
  rewrite Hdt in Bd, Id. rewrite (Sa Ha1) in Ia.
  assert (Hpe : ∃ pe ie,
    (pe = EmptyString ∨ pe = INDENT) ∧ Forall (λ x, x = INDENT) ie ∧
    map blank_out (lines_of (INDENT +:+ e)) = lines_of (pe +:+ e) ∧
    indents (map blank_out (lines_of (INDENT +:+ e))) = ie ++ re).
  { destruct (Py.str_truthy (hd EmptyString (lines_of e)));
      [exists INDENT, [INDENT] | exists EmptyString, []];
      repeat split; auto; repeat constructor. }
  clear Be Ie. destruct Hpe as (pe & ie & Hpe & Hie & Be & Ie).
  assert (Hlines :
    lines_of (NL +:+ INDENT +:+ a +:+ NL +:+ INDENT +:+ b +:+ NL
                 +:+ INDENT +:+ c +:+ NL +:+ INDENT +:+ d +:+ NL
                 +:+ INDENT +:+ e +:+ NL +:+ INDENT)
    = [EmptyString] ++ lines_of (INDENT +:+ a) ++ lines_of (INDENT +:+ b)
        ++ lines_of (INDENT +:+ c) ++ lines_of (INDENT +:+ d)
        ++ lines_of (INDENT +:+ e) ++ [INDENT]).
  { transitivity
      (lines_of (EmptyString +:+ NL +:+ (INDENT +:+ a) +:+ NL
                   +:+ (INDENT +:+ b) +:+ NL +:+ (INDENT +:+ c) +:+ NL
                   +:+ (INDENT +:+ d) +:+ NL +:+ (INDENT +:+ e) +:+ NL
                   +:+ INDENT)).
    - reflexivity.
    - rewrite !lines_of_app_nl. reflexivity. }
  assert (Hinds : Forall (λ x, x = INDENT ∨ x = EmptyString)
                    (([INDENT] ++ rb) ++ ([INDENT] ++ rc)
                       ++ ([INDENT] ++ rd) ++ (ie ++ re) ++ [])).
  { rewrite !Forall_app. repeat split;
      try (constructor; [left; reflexivity|constructor]);
      try (eapply Forall_impl; [eassumption|]; intros x ->; right; reflexivity);
      try constructor.
    eapply Forall_impl; [exact Hie|]. intros x ->. left. reflexivity. }
  unfold dedent, dedent_lines. rewrite Hlines, !map_app, !indents_app.
  rewrite Ia, Ib, Ic, Id, Ie.
  change (map blank_out [EmptyString]) with [EmptyString].
  change (map blank_out [INDENT]) with [EmptyString].
  change (indents [EmptyString]) with (@nil string).
  change (foldl narrow None
            ([] ++ ([INDENT] ++ []) ++ ([INDENT] ++ rb) ++ ([INDENT] ++ rc)
                ++ ([INDENT] ++ rd) ++ (ie ++ re) ++ []))
    with (foldl narrow (Some INDENT)
            (([INDENT] ++ rb) ++ ([INDENT] ++ rc)
               ++ ([INDENT] ++ rd) ++ (ie ++ re) ++ [])).
  destruct (narrow_fold _ Hinds) as [[Hm|Hm] Hsingle]; rewrite Hm.
  - exists EmptyString, EmptyString.
    split; [left; reflexivity|]. split; [left; reflexivity|]. split; [|done].
    change (Py.str_truthy INDENT) with true. cbv iota.
    rewrite !map_app, Ca, Cb, Cc, Cd, Ce.
    change (map (cut_margin INDENT) [EmptyString]) with (lines_of EmptyString).
    rewrite <- !lines_of_app_nl, join_lines_of. reflexivity.
  - exists INDENT, pe.
    split; [right; reflexivity|].
    split; [destruct Hpe; [left|right]; assumption|].
    change (Py.str_truthy EmptyString) with false. cbv iota.
    rewrite Ba, Bb, Bc, Bd, Be.
    change [EmptyString] with (lines_of EmptyString).
    rewrite <- !lines_of_app_nl, join_lines_of.
    split; [rewrite !append_assoc; reflexivity|].
    intros Hb1 Hc1 Hd1 He1. exfalso.
    rewrite (Sb Hb1), (Sc Hc1), (Sd Hd1), (Se He1) in Hsingle, Hm.
    rewrite Hsingle in Hm; [discriminate|].
    rewrite !Forall_app. repeat split; try exact Hie; repeat constructor.
Qed.

Lemma append_truthy_r (a b : string) :
  Py.str_truthy b = true → Py.str_truthy (a +:+ b) = true.
Proof. destruct a; [intros H; exact H | reflexivity]. Qed.

(** [rstrip] of a concatenation: white space at the end of the second
    part goes, and the whole second part with the end of the first when it
    is white space only. *)
Lemma rstrip_app (a b : string) :
  Py.rstrip (a +:+ b)
  = if Py.str_truthy (Py.rstrip b) then a +:+ Py.rstrip b else Py.rstrip a.
Proof.
  induction a as [|c a IH].
  - change (EmptyString +:+ b) with b. destruct (Py.rstrip b); reflexivity.
  - rewrite append_cons. cbn [Py.rstrip]. rewrite IH.
    destruct (Py.str_truthy (Py.rstrip b)) eqn:Hb; [|reflexivity].
    rewrite append_cons.
    pose proof (append_truthy_r a _ Hb) as Hab.
    destruct (a +:+ Py.rstrip b); [discriminate | reflexivity].
Qed.

Lemma rstrip_app_congr (a b b' : string) :
  Py.rstrip b = Py.rstrip b' → Py.rstrip (a +:+ b) = Py.rstrip (a +:+ b').
Proof. intros H. rewrite !rstrip_app, H. reflexivity. Qed.

Lemma rstrip_app_nl (a : string) : Py.rstrip (a +:+ NL) = Py.rstrip a.
Proof. rewrite rstrip_app. reflexivity. Qed.

Lemma rstrip_app_text (a b : string) :
  Py.str_truthy (Py.rstrip b) = true → Py.rstrip (a +:+ b) = a +:+ Py.rstrip b.
Proof. intros H. rewrite rstrip_app, H. reflexivity. Qed.

Lemma rstrip_truthy_l (a b : string) :
  Py.str_truthy (Py.rstrip a) = true →
  Py.str_truthy (Py.rstrip (a +:+ b)) = true.
Proof.
  intros H. rewrite rstrip_app.
  destruct (Py.str_truthy (Py.rstrip b)) eqn:Hb; [|exact H].
  apply append_truthy_r, Hb.
Qed.

Lemma rstrip_truthy_r (a b : string) :
  Py.str_truthy (Py.rstrip b) = true →
  Py.str_truthy (Py.rstrip (a +:+ b)) = true.
Proof. intros H. rewrite rstrip_app, H. apply append_truthy_r, H. Qed.

Lemma contains_refl (d : string) : Py.contains d d = true.
Proof.
  rewrite <- (append_nil_r d) at 2. apply contains_here.
Qed.

Lemma contains_empty (s : string) : Py.contains EmptyString s = true.
Proof. destruct s; reflexivity. Qed.

Lemma hd_lines_of_app (a b : string) :
  single_line a →
  hd EmptyString (lines_of (a +:+ b)) = a +:+ hd EmptyString (lines_of b).
Proof. intros Ha. rewrite (lines_of_app_first _ _ Ha). reflexivity. Qed.

Lemma flush_single_text (a : string) :
  single_line a → flush_left a = true → flush a.
Proof. unfold single_line, flush. intros -> H. repeat constructor. exact H. Qed.

Section Blocks.
Context {World : Type} (env : Collaborators World).
Hypothesis Hdedent : ∀ text, textwrap_dedent env text = dedent text.

(** A block whose title line, URL line and excerpt have flush lines: the
    template without its first and last line, the indentation either gone
    or kept, and the white space at the end stripped. *)
Lemma block_flush (i : Z) (s : dict) :
  flush (title_line s) → flush (url_line s) → flush (excerpt s) →
  ∃ pad pad',
    (pad = EmptyString ∨ pad = INDENT) ∧ (pad' = EmptyString ∨ pad' = pad) ∧
    block env i s
    = Py.rstrip (source_line i +:+ NL +:+ pad +:+ title_line s +:+ NL
                   +:+ pad +:+ url_line s +:+ NL
                   +:+ pad +:+ "Excerpt:" +:+ NL +:+ pad' +:+ excerpt s) ∧
    (single_line (title_line s) → single_line (url_line s) →
     single_line (excerpt s) → pad = EmptyString).
Proof.
  intros Ht Hu He.
  destruct (dedent_template (source_line i) (title_line s) (url_line s)
              "Excerpt:" (excerpt s))
    as (pad & pad' & Hpad & Hpad' & Heq & Hsingle); try assumption.
  - apply flush_single_text; [apply single_line_source_line | reflexivity].
  - apply single_line_source_line.
  - unfold source_line. rewrite (hd_lines_of_app "[Source ") by reflexivity.
    reflexivity.
  - unfold title_line. rewrite (hd_lines_of_app "Title: ") by reflexivity.
    reflexivity.
  - unfold url_line. rewrite (hd_lines_of_app "URL: ") by reflexivity.
    reflexivity.
  - apply flush_single_text; reflexivity.
  - reflexivity.
  - exists pad, pad'. split; [exact Hpad|]. split; [exact Hpad'|].
    split; [|intros H1 H2 H3; apply Hsingle; [exact H1 | exact H2 | reflexivity | exact H3]].
    unfold block, block_text. rewrite Hdedent, Heq. unfold Py.strip.
    assert (Hl : Py.lstrip (NL +:+ pad +:+ source_line i +:+ NL +:+ pad
                   +:+ title_line s +:+ NL +:+ pad +:+ url_line s +:+ NL
                   +:+ pad +:+ "Excerpt:" +:+ NL +:+ pad' +:+ excerpt s +:+ NL)
                 = source_line i +:+ NL +:+ pad
                   +:+ title_line s +:+ NL +:+ pad +:+ url_line s +:+ NL
                   +:+ pad +:+ "Excerpt:" +:+ NL +:+ pad' +:+ excerpt s +:+ NL).
    { destruct Hpad as [-> | ->]; reflexivity. }
    rewrite Hl. repeat apply rstrip_app_congr. apply rstrip_app_nl.
Qed.

End Blocks.

Lemma prefix_trans (a b c : string) :
  String.prefix a b = true → String.prefix b c = true →
  String.prefix a c = true.
Proof.
  revert b c; induction a as [|x a IH]; intros b c; [destruct c; reflexivity|].
  destruct b as [|y b]; [discriminate|]. destruct c as [|z c]; [discriminate|].
  cbn -[ascii_dec].
  destruct (ascii_dec x y) as [->|]; [|discriminate].
  destruct (ascii_dec y z) as [->|]; [|discriminate].
  apply IH.
Qed.

Lemma common_prefix_prefix (a b : string) :
  String.prefix (common_prefix a b) a = true.
Proof.
  revert b; induction a as [|x a IH]; intros b; [reflexivity|].
  destruct b as [|y b]; [reflexivity|]. cbn -[ascii_dec].
  destruct (Ascii.eqb x y); [|reflexivity]. cbn -[ascii_dec].
  destruct (ascii_dec x x); [apply IH | congruence].
Qed.

(** The margin never grows over the rounds of the loop. *)
Lemma narrow_prefix (inds : list string) (m : string) :
  ∃ m', foldl narrow (Some m) inds = Some m' ∧ String.prefix m' m = true.
Proof.
  revert m; induction inds as [|x inds IH]; intros m.
  - exists m. split; [reflexivity|].
    rewrite <- (append_nil_r m) at 2. apply prefix_append.
  - cbn [foldl narrow]. unfold Py.startswith.
    destruct (String.prefix m x) eqn:H1; [apply IH|].
    destruct (String.prefix x m) eqn:H2.
    + destruct (IH x) as (m' & Hm & Hp). exists m'. split; [exact Hm|].
      exact (prefix_trans _ _ _ Hp H2).
    + destruct (IH (common_prefix m x)) as (m' & Hm & Hp). exists m'.
      split; [exact Hm|].
      exact (prefix_trans _ _ _ Hp (common_prefix_prefix m x)).
Qed.

Lemma prefix_INDENT (m : string) :
  String.prefix m INDENT = true →
  ∃ rest, INDENT = m +:+ rest ∧ Py.lstrip rest = EmptyString
          ∧ single_line rest.
Proof.
  unfold INDENT. intros H.
  repeat (destruct m as [|? m];
          [eexists; repeat split; reflexivity|];
          cbn -[ascii_dec] in H;
          match type of H with
          | (if ascii_dec ?x ?y then _ else _) = _ =>
              destruct (ascii_dec x y) as [->|]; [|discriminate]
          end).
  destruct m; [|discriminate]. exists EmptyString. repeat split; reflexivity.
Qed.

Lemma str_drop_app (m x : string) : str_drop (String.length m) (m +:+ x) = x.
Proof. induction m as [|c m IH]; [reflexivity|]. rewrite append_cons. exact IH. Qed.

Lemma lstrip_app_space (w x : string) :
  Py.lstrip w = EmptyString → Py.lstrip (w +:+ x) = Py.lstrip x.
Proof.
  induction w as [|c w IH]; [reflexivity|]. rewrite append_cons. simpl.
  destruct (Py.isspace c); [exact IH | discriminate].
Qed.

Lemma join_cons (line : string) (lines : list string) :
  ∃ rest, Py.join NL (line :: lines) = line +:+ rest.
Proof.
  destruct lines as [|l ls].
  - exists EmptyString. rewrite append_nil_r. reflexivity.
  - eexists. reflexivity.
Qed.

(** Whatever follows it, the first line of text of the template, one
    indented line, comes out of [dedent] and [lstrip] at the left edge. *)
Lemma dedent_first_line (c : ascii) (a rest : string) :
  Py.isspace c = false → single_line (String c a) →
  ∃ tail,
    Py.lstrip (dedent (NL +:+ INDENT +:+ String c a +:+ NL +:+ rest))
    = String c a +:+ tail.
Proof.
  intros Hc Ha.
  assert (Hfl : flush_left (String c a) = true) by (simpl; rewrite Hc; reflexivity).
  destruct (flush_left_line _ Hfl) as (_ & _ & Ht & Hi).
  assert (Hlines : lines_of (NL +:+ INDENT +:+ String c a +:+ NL +:+ rest)
                   = EmptyString :: (INDENT +:+ String c a) :: lines_of rest).
  { change (NL +:+ INDENT +:+ String c a +:+ NL +:+ rest)
      with (EmptyString +:+ NL +:+ (INDENT +:+ String c a) +:+ NL +:+ rest).
    rewrite !lines_of_app_nl.
    rewrite (single_line_app INDENT (String c a)) by (reflexivity || exact Ha).
    reflexivity. }
  assert (Hl : ∀ x, Py.lstrip (String c a +:+ x) = String c a +:+ x).
  { intros x. rewrite append_cons. simpl. rewrite Hc. reflexivity. }
  unfold dedent, dedent_lines. rewrite Hlines.
  set (more := map blank_out (lines_of rest)).
  assert (Hb : map blank_out (EmptyString :: (INDENT +:+ String c a) :: lines_of rest)
               = EmptyString :: (INDENT +:+ String c a) :: more).
  { simpl. f_equal. f_equal. unfold blank_out.
    rewrite has_text_INDENT, Ht. reflexivity. }
  rewrite Hb.
  assert (Hi' : indents (EmptyString :: (INDENT +:+ String c a) :: more)
                = INDENT :: indents more).
  { unfold indents. rewrite !filter_cons, has_text_INDENT, Ht.
    change (has_text EmptyString) with false. cbn [Py.str_truthy].
    rewrite decide_False by done. rewrite decide_True by done.
    rewrite map_cons, indent_of_INDENT, Hi. reflexivity. }
  rewrite Hi'. change (foldl narrow None (INDENT :: indents more))
    with (foldl narrow (Some INDENT) (indents more)).
  destruct (narrow_prefix (indents more) INDENT) as (m & -> & Hm).
  destruct (prefix_INDENT m Hm) as (w & Hw & Hws & _).
  destruct (Py.str_truthy m) eqn:Htm.
  - assert (Hcut : cut_margin m (INDENT +:+ String c a) = w +:+ String c a).
    { rewrite Hw, append_assoc. unfold cut_margin, Py.startswith.
      rewrite prefix_append. apply str_drop_app. }
    assert (Hcut0 : cut_margin m EmptyString = EmptyString).
    { clear -Htm. destruct m; [discriminate | reflexivity]. }
    rewrite !map_cons, Hcut, Hcut0.
    destruct (join_cons (w +:+ String c a) (map (cut_margin m) more))
      as (tail & Htail).
    exists tail.
    change (Py.join NL (EmptyString :: (w +:+ String c a)
                          :: map (cut_margin m) more))
      with (EmptyString +:+ NL
              +:+ Py.join NL ((w +:+ String c a) :: map (cut_margin m) more)).
    rewrite Htail, append_assoc.
    change (Py.lstrip (EmptyString +:+ NL +:+ w +:+ String c a +:+ tail))
      with (Py.lstrip (w +:+ String c a +:+ tail)).
    rewrite (lstrip_app_space _ _ Hws). apply Hl.
  - destruct (join_cons (INDENT +:+ String c a) more) as (tail & Htail).
    exists tail.
    change (Py.join NL (EmptyString :: (INDENT +:+ String c a) :: more))
      with (EmptyString +:+ NL +:+ Py.join NL ((INDENT +:+ String c a) :: more)).
    rewrite Htail, append_assoc.
    change (Py.lstrip (EmptyString +:+ NL +:+ INDENT +:+ String c a +:+ tail))
      with (Py.lstrip (String c a +:+ tail)).
    apply Hl.
Qed.

Lemma rstrip_source_line (i : Z) :
  Py.rstrip (source_line i) = source_line i.
Proof.
  unfold source_line.
  rewrite rstrip_app_text; [rewrite rstrip_app_text; reflexivity|].
  apply rstrip_truthy_r. reflexivity.
Qed.

Lemma startswith_rstrip (a tail : string) :
  Py.rstrip a = a → Py.startswith a (Py.rstrip (a +:+ tail)) = true.
Proof.
  intros Ha. unfold Py.startswith. rewrite rstrip_app, Ha.
  destruct (Py.str_truthy _); [apply prefix_append|].
  rewrite <- (append_nil_r a) at 2. apply prefix_append.
Qed.

(** Every block begins with its number. *)
Lemma block_starts {World} (env : Collaborators World) (i : Z) (s : dict) :
  (∀ text, textwrap_dedent env text = dedent text) →
  Py.startswith (source_line i) (block env i s) = true.
Proof.
  intros Hdedent. unfold block, block_text, Py.strip. rewrite Hdedent.
  pose proof (single_line_source_line i) as Hs.
  pose proof (rstrip_source_line i) as Hr.
  unfold source_line in *. rewrite append_cons in *.
  destruct (dedent_first_line _ _
              (INDENT +:+ title_line s +:+ NL +:+ INDENT +:+ url_line s +:+ NL
                 +:+ INDENT +:+ "Excerpt:" +:+ NL +:+ INDENT +:+ excerpt s
                 +:+ NL +:+ INDENT)
              (eq_refl : Py.isspace "[" = false) Hs) as (tail & Htail).
  rewrite Htail.
  apply startswith_rstrip, Hr.
Qed.

Lemma cut_margin_empty (line : string) : cut_margin EmptyString line = line.
Proof. unfold cut_margin. destruct line; reflexivity. Qed.

(** A margin of the template's indentation leaves a flush line alone. *)
Lemma cut_margin_flush (m line : string) :
  String.prefix m INDENT = true → flush_left line = true →
  cut_margin m line = line.
Proof.
  intros Hm Hl. destruct m as [|x m]; [apply cut_margin_empty|].
  unfold INDENT in Hm. cbn -[ascii_dec] in Hm.
  destruct (ascii_dec x " ") as [->|]; [|discriminate].
  destruct line as [|c rest]; [reflexivity|].
  simpl in Hl. apply negb_true_iff in Hl.
  unfold cut_margin, Py.startswith. cbn -[ascii_dec].
  destruct (ascii_dec " " c) as [<-|]; [discriminate | reflexivity].
Qed.

(** [dedent] line by line: every line has the lines of spaces and tabs
    emptied and the margin cut; under a first line of text indented as the
    template is, the margin is part of that indentation. *)
Lemma dedent_lines_numbered (c : ascii) (a : string) (more : list string) :
  Py.isspace c = false →
  ∃ m,
    String.prefix m INDENT = true ∧
    dedent_lines (EmptyString :: (INDENT +:+ String c a) :: more)
    = map (λ line, cut_margin m (blank_out line))
          (EmptyString :: (INDENT +:+ String c a) :: more).
Proof.
  intros Hc.
  assert (Hfl : flush_left (String c a) = true)
    by (simpl; rewrite Hc; reflexivity).
  destruct (flush_left_line _ Hfl) as (_ & _ & Ht & Hi).
  unfold dedent_lines.
  set (lines := map blank_out (EmptyString :: (INDENT +:+ String c a) :: more)).
  assert (Hi' : indents lines = INDENT :: indents (map blank_out more)).
  { unfold lines, indents. rewrite !map_cons.
    assert (blank_out (INDENT +:+ String c a) = INDENT +:+ String c a) as ->
      by (unfold blank_out; rewrite has_text_INDENT, Ht; reflexivity).
    change (blank_out EmptyString) with EmptyString.
    rewrite !filter_cons, has_text_INDENT, Ht.
    change (has_text EmptyString) with false. cbn [Py.str_truthy].
    rewrite decide_False by done. rewrite decide_True by done.
    rewrite map_cons, indent_of_INDENT, Hi. reflexivity. }
  rewrite Hi'.
  change (foldl narrow None (INDENT :: indents (map blank_out more)))
    with (foldl narrow (Some INDENT) (indents (map blank_out more))).
  destruct (narrow_prefix (indents (map blank_out more)) INDENT)
    as (m & -> & Hm).
  exists m. split; [exact Hm|]. unfold lines.
  destruct m as [|x m]; cbn [Py.str_truthy].
  - rewrite <- (map_map blank_out (cut_margin EmptyString)).
    rewrite (map_ext (cut_margin EmptyString) id) by apply cut_margin_empty.
    rewrite map_id. reflexivity.
  - rewrite map_map. reflexivity.
Qed.

(** The lines of an indented field with flush lines, after [dedent]
    with a margin that is part of the indentation: the lines of the field,
    behind the white space left of the indentation. *)
Lemma field_image (m f : string) :
  String.prefix m INDENT = true → flush f →
  ∃ w, Py.lstrip w = EmptyString ∧
       map (λ line, cut_margin m (blank_out line)) (lines_of (INDENT +:+ f))
       = lines_of (w +:+ f).
Proof.
  intros Hm Hf. unfold flush in Hf.
  destruct (prefix_INDENT m Hm) as (w0 & Hw0 & Hws & Hw1).
  rewrite (lines_of_app_first INDENT f) by reflexivity.
  destruct (lines_of_cons f) as (f1 & fs & Hl). rewrite Hl in *.
  apply Forall_cons in Hf as [Hf1 Hfs].
  assert (Hrest : map (λ line, cut_margin m (blank_out line)) fs = fs).
  { clear -Hfs Hm. induction Hfs as [|l fs Hl _ IH]; [reflexivity|].
    rewrite map_cons, IH. destruct (flush_left_line _ Hl) as (-> & _).
    rewrite (cut_margin_flush _ _ Hm Hl). reflexivity. }
  simpl hd. simpl tail. rewrite map_cons, Hrest.
  destruct f1 as [|c r].
  - exists EmptyString. split; [reflexivity|].
    change (blank_out (INDENT +:+ "")) with EmptyString.
    rewrite (cut_margin_flush _ EmptyString Hm) by reflexivity.
    change (EmptyString +:+ f) with f. rewrite Hl. reflexivity.
  - exists w0. split; [exact Hws|].
    destruct (flush_left_line _ Hf1) as (_ & _ & Ht & _).
    assert (blank_out (INDENT +:+ String c r) = INDENT +:+ String c r) as ->
      by (unfold blank_out; rewrite has_text_INDENT, Ht; reflexivity).
    rewrite (lines_of_app_first w0 f Hw1), Hl. simpl hd. simpl tail.
    f_equal. rewrite Hw0 at 1. rewrite append_assoc.
    unfold cut_margin, Py.startswith. rewrite prefix_append.
    apply str_drop_app.
Qed.

(** A line of the template that begins with text still does after
    [dedent]. *)
Lemma line_image (m : string) (c : ascii) (r : string) :
  String.prefix m INDENT = true → Py.isspace c = false →
  ∃ w, Py.lstrip w = EmptyString ∧
       cut_margin m (blank_out (INDENT +:+ String c r)) = w +:+ String c r.
Proof.
  intros Hm Hc.
  destruct (prefix_INDENT m Hm) as (w0 & Hw0 & Hws & _).
  assert (Hfl : flush_left (String c r) = true)
    by (simpl; rewrite Hc; reflexivity).
  destruct (flush_left_line _ Hfl) as (_ & _ & Ht & _).
  exists w0. split; [exact Hws|].
  assert (blank_out (INDENT +:+ String c r) = INDENT +:+ String c r) as ->
    by (unfold blank_out; rewrite has_text_INDENT, Ht; reflexivity).
  rewrite Hw0 at 1. rewrite append_assoc.
  unfold cut_margin, Py.startswith. rewrite prefix_append.
  apply str_drop_app.
Qed.

Lemma join_app (l1 l2 : list string) :
  l1 ≠ [] → l2 ≠ [] →
  Py.join NL (l1 ++ l2) = Py.join NL l1 +:+ NL +:+ Py.join NL l2.
Proof.
  intros H1 H2. destruct l2 as [|b l2]; [done|]. clear H2.
  induction l1 as [|a l1 IH]; [done|]. clear H1.
  destruct l1 as [|a2 l1]; [reflexivity|].
  change (Py.join NL ((a :: a2 :: l1) ++ b :: l2))
    with (a +:+ NL +:+ Py.join NL ((a2 :: l1) ++ b :: l2)).
  rewrite IH by done.
  change (Py.join NL (a :: a2 :: l1)) with (a +:+ NL +:+ Py.join NL (a2 :: l1)).
  rewrite !append_assoc. reflexivity.
Qed.

Lemma lstrip_app_text (a b : string) :
  Py.str_truthy (Py.lstrip a) = true → Py.lstrip (a +:+ b) = Py.lstrip a +:+ b.
Proof.
  induction a as [|c a IH]; [discriminate|].
  rewrite append_cons. simpl. destruct (Py.isspace c); [exact IH|].
  intros _. rewrite append_cons. reflexivity.
Qed.

Lemma lstrip_text (w : string) (c : ascii) (r : string) :
  Py.lstrip w = EmptyString → Py.isspace c = false →
  Py.lstrip (w +:+ String c r) = String c r.
Proof.
  intros Hw Hc. rewrite (lstrip_app_space _ _ Hw). simpl. rewrite Hc.
  reflexivity.
Qed.

Lemma rstrip_text (w : string) (c : ascii) (r : string) :
  Py.isspace c = false →
  Py.str_truthy (Py.rstrip (w +:+ String c r)) = true.
Proof.
  intros Hc. apply rstrip_truthy_r. cbn [Py.rstrip].
  destruct (Py.rstrip r); [rewrite Hc|]; reflexivity.
Qed.

(** A line with text among the lines: their join has text, seen from the
    right. *)
Lemma rstrip_join_text (before after : list string) (line : string) :
  Py.str_truthy (Py.rstrip line) = true →
  Py.str_truthy (Py.rstrip (Py.join NL (before ++ line :: after))) = true.
Proof.
  intros Hl. induction before as [|a before IH].
  - rewrite app_nil_l. destruct (join_cons line after) as (rest & ->).
    apply rstrip_truthy_l, Hl.
  - rewrite <- app_comm_cons.
    destruct (before ++ line :: after) as [|b l] eqn:Hb;
      [destruct before; discriminate|].
    change (Py.join NL (a :: b :: l)) with (a +:+ NL +:+ Py.join NL (b :: l)).
    apply rstrip_truthy_r, rstrip_truthy_r, IH.
Qed.

(** [dedent] and [lstrip] around one field of a template: the text
    begins with a line feed and an indented first line of text, and the
    field, with flush lines, sits indented on a line of its own further
    down.  The field comes out whole, between the first line and the lines
    after it. *)
Lemma dedent_field (text : string) (c : ascii) (a : string)
    (before after : list string) (f : string) :
  Py.isspace c = false → flush f → after ≠ [] →
  lines_of text
  = EmptyString :: (INDENT +:+ String c a)
      :: before ++ lines_of (INDENT +:+ f) ++ after →
  ∃ m w tail,
    String.prefix m INDENT = true ∧ Py.lstrip w = EmptyString ∧
    Py.lstrip (dedent text)
    = String c a +:+ tail +:+ NL +:+ w +:+ f +:+ NL
        +:+ Py.join NL (map (λ line, cut_margin m (blank_out line)) after).
Proof.
  intros Hc Hf Hafter Hlines. unfold dedent. rewrite Hlines.
  destruct (dedent_lines_numbered c a
              (before ++ lines_of (INDENT +:+ f) ++ after) Hc)
    as (m & Hm & ->).
  destruct (field_image m f Hm Hf) as (w & Hw & Hfield).
  destruct (line_image m c a Hm Hc) as (w1 & Hw1 & Hline).
  exists m, w. rewrite !map_cons, !map_app, Hfield, Hline.
  change (blank_out EmptyString) with EmptyString.
  rewrite (cut_margin_flush _ EmptyString Hm) by reflexivity.
  set (g := λ line, cut_margin m (blank_out line)).
  destruct (join_cons (w1 +:+ String c a) (map g before)) as (tail & Htail).
  exists tail. split; [exact Hm|]. split; [exact Hw|].
  change (Py.join NL (EmptyString :: (w1 +:+ String c a)
                        :: map g before ++ lines_of (w +:+ f) ++ map g after))
    with (EmptyString +:+ NL
            +:+ Py.join NL (((w1 +:+ String c a) :: map g before)
                              ++ lines_of (w +:+ f) ++ map g after)).
  assert (Hg : map g after ≠ []) by (destruct after; done).
  assert (Hl : lines_of (w +:+ f) ≠ [])
    by (destruct (lines_of_cons (w +:+ f)) as (? & ? & ->); done).
  rewrite join_app; [|done|destruct (lines_of (w +:+ f)); done].
  rewrite (join_app _ _ Hl Hg), join_lines_of, Htail.
  change (Py.lstrip (EmptyString +:+ NL +:+ ?x)) with (Py.lstrip x).
  rewrite !append_assoc. rewrite (lstrip_app_space _ _ Hw1).
  rewrite append_cons. simpl. rewrite Hc. reflexivity.
Qed.

(** The lines of the template of a block. *)
Lemma block_text_lines (i : Z) (s : dict) :
  lines_of (block_text i s)
  = EmptyString :: (INDENT +:+ source_line i)
      :: lines_of (INDENT +:+ title_line s)
      ++ lines_of (INDENT +:+ url_line s)
      ++ (INDENT +:+ "Excerpt:") :: lines_of (INDENT +:+ excerpt s)
      ++ [INDENT].
Proof.
  unfold block_text.
  change (NL +:+ INDENT +:+ source_line i +:+ NL +:+ INDENT +:+ title_line s
             +:+ NL +:+ INDENT +:+ url_line s +:+ NL +:+ INDENT +:+ "Excerpt:"
             +:+ NL +:+ INDENT +:+ excerpt s +:+ NL +:+ INDENT)
    with (EmptyString +:+ NL +:+ (INDENT +:+ source_line i) +:+ NL
            +:+ (INDENT +:+ title_line s) +:+ NL +:+ (INDENT +:+ url_line s)
            +:+ NL +:+ (INDENT +:+ "Excerpt:") +:+ NL
            +:+ (INDENT +:+ excerpt s) +:+ NL +:+ INDENT).
  rewrite !lines_of_app_nl.
  rewrite (single_line_app INDENT (source_line i))
    by (reflexivity || apply single_line_source_line).
  reflexivity.
Qed.

Section BlockFields.
Context {World : Type} (env : Collaborators World).
Hypothesis Hdedent : ∀ text, textwrap_dedent env text = dedent text.

(** A block contains its title line, when no line of it begins with
    white space, whatever the link and the excerpt are. *)
Lemma block_contains_title (i : Z) (s : dict) :
  flush (title_line s) → Py.contains (title_line s) (block env i s) = true.
Proof.
  intros Hf. unfold block, Py.strip. rewrite Hdedent.
  pose proof (block_text_lines i s) as Hlines.
  unfold source_line in Hlines at 1. rewrite append_cons in Hlines.
  destruct (dedent_field _ _ _ [] _ _ (eq_refl : Py.isspace "[" = false) Hf
              (λ H, app_cons_not_nil _ _ _ (eq_sym H)) Hlines)
    as (m & w & tail & Hm & Hw & ->).
  rewrite map_app, map_cons.
  destruct (line_image m "E" "xcerpt:" Hm eq_refl) as (w' & _ & ->).
  rewrite !rstrip_app_text
    by (repeat first [ apply rstrip_join_text, rstrip_text; reflexivity
                     | apply rstrip_truthy_r ]).
  repeat first [apply contains_here | apply contains_later].
Qed.

Lemma block_contains_url (i : Z) (s : dict) :
  flush (url_line s) → Py.contains (url_line s) (block env i s) = true.
Proof.
  intros Hf. unfold block, Py.strip. rewrite Hdedent.
  pose proof (block_text_lines i s) as Hlines.
  unfold source_line in Hlines at 1. rewrite append_cons in Hlines.
  destruct (dedent_field _ _ _ (lines_of (INDENT +:+ title_line s))
              ((INDENT +:+ "Excerpt:")
                 :: lines_of (INDENT +:+ excerpt s) ++ [INDENT])
              (url_line s) (eq_refl : Py.isspace "[" = false) Hf
              ltac:(done) Hlines)
    as (m & w & tail & Hm & Hw & ->).
  rewrite map_cons.
  destruct (line_image m "E" "xcerpt:" Hm eq_refl) as (w' & _ & ->).
  rewrite !rstrip_app_text
    by (repeat first [ apply (rstrip_join_text []), rstrip_text; reflexivity
                     | apply rstrip_truthy_r ]).
  repeat first [apply contains_here | apply contains_later].
Qed.

(** And its excerpt, but for the white space [strip] takes off the end
    of the block. *)
Lemma block_contains_excerpt (i : Z) (s : dict) :
  flush (excerpt s) →
  Py.contains (Py.rstrip (excerpt s)) (block env i s) = true.
Proof.
  intros Hf. unfold block, Py.strip. rewrite Hdedent.
  pose proof (block_text_lines i s) as Hlines.
  unfold source_line in Hlines at 1. rewrite append_cons in Hlines.
  rewrite (app_assoc (lines_of (INDENT +:+ title_line s))) in Hlines.
  change ((INDENT +:+ "Excerpt:") :: lines_of (INDENT +:+ excerpt s) ++ [INDENT])
    with ([INDENT +:+ "Excerpt:"] ++ lines_of (INDENT +:+ excerpt s) ++ [INDENT])
    in Hlines.
  rewrite (app_assoc _ [INDENT +:+ "Excerpt:"]) in Hlines.
  destruct (dedent_field _ _ _
              ((lines_of (INDENT +:+ title_line s)
                  ++ lines_of (INDENT +:+ url_line s))
                 ++ [INDENT +:+ "Excerpt:"])
              [INDENT] (excerpt s) (eq_refl : Py.isspace "[" = false) Hf
              ltac:(done) Hlines)
    as (m & w & tail & Hm & Hw & ->).
  change (map _ [INDENT]) with [cut_margin m EmptyString].
  rewrite (cut_margin_flush _ EmptyString Hm) by reflexivity.
  change (Py.join NL [EmptyString]) with EmptyString.
  destruct (Py.str_truthy (Py.rstrip (excerpt s))) eqn:Hex.
  - assert (Hend : Py.rstrip (excerpt s +:+ NL +:+ "") = Py.rstrip (excerpt s))
      by (rewrite rstrip_app; reflexivity).
    rewrite !rstrip_app_text
      by (repeat first [ rewrite Hend; exact Hex | apply rstrip_truthy_r ]).
    rewrite Hend.
    repeat first [apply contains_refl | apply contains_later].
  - destruct (Py.rstrip (excerpt s)); [apply contains_empty | discriminate].
Qed.

End BlockFields.

(** C3, as stated, fails on two counts.  The cap of the excerpt, 6000, is
    below the 30000 characters the extractor keeps by default, so the
    excerpt of a long page is cut a second time.  And [dedent] works on
    the filled template, the excerpt included: here it empties the line of
    two spaces, and the block does not contain the excerpt. *)
Lemma excerpt_cap_below_fetch_limit :
  (¬ (FETCH_MAX_CHARS < EXCERPT_CAP) ∧
   Py.len (filler (Z.to_nat 6001)) ≤ FETCH_MAX_CHARS ∧
   Py.len (excerpt (source_dict (PyStr "T") (PyStr "http://x.test/")
                                (PyStr (filler (Z.to_nat 6001))))) = 6000) ∧
  let env := with_dedent (offline_env (λ _, Ok None) "unreachable") in
  let s := source_dict (PyStr "T") (PyStr "http://x.test/")
             (PyStr ("a" +:+ NL +:+ "  " +:+ NL +:+ "b")) in
  excerpt s = "a" +:+ NL +:+ "  " +:+ NL +:+ "b" ∧
  block env 1 s
  = "[Source 1]" +:+ NL +:+ "        Title: T" +:+ NL
      +:+ "        URL: http://x.test/" +:+ NL
      +:+ "        Excerpt:" +:+ NL
      +:+ "        a" +:+ NL +:+ NL +:+ "b" ∧
  Py.contains (excerpt s) (block env 1 s) = false.
Proof.
  split.
  - split; [unfold FETCH_MAX_CHARS, EXCERPT_CAP; lia|].
    split; [vm_compute; congruence | vm_refl].
  - intros env s. repeat split; vm_refl.
Qed.

(** C3, amended: the synthesizer builds one block per source, in order;
    a block is the template, filled with the number of the source
    (counted from 1), its title (or ["Untitled"]), its link and its
    excerpt, the content cut to 6000 characters, after [dedent] and
    [strip].  Every block begins with ["[Source n]"].  A block contains
    the title line when no line of it begins with white space, as when the
    title is a single line; the URL line likewise; and the excerpt, up to
    the white space at its end, when no line of the excerpt begins with
    white space; each whatever the other two are.  When all three are
    so, the block is the five lines of the template with the white space
    at the end stripped, all dedented or all left indented (an empty first
    line of the excerpt stays empty), and when the three are single lines
    it is the five lines without indentation.  The cap is smaller than
    the extractor's default limit of 30000.  [textwrap.dedent] is a
    collaborator of the pipeline; the hypothesis takes it to be the
    function of the standard library. *)
Theorem context_blocks_per_source {World} (env : Collaborators World)
    (sources : list dict) :
  (∀ text, textwrap_dedent env text = dedent text) →
  length (context_blocks env sources) = length sources ∧
  (∀ (n : nat) (s : dict), sources !! n = Some s →
     let number := "[Source " +:+ Py.str_of_int (1 + Z.of_nat n) +:+ "]" in
     let title :=
       "Title: " +:+ Py.str (Py.or_ (Py.get s "title") (PyStr "Untitled")) in
     let url := "URL: " +:+ Py.str (Py.get s "link") in
     let ex := Py.slice_to 6000 (Py.or_empty (Py.get s "content")) in
     Py.len ex ≤ 6000 ∧
     ∃ b,
       context_blocks env sources !! n = Some b ∧
       b = Py.strip (dedent (NL +:+ INDENT +:+ number +:+ NL
                                +:+ INDENT +:+ title +:+ NL
                                +:+ INDENT +:+ url +:+ NL
                                +:+ INDENT +:+ "Excerpt:" +:+ NL
                                +:+ INDENT +:+ ex +:+ NL
                                +:+ INDENT)) ∧
       Py.startswith number b = true ∧
       (flush title → Py.contains title b = true) ∧
       (flush url → Py.contains url b = true) ∧
       (flush ex → Py.contains (Py.rstrip ex) b = true) ∧
       (flush title → flush url → flush ex →
        (∃ pad pad',
           (pad = "" ∨ pad = INDENT) ∧ (pad' = "" ∨ pad' = pad) ∧
           b = Py.rstrip (number +:+ NL +:+ pad +:+ title +:+ NL
                            +:+ pad +:+ url +:+ NL
                            +:+ pad +:+ "Excerpt:" +:+ NL +:+ pad' +:+ ex)) ∧
        (single_line title → single_line url → single_line ex →
         b = Py.strip (number +:+ NL +:+ title +:+ NL +:+ url +:+ NL
                         +:+ "Excerpt:" +:+ NL +:+ ex)))) ∧
  EXCERPT_CAP = 6000 ∧ EXCERPT_CAP < FETCH_MAX_CHARS.
Proof.
  intros Hdedent.
  split; [apply context_blocks_from_length|].
  split; [|split; [reflexivity | unfold FETCH_MAX_CHARS, EXCERPT_CAP; lia]].
  intros n s Hs number title url ex.
  split; [apply slice_to_len; lia|].
  exists (block env (1 + Z.of_nat n) s).
  split; [exact (context_blocks_from_lookup env 1 _ _ _ Hs)|].
  split; [unfold block, block_text; rewrite Hdedent; reflexivity|].
  split; [exact (block_starts env _ s Hdedent)|].
  split; [exact (block_contains_title env Hdedent _ s)|].
  split; [exact (block_contains_url env Hdedent _ s)|].
  split; [exact (block_contains_excerpt env Hdedent _ s)|].
  intros Ht Hu He.
  destruct (block_flush env Hdedent (1 + Z.of_nat n) s Ht Hu He)
    as (pad & pad' & Hpad & Hpad' & Heq & Hsingle).
  split; [exists pad, pad'; auto|].
  intros H1 H2 H3. rewrite Heq, (Hsingle H1 H2 H3).
  destruct Hpad' as [-> | ->]; [reflexivity|].
  rewrite (Hsingle H1 H2 H3). reflexivity.
Qed.

Lemma context_blocks_per_source_witness :
  let env := with_dedent (offline_env (λ _, Ok None) "unreachable") in
  let s1 := source_dict (PyStr "A") (PyStr "http://a.test/") (PyStr "short") in
  let s2 := source_dict PyNone (PyStr "http://b.test/")
              (PyStr ("line one" +:+ NL +:+ "line two  ")) in
  let b1 := "[Source 1]" +:+ NL +:+ "Title: A" +:+ NL
              +:+ "URL: http://a.test/" +:+ NL +:+ "Excerpt:" +:+ NL
              +:+ "short" in
  let b2 := "[Source 2]" +:+ NL +:+ "        Title: Untitled" +:+ NL
              +:+ "        URL: http://b.test/" +:+ NL
              +:+ "        Excerpt:" +:+ NL
              +:+ "        line one" +:+ NL +:+ "line two" in
  (∀ text, textwrap_dedent env text = dedent text) ∧
  context_blocks env [s1; s2] = [b1; b2] ∧
  (flush (title_line s2) ∧ flush (url_line s2) ∧ flush (excerpt s2)) ∧
  Py.rstrip (excerpt s2) = "line one" +:+ NL +:+ "line two" ∧
  Py.contains (Py.rstrip (excerpt s2)) b2 = true ∧
  (single_line (title_line s1) ∧ single_line (url_line s1)
   ∧ single_line (excerpt s1)) ∧
  b1 = Py.strip ("[Source " +:+ Py.str_of_int 1 +:+ "]" +:+ NL
                   +:+ title_line s1 +:+ NL +:+ url_line s1 +:+ NL
                   +:+ "Excerpt:" +:+ NL +:+ excerpt s1).
Proof.
  intros env s1 s2 b1 b2.
  assert (Hd : ∀ text, textwrap_dedent env text = dedent text)
    by (intros text; reflexivity).
  assert (Hb : context_blocks env [s1; s2] = [b1; b2]) by vm_refl.
  assert (Ht2 : flush (title_line s2)).
  { unfold flush.
    assert (lines_of (title_line s2) = ["Title: Untitled"]) as -> by vm_refl.
    repeat constructor. }
  assert (Hu2 : flush (url_line s2)).
  { unfold flush.
    assert (lines_of (url_line s2) = ["URL: http://b.test/"]) as -> by vm_refl.
    repeat constructor. }
  assert (He2 : flush (excerpt s2)).
  { unfold flush.
    assert (lines_of (excerpt s2) = ["line one"; "line two  "]) as -> by vm_refl.
    repeat constructor. }
  assert (Ht1 : single_line (title_line s1)) by (unfold single_line; vm_refl).
  assert (Hu1 : single_line (url_line s1)) by (unfold single_line; vm_refl).
  assert (He1 : single_line (excerpt s1)) by (unfold single_line; vm_refl).
  assert (Hf1 : flush (title_line s1) ∧ flush (url_line s1) ∧ flush (excerpt s1)).
  { unfold flush. rewrite Ht1, Hu1, He1.
    assert (flush_left (title_line s1) = true) by vm_refl.
    assert (flush_left (url_line s1) = true) by vm_refl.
    assert (flush_left (excerpt s1) = true) by vm_refl.
    repeat constructor; assumption. }
  destruct (context_blocks_per_source env [s1; s2] Hd) as (_ & Hblock & _).
  split; [exact Hd|]. split; [exact Hb|]. split; [auto|].
  split; [vm_refl|]. split.
  - destruct (Hblock 1%nat s2 eq_refl)
      as (_ & b & Hlook & _ & _ & _ & _ & Hex & _).
    rewrite Hb in Hlook. injection Hlook as <-.
    exact (Hex He2).
  - split; [auto|].
    destruct (Hblock 0%nat s1 eq_refl)
      as (_ & b & Hlook & _ & _ & _ & _ & _ & Hflush).
    rewrite Hb in Hlook. injection Hlook as <-.
    destruct Hf1 as (F1 & F2 & F3).
    exact (proj2 (Hflush F1 F2 F3) Ht1 Hu1 He1).
Defined.

(** *** Properties of the orchestration *)

Lemma source_dict_lookup_title t l c : source_dict t l c !! "title" = Some t.
Proof. reflexivity. Qed.

Lemma source_dict_lookup_link t l c : source_dict t l c !! "link" = Some l.
Proof. reflexivity. Qed.

Lemma slim_of_dom (s : dict) : dom (slim_of s) = {["title"; "link"]}.
Proof.
  unfold slim_of. rewrite dom_insert_L, dom_singleton_L. reflexivity.
Qed.

Lemma slim_of_no_content (s : dict) : slim_of s !! "content" = None.
Proof. reflexivity. Qed.

Section Orchestration.
Context {World : Type} (env : Collaborators World).

(** The slim comprehension reads two keys every source has: it returns
    the projections, in order, and touches nothing. *)
Lemma slim_sources_spec (sources : list dict) (st : state World) :
  Forall is_source sources →
  slim_sources sources st = (Ok (slim_of <$> sources), st).
Proof.
  induction 1 as [|s rest (t & l & c & ->) _ IH]; simpl; [reflexivity|].
  unfold bind, getitem.
  rewrite source_dict_lookup_title, source_dict_lookup_link. simpl.
  rewrite IH. reflexivity.
Qed.

(** The one LLM call of the synthesizer is made with the prompt built from
    the sources it was given. *)
Lemma summarize_with_claude_trace (sources : list dict) q
    (st st' : state World) r :
  summarize_with_claude env sources q st = (r, st') →
  trace st' = trace st ++ [EvLLM system_prompt (user_prompt env sources q)].
Proof.
  unfold summarize_with_claude, bind, call, log, ret. intros H.
  repeat (case_match; simplify_eq/=); reflexivity.
Qed.

(** The fallback comprehension fetches each of the candidates it is
    given, in order, and turns each into a source. *)
Lemma fallback_each_spec (rs : list dict) (st : state World) :
  ∃ sources st',
    fallback_each env rs st = (Ok sources, st') ∧
    Forall2 (λ r s, ∃ content,
               s = source_dict (Py.get_default r "title" (PyStr "Untitled"))
                               (Py.get r "link") (PyStr content))
            rs sources ∧
    trace st' = trace st ++ ((λ r, EvFetch (Py.get r "link")) <$> rs).
Proof.
  revert st; induction rs as [|r rest IH]; intros st; simpl.
  - exists [], st. rewrite app_nil_r. split_all.
  - unfold bind at 1.
    destruct (fetch_text_returns env (Py.get r "link") FETCH_MAX_CHARS st)
      as (content & st1 & Hfetch).
    rewrite Hfetch. apply fetch_text_trace in Hfetch.
    destruct (IH st1) as (more & st' & Hrun & Hshape & Htr).
    unfold bind. rewrite Hrun.
    eexists (_ :: more), st'. split; [reflexivity|]. split.
    + constructor; [eexists; reflexivity | exact Hshape].
    + rewrite Htr, Hfetch, <- app_assoc. reflexivity.
Qed.

Lemma smart_search_trace q k (st st' : state World) out :
  smart_search env q k st = (Ok out, st') →
  ∃ evs, trace st' = trace st ++ evs ∧ Forall is_search evs.
Proof.
  unfold smart_search, smart_search_items, bind, ret.
  destruct (search_variants _ _ _ _ _ _) as [[items|e] st1] eqn:Hs;
    [|discriminate].
  intros [= <- <-].
  apply search_variants_spec in Hs as (evs & Htr & Hevs & _);
    [eauto | unfold search_budget, Py.llen; simpl; lia].
Qed.

(** [agentic_search] after its first two steps. *)
Lemma agentic_search_steps q k (st st1 st2 : state World) r (rest strong : list dict) :
  smart_search env q (Z.max 10 (k * 2)) st = (Ok (r :: rest), st1) →
  strong_sources env (r :: rest) k st1 = (Ok strong, st2) →
  agentic_search env q k st
  = (do sources <- match strong with
                   | [] => fallback_sources env (r :: rest) k
                   | _ :: _ => ret strong
                   end;
     do answer <- summarize_with_claude env sources q;
     do slim <- slim_sources sources;
     ret (answer, slim)) st2.
Proof.
  intros Hs Hq. unfold agentic_search. unfold bind at 1. rewrite Hs.
  unfold bind at 1. rewrite Hq. reflexivity.
Qed.

Lemma agentic_search_no_results q k (st st1 : state World) :
  smart_search env q (Z.max 10 (k * 2)) st = (Ok [], st1) →
  agentic_search env q k st = (Raise NO_RESULTS, st1).
Proof.
  intros Hs. unfold agentic_search, bind. rewrite Hs. reflexivity.
Qed.

End Orchestration.

(** C1: when query expansion yields no results, [agentic_search] raises
    the no-results [HTTPException] with status 400 and its explanatory
    detail, having called the search provider only (no extraction, no
    synthesis); [search] then catches it under [except Exception] and
    raises an [HTTPException] with status 500 in its place. *)
Theorem search_no_results_status {World} (env : Collaborators World)
    (req : SearchRequest) (st st1 : state World) :
  smart_search env (query_of req) (Z.max 10 (k_of req * 2)) st
    = (Ok [], st1) →
  agentic_search env (query_of req) (k_of req) st
    = (Raise (HTTPException 400
                "No search results. Check Google CSE settings."), st1) ∧
  search env req st
    = (Raise (HTTPException 500
                (exn_str env
                   (HTTPException 400
                      "No search results. Check Google CSE settings."))),
       st1) ∧
  ∃ evs, trace st1 = trace st ++ evs ∧ Forall is_search evs.
Proof.
  intros Hs. pose proof (agentic_search_no_results env _ _ _ _ Hs) as Ha.
  split; [exact Ha|]. split.
  - unfold search, try_except, bind. rewrite Ha. reflexivity.
  - exact (smart_search_trace env _ _ _ _ _ Hs).
Qed.

Lemma search_no_results_status_witness :
  let env := offline_env (λ _, Ok None) "unreachable" in
  let st1 := {| world := 8%nat; trace := searches [] |} in
  smart_search env "q" (Z.max 10 (6 * 2)) start = (Ok [], st1) ∧
  search env {| query_of := "q"; k_of := 6 |} start
    = (Raise (HTTPException 500
                "400: No search results. Check Google CSE settings."), st1).
Proof.
  intros env st1.
  assert (Hs : smart_search env "q" (Z.max 10 (6 * 2)) start = (Ok [], st1))
    by vm_refl.
  split; [exact Hs|].
  exact (proj1 (proj2 (search_no_results_status env
                         {| query_of := "q"; k_of := 6 |} start st1 Hs))).
Defined.

(** C6, as stated, fails for a negative [k], which the request schema
    lets through: [results[:k]] then drops the last candidates instead of
    keeping the first ones, and [min(k, len(candidates))] is negative. *)
Lemma fallback_negative_k :
  let env := plain_env (λ _, Ok (Some three_results)) (λ _, "short") in
  let st1 := {| world := 8%nat; trace := searches three_results |} in
  let st2 := {| world := 10%nat;
                trace := searches three_results
                           ++ [EvFetch (PyStr "http://a.test/")] |} in
  let st3 := {| world := 14%nat;
                trace := searches three_results
                           ++ [EvFetch (PyStr "http://a.test/");
                               EvFetch (PyStr "http://a.test/");
                               EvFetch (PyStr "http://b.test/")] |} in
  let sources :=
    [ source_dict (PyStr "A") (PyStr "http://a.test/") (PyStr "short");
      source_dict (PyStr "B") (PyStr "http://b.test/") (PyStr "short") ] in
  smart_search env "q" (Z.max 10 (-1 * 2)) start = (Ok three_results, st1) ∧
  strong_sources env three_results (-1) st1 = (Ok [], st2) ∧
  fallback_sources env three_results (-1) st2 = (Ok sources, st3) ∧
  Py.llen sources ≠ Z.min (-1) (Py.llen three_results).
Proof.
  intros env st1 st2 st3 sources.
  split; [vm_refl|]. split; [vm_refl|]. split; [vm_refl|].
  vm_compute. congruence.
Qed.

(** The fallback comprehension in full: it fetches the candidates one
    after the other and gives each its content, the string [fetch_text]
    returned for its link. *)
Lemma fallback_each_fetched {World} (env : Collaborators World)
    (rs : list dict) (st : state World) :
  ∃ contents st',
    fetched_in_turn env st rs contents st' ∧
    length contents = length rs ∧
    fallback_each env rs st = (Ok (zip_with fallback_source rs contents), st') ∧
    trace st' = trace st ++ (fetch_of <$> rs).
Proof.
  revert st; induction rs as [|r rest IH]; intros st.
  - exists [], st. rewrite app_nil_r. done.
  - destruct (fetch_text_returns env (Py.get r "link") FETCH_MAX_CHARS st)
      as (content & st1 & Hfetch).
    destruct (IH st1) as (contents & st' & Hin & Hlen & Hrun & Htr).
    exists (content :: contents), st'.
    split; [exists st1; split; [exact Hfetch | exact Hin]|].
    split; [simpl; rewrite Hlen; reflexivity|].
    split.
    + simpl. unfold bind at 1. rewrite Hfetch. unfold bind. rewrite Hrun.
      reflexivity.
    + apply fetch_text_trace in Hfetch.
      rewrite Htr, Hfetch, <- app_assoc. reflexivity.
Qed.

(** C6, amended: for [k ≥ 0], when the search gave candidates and none
    of those [strong_sources] looked at passed, the fallback fetches the
    first [min(k, len(candidates))] candidates again, one after the other,
    and produces exactly one source for each, in order: its title (or
    ["Untitled"]), its link, and as content the string [fetch_text]
    returned for that link; these are the sources that go on to the
    synthesizer. *)
Theorem fallback_takes_first_k {World} (env : Collaborators World)
    (query : string) (k : Z) (st st1 st2 : state World)
    (results : list dict) :
  0 ≤ k →
  smart_search env query (Z.max 10 (k * 2)) st = (Ok results, st1) →
  results ≠ [] →
  strong_sources env results k st1 = (Ok [], st2) →
  ∃ contents st3,
    let first := take (Z.to_nat k) results in
    let sources :=
      zip_with (λ r content,
                  source_dict (Py.get_default r "title" (PyStr "Untitled"))
                              (Py.get r "link") (PyStr content))
               first contents in
    fetched_in_turn env st2 first contents st3 ∧
    fallback_sources env results k st2 = (Ok sources, st3) ∧
    Py.llen sources = Z.min k (Py.llen results) ∧
    Py.llen contents = Z.min k (Py.llen results) ∧
    trace st3 = trace st2 ++ ((λ r, EvFetch (Py.get r "link")) <$> first) ∧
    agentic_search env query k st
      = (do answer <- summarize_with_claude env sources query;
         do slim <- slim_sources sources;
         ret (answer, slim)) st3.
Proof.
  intros Hk Hs Hne Hq.
  destruct results as [|r rest]; [congruence|].
  assert (Htake : Py.take_to k (r :: rest) = take (Z.to_nat k) (r :: rest)).
  { unfold Py.take_to. destruct (Z.leb_spec 0 k); [reflexivity | lia]. }
  destruct (fallback_each_fetched env (take (Z.to_nat k) (r :: rest)) st2)
    as (contents & st3 & Hin & Hlen & Hrun & Htr).
  exists contents, st3. cbv zeta. fold fallback_source.
  unfold fallback_sources. rewrite Htake.
  split; [exact Hin|]. split; [exact Hrun|].
  split.
  { unfold Py.llen. rewrite length_zip_with, Hlen, length_take. lia. }
  split.
  { unfold Py.llen. rewrite Hlen, length_take. lia. }
  split; [exact Htr|].
  rewrite (agentic_search_steps env _ _ _ _ _ _ _ _ Hs Hq).
  unfold bind at 1. unfold fallback_sources. rewrite Htake, Hrun.
  reflexivity.
Qed.

Lemma fallback_takes_first_k_witness :
  let env := plain_env (λ _, Ok (Some three_results))
               (λ url, "Page at " +:+ Py.str url) in
  let st1 := {| world := 8%nat; trace := searches three_results |} in
  let st2 := {| world := 14%nat;
                trace := searches three_results
                           ++ [EvFetch (PyStr "http://a.test/");
                               EvFetch (PyStr "http://b.test/");
                               EvFetch (PyStr "http://c.test/")] |} in
  let st3 := {| world := 18%nat;
                trace := trace st2
                           ++ [EvFetch (PyStr "http://a.test/");
                               EvFetch (PyStr "http://b.test/")] |} in
  let sources :=
    [ source_dict (PyStr "A") (PyStr "http://a.test/")
                  (PyStr "Page at http://a.test/");
      source_dict (PyStr "B") (PyStr "http://b.test/")
                  (PyStr "Page at http://b.test/") ] in
  (smart_search env "q" (Z.max 10 (2 * 2)) start = (Ok three_results, st1) ∧
   strong_sources env three_results 2 st1 = (Ok [], st2)) ∧
  fetched_in_turn env st2 (take 2 three_results)
    ["Page at http://a.test/"; "Page at http://b.test/"] st3 ∧
  fallback_sources env three_results 2 st2 = (Ok sources, st3) ∧
  Py.llen sources = Z.min 2 (Py.llen three_results) ∧
  agentic_search env "q" 2 start
  = (do answer <- summarize_with_claude env sources "q";
     do slim <- slim_sources sources;
     ret (answer, slim)) st3.
Proof.
  intros env st1 st2 st3 sources.
  assert (Hs : smart_search env "q" (Z.max 10 (2 * 2)) start
               = (Ok three_results, st1)) by vm_refl.
  assert (Hq : strong_sources env three_results 2 st1 = (Ok [], st2))
    by vm_refl.
  assert (Hf : fallback_sources env three_results 2 st2 = (Ok sources, st3))
    by vm_refl.
  split; [split; [exact Hs | exact Hq]|].
  destruct (fallback_takes_first_k env "q" 2 start st1 st2 three_results)
    as (contents & st3' & Hin & Hrun & Hlen & _ & _ & Hag);
    [lia | exact Hs | discriminate | exact Hq |].
  set (made := zip_with _ _ contents) in *.
  assert (Hsame : made = sources ∧ st3' = st3)
    by (rewrite Hf in Hrun; split; congruence).
  destruct Hsame as [-> ->].
  split.
  { exists {| world := 16%nat;
              trace := trace st2 ++ [EvFetch (PyStr "http://a.test/")] |}.
    split; [vm_refl|]. exists st3. split; [vm_refl | reflexivity]. }
  split; [exact Hf|]. split; [exact Hlen | exact Hag].
Defined.

Lemma Forall2_sources_shape (rs sources : list dict) :
  Forall2 (λ r s, ∃ content,
             s = source_dict (Py.get_default r "title" (PyStr "Untitled"))
                             (Py.get r "link") (PyStr content))
          rs sources →
  Forall is_source sources.
Proof.
  induction 1 as [|r s rs sources [c ->] _ IH]; constructor; [|exact IH].
  eexists _, _, _. reflexivity.
Qed.

(** C9: the slim list [agentic_search] returns is the projection of the
    sources onto title and link, entry by entry: the n-th slim source
    comes from the same source as the n-th block of the context sent to
    the LLM, which is numbered n+1; and a slim source has the keys
    ["title"] and ["link"] and no other, so no ["content"]. *)
Theorem slim_sources_follow_context {World} (env : Collaborators World)
    (query : string) (k : Z) (st st' : state World)
    (answer : string) (slim : list dict) :
  agentic_search env query k st = (Ok (answer, slim), st') →
  ∃ sources pre,
    trace st'
      = trace st ++ pre
          ++ [EvLLM system_prompt
                ("user_query: " +:+ query +:+ NL +:+ NL +:+ "Sources:" +:+ NL
                  +:+ Py.join (NL +:+ NL) (context_blocks env sources))] ∧
    Forall (λ ev, is_search ev ∨ is_fetch ev) pre ∧
    length slim = length sources ∧
    (∀ (n : nat) (s : dict), sources !! n = Some s →
       slim !! n = Some ({[ "title" := Py.get s "title";
                            "link" := Py.get s "link" ]} : dict) ∧
       context_blocks env sources !! n
         = Some (block env (1 + Z.of_nat n) s)) ∧
    Forall (λ d : dict, dom d = {["title"; "link"]} ∧ d !! "content" = None)
           slim.
Proof.
  intros H.
  destruct (smart_search env query (Z.max 10 (k * 2)) st)
    as [[[|r rest]|e] st1] eqn:Hs.
  - rewrite (agentic_search_no_results env _ _ _ _ Hs) in H. discriminate.
  - destruct (smart_search_trace env _ _ _ _ _ Hs) as (evs1 & Htr1 & Hev1).
    destruct (strong_sources_loop_spec env (r :: rest) k [] st1)
      as (strong & st2 & evs2 & Hq & Hpol & Htr2 & Hev2).
    simpl in Hq. fold (strong_sources env (r :: rest) k) in Hq.
    rewrite (agentic_search_steps env _ _ _ _ _ _ _ _ Hs Hq) in H.
    assert (Hsrc : ∃ sources st3 evs3,
      match strong with
      | [] => fallback_sources env (r :: rest) k
      | _ :: _ => ret strong
      end st2 = (Ok sources, st3)
      ∧ Forall is_source sources
      ∧ trace st3 = trace st2 ++ evs3 ∧ Forall is_fetch evs3).
    { destruct strong as [|s0 strong].
      - destruct (fallback_each_spec env (Py.take_to k (r :: rest)) st2)
          as (sources & st3 & Hrun & Hshape & Htr).
        exists sources, st3, ((λ r, EvFetch (Py.get r "link"))
                               <$> Py.take_to k (r :: rest)).
        split; [exact Hrun|]. split; [exact (Forall2_sources_shape _ _ Hshape)|].
        split; [exact Htr|]. apply Forall_fmap, Forall_true. intros x; exact I.
      - exists (s0 :: strong), st2, []. rewrite app_nil_r.
        split; [reflexivity|]. split; [|split; [reflexivity|constructor]].
        eapply Forall_impl; [exact Hpol|]. intros s [_ Hsh]; exact Hsh. }
    destruct Hsrc as (sources & st3 & evs3 & Hrun & Hshape & Htr3 & Hev3).
    unfold bind at 1 in H. rewrite Hrun in H.
    unfold bind at 1 in H.
    destruct (summarize_with_claude env sources query st3)
      as [[ans|e] st4] eqn:Hsum; [|discriminate].
    apply summarize_with_claude_trace in Hsum.
    unfold bind in H. rewrite (slim_sources_spec sources st4 Hshape) in H.
    injection H as <- <- <-.
    exists sources, (evs1 ++ evs2 ++ evs3).
    split; [rewrite Hsum, Htr3, Htr2, Htr1, <- !app_assoc; reflexivity|].
    split.
    { rewrite !Forall_app. repeat split;
        (eapply Forall_impl; [eassumption|]; intros ev Hev; tauto). }
    split; [apply length_fmap|]. split.
    + intros n s Hn. split.
      * rewrite list_lookup_fmap, Hn. reflexivity.
      * exact (context_blocks_from_lookup env 1 _ _ _ Hn).
    + apply Forall_fmap, Forall_true. intros s.
      split; [apply slim_of_dom | apply slim_of_no_content].
  - unfold agentic_search, bind in H. rewrite Hs in H. discriminate.
Qed.

Lemma slim_sources_follow_context_witness :
  let env := plain_env (λ _, Ok (Some three_results)) (λ _, "short") in
  let sources :=
    [ source_dict (PyStr "A") (PyStr "http://a.test/") (PyStr "short");
      source_dict (PyStr "B") (PyStr "http://b.test/") (PyStr "short") ] in
  let slim := [ item "A" "http://a.test/"; item "B" "http://b.test/" ] in
  let st' :=
    {| world := 19%nat;
       trace := searches three_results
                  ++ [EvFetch (PyStr "http://a.test/");
                      EvFetch (PyStr "http://b.test/");
                      EvFetch (PyStr "http://c.test/");
                      EvFetch (PyStr "http://a.test/");
                      EvFetch (PyStr "http://b.test/");
                      EvLLM system_prompt (user_prompt env sources "q")] |} in
  agentic_search env "q" 2 start = (Ok ("answer [1]", slim), st') ∧
  Forall (λ d : dict, dom d = {["title"; "link"]} ∧ d !! "content" = None)
         slim.
Proof.
  intros env sources slim st'.
  assert (Hrun : agentic_search env "q" 2 start
                 = (Ok ("answer [1]", slim), st')) by vm_refl.
  split; [exact Hrun|].
  destruct (slim_sources_follow_context env "q" 2 start st' _ _ Hrun)
    as (sources' & pre & _ & _ & _ & _ & Hslim).
  exact Hslim.
Defined.

Lemma is_whitelisted_truthy (link : pyval) :
  is_whitelisted link = true → Py.truthy link = true.
Proof. destruct link as [|[|c s]]; [discriminate..|reflexivity]. Qed.

(** The loop of [strong_sources] over [pre ++ more] goes on with [more]
    from what it holds after [pre], when it has not stopped within [pre]:
    it holds fewer than [k] sources then, or no candidate of [pre] had a
    link. *)
Lemma strong_sources_loop_app {World} (env : Collaborators World)
    (pre more : list dict) (k : Z) (sources held : list dict)
    (st st1 : state World) :
  strong_sources_loop env pre k sources st = (Ok held, st1) →
  Py.llen held < k ∨ Forall (λ r, has_link r = false) pre →
  strong_sources_loop env (pre ++ more) k sources st
  = strong_sources_loop env more k held st1.
Proof.
  revert sources st; induction pre as [|r pre IH]; intros sources st Hrun Hgo.
  - simpl in Hrun. injection Hrun as -> ->. reflexivity.
  - simpl in *. destruct (Py.truthy (Py.get r "link")) eqn:Hlink; simpl in *.
    + assert (Hk : Py.llen held < k).
      { destruct Hgo as [Hk|Hall]; [exact Hk|].
        apply Forall_cons in Hall as [Hr _]. unfold has_link in Hr.
        congruence. }
      unfold bind in *.
      destruct (fetch_text env (Py.get r "link") FETCH_MAX_CHARS st)
        as [[content|e] st0]; [|discriminate].
      destruct (k <=? _) eqn:Hfull.
      * apply Z.leb_le in Hfull. injection Hrun as <- <-. lia.
      * apply (IH _ _ Hrun). left. exact Hk.
    + apply (IH _ _ Hrun). destruct Hgo as [Hk|Hall]; [left; exact Hk|].
      right. apply Forall_cons in Hall as [_ Hall]. exact Hall.
Qed.

(** C10: a candidate whose link contains a whitelisted domain is accepted
    whatever was extracted, also when the extractor returned the empty
    string.  Wherever it stands in the list: when the loop of
    [strong_sources] gets to it, holding the sources [held], it fetches
    it, and on an empty text it adds the source with an empty content,
    and so an empty excerpt, and stops if that makes [k] sources or else
    goes on with the rest.  What [strong_sources] returns then is not
    empty, so the orchestrator does not fall back and hands it to the
    synthesizer. *)
Theorem strong_sources_accepts_empty_whitelisted {World}
    (env : Collaborators World) (pre : list dict) (r : dict)
    (rest : list dict) (k : Z) (held : list dict) (st st1 st2 : state World) :
  strong_sources env pre k st = (Ok held, st1) →
  Py.llen held < k ∨ Forall (λ c, Py.truthy (Py.get c "link") = false) pre →
  is_whitelisted (Py.get r "link") = true →
  fetch_text env (Py.get r "link") FETCH_MAX_CHARS st1 = (Ok "", st2) →
  let src := source_dict (Py.or_ (Py.get r "title") (PyStr "Untitled"))
                         (Py.get r "link") (PyStr "") in
  excerpt src = "" ∧
  strong_sources env (pre ++ r :: rest) k st
  = (if k <=? Py.llen held + 1 then ret (held ++ [src])
     else strong_sources_loop env rest k (held ++ [src])) st2 ∧
  ∃ more st',
    strong_sources env (pre ++ r :: rest) k st
    = (Ok (held ++ src :: more), st') ∧
    ∀ query st0,
      smart_search env query (Z.max 10 (k * 2)) st0
        = (Ok (pre ++ r :: rest), st) →
      agentic_search env query k st0
      = (do answer <- summarize_with_claude env (held ++ src :: more) query;
         do slim <- slim_sources (held ++ src :: more);
         ret (answer, slim)) st'.
Proof.
  intros Hpre Hgo Hw Hfetch src.
  assert (Hstep :
    strong_sources env (pre ++ r :: rest) k st
    = (if k <=? Py.llen held + 1 then ret (held ++ [src])
       else strong_sources_loop env rest k (held ++ [src])) st2).
  { unfold strong_sources in *.
    rewrite (strong_sources_loop_app env pre (r :: rest) k [] held st st1 Hpre Hgo).
    simpl. rewrite (is_whitelisted_truthy _ Hw). simpl.
    unfold bind at 1. rewrite Hfetch, Hw. simpl. fold src.
    replace (Py.llen (held ++ [src])) with (Py.llen held + 1)
      by (unfold Py.llen; rewrite length_app; simpl; lia).
    reflexivity. }
  split; [reflexivity|]. split; [exact Hstep|].
  assert (Hrun : ∃ more st',
    strong_sources env (pre ++ r :: rest) k st
    = (Ok (held ++ src :: more), st')).
  { rewrite Hstep. destruct (k <=? _).
    - exists [], st2. reflexivity.
    - destruct (strong_sources_loop_spec env rest k (held ++ [src]) st2)
        as (more & st' & evs & Hrun & _).
      exists more, st'. rewrite Hrun, <- app_assoc. reflexivity. }
  destruct Hrun as (more & st' & Hrun). exists more, st'.
  split; [exact Hrun|]. intros query st0 Hs.
  destruct (pre ++ r :: rest) as [|c cs] eqn:Hlist;
    [destruct pre; discriminate|].
  rewrite (agentic_search_steps env _ _ _ _ _ _ _ _ Hs Hrun).
  destruct held; reflexivity.
Qed.

Lemma strong_sources_accepts_empty_whitelisted_witness :
  let env := with_dedent (plain_env (λ _, Ok (Some blog_and_wiki))
                                    blog_or_blank) in
  let blog := item "Blog" "http://blog.test/wonders" in
  let wiki := item "Wonders" "https://en.wikipedia.org/wiki/Wonders" in
  let src := source_dict (PyStr "Wonders")
               (PyStr "https://en.wikipedia.org/wiki/Wonders") (PyStr "") in
  let st := {| world := 8%nat; trace := searches blog_and_wiki |} in
  let st1 := {| world := 10%nat;
                trace := trace st ++ [EvFetch (Py.get blog "link")] |} in
  let st2 := {| world := 12%nat;
                trace := trace st1 ++ [EvFetch (Py.get wiki "link")] |} in
  let prompt := "user_query: q" +:+ NL +:+ NL +:+ "Sources:" +:+ NL
                  +:+ "[Source 1]" +:+ NL +:+ "Title: Wonders" +:+ NL
                  +:+ "URL: https://en.wikipedia.org/wiki/Wonders" +:+ NL
                  +:+ "Excerpt:" in
  (strong_sources env [blog] 2 st = (Ok [], st1) ∧
   is_whitelisted (Py.get wiki "link") = true ∧
   fetch_text env (Py.get wiki "link") FETCH_MAX_CHARS st1 = (Ok "", st2)) ∧
  smart_search env "q" (Z.max 10 (2 * 2)) start = (Ok [blog; wiki], st) ∧
  strong_sources env [blog; wiki] 2 st = (Ok [src], st2) ∧
  agentic_search env "q" 2 start
  = (Ok ("answer [1]", [item "Wonders" "https://en.wikipedia.org/wiki/Wonders"]),
     {| world := 13%nat;
        trace := trace st2 ++ [EvLLM system_prompt prompt] |}).
Proof.
  intros env blog wiki src st st1 st2 prompt.
  assert (Hpre : strong_sources env [blog] 2 st = (Ok [], st1)) by vm_refl.
  assert (Hw : is_whitelisted (Py.get wiki "link") = true) by vm_refl.
  assert (Hfetch : fetch_text env (Py.get wiki "link") FETCH_MAX_CHARS st1
                   = (Ok "", st2)) by vm_refl.
  assert (Hs : smart_search env "q" (Z.max 10 (2 * 2)) start
               = (Ok [blog; wiki], st)) by vm_refl.
  split; [split; [exact Hpre | split; [exact Hw | exact Hfetch]]|].
  split; [exact Hs|].
  destruct (strong_sources_accepts_empty_whitelisted env [blog] wiki [] 2 []
              st st1 st2 Hpre (or_introl eq_refl) Hw Hfetch)
    as (_ & Hstep & more & st' & Hrun & Hag).
  assert (Hsame : more = [] ∧ st' = st2).
  { rewrite Hstep in Hrun. simpl in Hrun. injection Hrun as Hm Hst.
    split; [|symmetry; exact Hst].
    destruct more; [reflexivity | discriminate Hm]. }
  destruct Hsame as [-> ->].
  split; [exact Hrun|].
  rewrite (Hag "q" start Hs). vm_refl.
Defined.

(** *** Further properties of qualification *)

Section QualificationMore.
Context {World : Type} (env : Collaborators World).

(** The loop of [strong_sources] in full: the candidates with a link are
    fetched one after the other, up to some point; the sources added come
    from a sublist of the fetched candidates, in order, each passing the
    policy with the content fetched; the loop stops short of a candidate
    only once [k] sources are held; and it never holds more than
    [max(k, len(sources) + 1)]. *)
Lemma strong_sources_loop_full (results : list dict) k (sources : list dict)
    (st : state World) :
  ∃ more st' n sub,
    strong_sources_loop env results k sources st = (Ok (sources ++ more), st')
    ∧ trace st'
      = trace st ++ (fetch_of <$> take n (filter (λ r, has_link r = true) results))
    ∧ sub `sublist_of` take n (filter (λ r, has_link r = true) results)
    ∧ Forall2 (λ r s, ∃ content,
                 s = strong_source r content ∧
                 is_whitelisted (Py.get r "link") || long_enough content = true)
              sub more
    ∧ ((n < length (filter (λ r, has_link r = true) results))%nat →
       k ≤ Py.llen (sources ++ more))
    ∧ Py.llen (sources ++ more) ≤ Z.max k (Py.llen sources + 1).
Proof.
  revert sources st; induction results as [|r rest IH]; intros sources st.
  - exists [], st, O, []. simpl. rewrite !app_nil_r.
    split_all; unfold Py.llen; lia.
  - simpl. destruct (Py.truthy (Py.get r "link")) eqn:Hlink; simpl.
    + rewrite filter_cons_True by exact Hlink.
      unfold bind at 1.
      destruct (fetch_text_returns env (Py.get r "link") FETCH_MAX_CHARS st)
        as (content & st1 & Hfetch).
      rewrite Hfetch. apply fetch_text_trace in Hfetch.
      fold (strong_source r content).
      destruct (is_whitelisted (Py.get r "link") || long_enough content)
        eqn:Hpol.
      * destruct (Z.leb_spec k (Py.llen (sources ++ [strong_source r content])))
          as [Hfull|Hroom].
        -- exists [strong_source r content], st1, 1%nat, [r].
           simpl. rewrite take_0.
           split; [reflexivity|]. split; [exact Hfetch|].
           split; [reflexivity|].
           split; [constructor; [eauto | constructor]|].
           split; [intros _; exact Hfull|].
           unfold Py.llen in *. rewrite length_app in *. simpl in *. lia.
        -- destruct (IH (sources ++ [strong_source r content]) st1)
             as (more & st' & n & sub & -> & Htr & Hsub & Hsh & Hstop & Hbound).
           exists (strong_source r content :: more), st', (S n), (r :: sub).
           rewrite <- !app_assoc in *. simpl in *.
           split; [reflexivity|].
           split; [rewrite Htr, Hfetch, <- app_assoc; reflexivity|].
           split; [apply sublist_skip, Hsub|].
           split; [constructor; [eauto | exact Hsh]|].
           split; [intros Hn; apply Hstop; lia|].
           unfold Py.llen in *. rewrite !length_app in *. simpl in *. lia.
      * destruct (Z.leb_spec k (Py.llen sources)) as [Hfull|Hroom].
        -- exists [], st1, 1%nat, []. simpl. rewrite take_0, app_nil_r.
           split; [reflexivity|]. split; [exact Hfetch|].
           split; [apply sublist_nil_l|]. split; [constructor|].
           split; [intros _; exact Hfull | lia].
        -- destruct (IH sources st1)
             as (more & st' & n & sub & -> & Htr & Hsub & Hsh & Hstop & Hbound).
           exists more, st', (S n), sub. simpl.
           split; [reflexivity|].
           split; [rewrite Htr, Hfetch, <- app_assoc; reflexivity|].
           split; [apply sublist_cons, Hsub|].
           split; [exact Hsh|].
           split; [intros Hn; apply Hstop; lia | exact Hbound].
    + rewrite filter_cons_False by (unfold has_link; rewrite Hlink; discriminate).
      apply IH.
Qed.

End QualificationMore.

Lemma sublist_Forall {A} (P : A → Prop) (l1 l2 : list A) :
  l1 `sublist_of` l2 → Forall P l2 → Forall P l1.
Proof.
  intros Hsub. rewrite !Forall_forall. intros H x Hx. apply H.
  eapply elem_of_submseteq; [exact Hx | apply sublist_submseteq, Hsub].
Qed.

Lemma filter_has_link_Forall (results : list dict) :
  Forall (λ r, has_link r = true) (filter (λ r, has_link r = true) results).
Proof. apply Forall_forall. intros r Hr. apply list_elem_of_filter in Hr. tauto. Qed.

(** X1: [strong_sources] never returns more than [k] sources, or one when
    [k] is below 1: the count is checked against [k] only after a
    candidate has been looked at. *)
Theorem strong_sources_at_most_k {World} (env : Collaborators World)
    (results : list dict) (k : Z) (st : state World) :
  ∃ sources st',
    strong_sources env results k st = (Ok sources, st') ∧
    Py.llen sources ≤ Z.max k 1.
Proof.
  destruct (strong_sources_loop_full env results k [] st)
    as (more & st' & n & sub & Hrun & _ & _ & _ & _ & Hbound).
  exists more, st'. split; [exact Hrun|]. exact Hbound.
Qed.

(** X2: The sources [strong_sources] returns stand in the rank order of the
    candidates: they are made, one each, of a subsequence of the
    candidates that have a link, with the candidate's title (or
    ["Untitled"] when it has none), its link, and a content for which
    the policy holds. *)
Theorem strong_sources_in_rank_order {World} (env : Collaborators World)
    (results : list dict) (k : Z) (st : state World) :
  ∃ sources st' chosen,
    strong_sources env results k st = (Ok sources, st') ∧
    chosen `sublist_of` results ∧
    Forall (λ r, Py.truthy (Py.get r "link") = true) chosen ∧
    Forall2 (λ r s, ∃ content,
               s = source_dict (Py.or_ (Py.get r "title") (PyStr "Untitled"))
                               (Py.get r "link") (PyStr content) ∧
               is_whitelisted (Py.get r "link") || long_enough content = true)
            chosen sources.
Proof.
  destruct (strong_sources_loop_full env results k [] st)
    as (more & st' & n & sub & Hrun & _ & Hsub & Hsh & _).
  exists more, st', sub. split; [exact Hrun|].
  assert (Hsub' : sub `sublist_of` filter (λ r, has_link r = true) results)
    by (etrans; [exact Hsub | apply sublist_take]).
  split; [etrans; [exact Hsub' | apply sublist_filter]|].
  split; [exact (sublist_Forall _ _ _ Hsub' (filter_has_link_Forall results))|].
  exact Hsh.
Qed.

(** X3: [strong_sources] fetches the candidates that have a link, each once
    and in order, and nothing else; candidates without a link cost no
    fetch.  It leaves candidates unfetched only when it holds [k]
    sources. *)
Theorem strong_sources_fetches {World} (env : Collaborators World)
    (results : list dict) (k : Z) (st : state World) :
  ∃ sources st' n,
    strong_sources env results k st = (Ok sources, st') ∧
    trace st'
      = trace st ++ ((λ r, EvFetch (Py.get r "link"))
                       <$> take n (filter (λ r, has_link r = true) results)) ∧
    ((n < length (filter (λ r, has_link r = true) results))%nat →
     k ≤ Py.llen sources).
Proof.
  destruct (strong_sources_loop_full env results k [] st)
    as (more & st' & n & sub & Hrun & Htr & _ & _ & Hstop & _).
  exists more, st', n. split; [exact Hrun|]. split; [exact Htr | exact Hstop].
Qed.

Lemma strong_sources_fetches_witness :
  let env := plain_env (λ _, Ok None)
               (λ url, if decide (url = PyStr "http://b.test/")
                       then "short" else filler 800) in
  let results := [ item "A" "http://a.test/"; item "B" "http://b.test/";
                   {[ "title" := PyStr "no link" ]};
                   item "C" "http://c.test/"; item "D" "http://d.test/" ] in
  strong_sources env results 2 start
  = (Ok [ source_dict (PyStr "A") (PyStr "http://a.test/") (PyStr (filler 800));
          source_dict (PyStr "C") (PyStr "http://c.test/") (PyStr (filler 800)) ],
     {| world := 6%nat;
        trace := [ EvFetch (PyStr "http://a.test/");
                   EvFetch (PyStr "http://b.test/");
                   EvFetch (PyStr "http://c.test/") ] |})
  ∧ ∃ sources st' n,
      strong_sources env results 2 start = (Ok sources, st') ∧
      ((n < length (filter (λ r, has_link r = true) results))%nat →
       2 ≤ Py.llen sources).
Proof.
  intros env results. split; [vm_refl|].
  destruct (strong_sources_fetches env results 2 start)
    as (sources & st' & n & Hrun & _ & Hstop).
  exists sources, st', n. split; [exact Hrun | exact Hstop].
Defined.

(** *** Further properties of query expansion *)

Section ExpansionMore.
Context {World : Type} (env : Collaborators World).

(** The outer loop, call by call: it searches the queries in order, each
    for ten results, and before each call the candidates gathered are
    fewer than the budget; it goes through all the queries unless the
    budget is reached. *)
Lemma search_variants_calls budget queries seen (items : list dict)
    (st st' : state World) out :
  Py.llen items < budget →
  search_variants env budget queries seen items st = (Ok out, st') →
  ∃ rss : list (list dict),
    (length rss ≤ length queries)%nat ∧
    trace st' = trace st ++ zip_with search_of queries rss ∧
    out = items ++ take (Z.to_nat budget - length items)
                        (first_seen seen (concat rss)) ∧
    (Py.llen out < budget → length rss = length queries) ∧
    (∀ j, (j < length rss)%nat →
       Py.llen (items ++ first_seen seen (concat (take j rss))) < budget).
Proof.
  revert seen items st; induction queries as [|q rest IH];
    intros seen items st Hlt; simpl.
  - intros [= <- <-]. exists []. simpl. rewrite take_nil, !app_nil_r.
    split; [lia|]. split; [reflexivity|]. split; [reflexivity|].
    split; [reflexivity|]. intros j Hj. lia.
  - unfold bind at 1.
    destruct (google_search_once env q 10 st) as [[results|e] st1] eqn:Hs;
      [|discriminate].
    apply google_search_once_ok in Hs.
    destruct (scan_results_spec budget results seen items Hlt) as [H2 H1].
    destruct (scan_results budget results seen items) as [seen' items'].
    simpl in H1, H2.
    destruct (Z.leb_spec budget (Py.llen items')) as [Hfull|Hroom].
    + intros [= <- <-]. exists [results]. simpl.
      rewrite zip_with_nil_r, !app_nil_r.
      split; [lia|]. split; [exact Hs|]. split; [exact H2|].
      split; [lia|]. intros j Hj. replace j with O by lia. simpl.
      rewrite app_nil_r. exact Hlt.
    + intros Hrec.
      apply IH in Hrec as (rss & Hlen & Htr & Hout & Hall & Hbefore);
        [|exact Hroom].
      assert (Hfirst : take (Z.to_nat budget - length items)
                         (first_seen seen results) = first_seen seen results).
      { apply take_ge. unfold Py.llen in *. rewrite H2, length_app in Hroom.
        rewrite length_take in Hroom. lia. }
      rewrite Hfirst in H2. rewrite (H1 Hroom) in *. clear H1.
      exists (results :: rss). simpl.
      split; [lia|].
      split; [rewrite Htr, Hs, <- app_assoc; reflexivity|].
      split.
      { rewrite Hout, H2, first_seen_app, take_app_ge, <- app_assoc, length_app.
        - do 3 f_equal. lia.
        - unfold Py.llen in *. rewrite H2, length_app in Hroom. lia. }
      split; [intros Hout'; rewrite (Hall Hout'); reflexivity|].
      intros [|j] Hj; simpl.
      * rewrite app_nil_r. exact Hlt.
      * rewrite first_seen_app, app_assoc, <- H2. apply Hbefore. lia.
Qed.

End ExpansionMore.

Lemma query_variants_length (query : string) :
  length (query_variants query) = 8%nat.
Proof. reflexivity. Qed.

(** X4: [smart_search] searches the query variants in their order, the plain
    query first, each for ten results, and nothing else; at least one
    variant is searched, and all eight unless the candidate list reaches
    the budget [max(12, k*2)]. *)
Theorem smart_search_variants_in_order {World} (env : Collaborators World)
    (query : string) (k : Z) (st st' : state World) (items : list dict) :
  smart_search_items env query k st = (Ok items, st') →
  ∃ rss : list (list dict),
    (1 ≤ length rss ≤ 8)%nat ∧
    trace st'
      = trace st ++ zip_with (λ q rs, EvSearch q 10 rs)
                             (query_variants query) rss ∧
    (Py.llen items < Z.max 12 (k * 2) → length rss = 8%nat).
Proof.
  unfold smart_search_items. intros H.
  apply search_variants_calls in H as (rss & Hlen & Htr & Hout & Hall & _);
    [|unfold search_budget, Py.llen; simpl; lia].
  rewrite query_variants_length in *. exists rss.
  split; [|split; [exact Htr | exact Hall]].
  split; [|exact Hlen].
  destruct rss as [|rs rss]; [|simpl; lia].
  simpl in Hout. rewrite take_nil in Hout. subst items.
  assert (0%nat = 8%nat); [|lia].
  apply Hall. unfold search_budget, Py.llen. simpl. lia.
Qed.

Lemma smart_search_variants_in_order_witness :
  let env := plain_env (λ q, Ok (Some (ten_results q))) (λ _, "") in
  let st' :=
    {| world := 2%nat;
       trace := [EvSearch "q" 10 (ten_results "q");
                 EvSearch "q official list" 10
                          (ten_results "q official list")] |} in
  let items := ten_results "q" ++ take 2 (ten_results "q official list") in
  smart_search_items env "q" 6 start = (Ok items, st') ∧
  ∃ rss : list (list dict),
    (1 ≤ length rss ≤ 8)%nat ∧
    trace st' = trace start ++ zip_with (λ q rs, EvSearch q 10 rs)
                                        (query_variants "q") rss.
Proof.
  intros env st' items.
  assert (Hitems : smart_search_items env "q" 6 start = (Ok items, st'))
    by vm_refl.
  split; [exact Hitems|].
  destruct (smart_search_variants_in_order env "q" 6 start st' items Hitems)
    as (rss & Hlen & Htr & _).
  exists rss. split; [exact Hlen | exact Htr].
Defined.

(** X5: [smart_search] stops searching at the budget: a variant is searched
    only while the first-seen candidates of the results so far are fewer
    than [max(12, k*2)]. *)
Theorem smart_search_stops_at_budget {World} (env : Collaborators World)
    (query : string) (k : Z) (st st' : state World) (items : list dict) :
  smart_search_items env query k st = (Ok items, st') →
  ∃ rss : list (list dict),
    trace st'
      = trace st ++ zip_with (λ q rs, EvSearch q 10 rs)
                             (query_variants query) rss ∧
    ∀ j, (j < length rss)%nat →
      Py.llen (first_seen ∅ (concat (take j rss))) < Z.max 12 (k * 2).
Proof.
  unfold smart_search_items. intros H.
  apply search_variants_calls in H as (rss & _ & Htr & _ & _ & Hbefore);
    [|unfold search_budget, Py.llen; simpl; lia].
  exists rss. split; [exact Htr|]. intros j Hj. exact (Hbefore j Hj).
Qed.

Lemma smart_search_stops_at_budget_witness :
  let env := plain_env (λ q, Ok (Some (ten_results q))) (λ _, "") in
  let st' :=
    {| world := 2%nat;
       trace := [EvSearch "q" 10 (ten_results "q");
                 EvSearch "q official list" 10
                          (ten_results "q official list")] |} in
  let items := ten_results "q" ++ take 2 (ten_results "q official list") in
  smart_search_items env "q" 6 start = (Ok items, st') ∧
  ∃ rss : list (list dict),
    trace st' = trace start ++ zip_with (λ q rs, EvSearch q 10 rs)
                                        (query_variants "q") rss ∧
    ∀ j, (j < length rss)%nat →
      Py.llen (first_seen ∅ (concat (take j rss))) < Z.max 12 (6 * 2).
Proof.
  intros env st' items.
  assert (Hitems : smart_search_items env "q" 6 start = (Ok items, st'))
    by vm_refl.
  split; [exact Hitems|].
  exact (smart_search_stops_at_budget env "q" 6 start st' items Hitems).
Defined.

(** What [smart_search] returns is taken, in order, from the candidates
    that pass its title/link filter. *)
Lemma smart_search_filtered {World} (env : Collaborators World)
    (query : string) (k : Z) (st st' : state World) (out : list dict) :
  smart_search env query k st = (Ok out, st') →
  ∃ items, out `sublist_of` filter (λ it, has_title_and_link it = true) items.
Proof.
  unfold smart_search, bind, ret.
  destruct (smart_search_items env query k st) as [[items|e] st1];
    [|discriminate].
  intros [= <- <-]. exists items. apply take_to_sublist.
Qed.

(** X6: Every result [smart_search] returns has a non-empty title and a
    non-empty link. *)
Theorem smart_search_results_usable {World} (env : Collaborators World)
    (query : string) (k : Z) (st st' : state World) (out : list dict) :
  smart_search env query k st = (Ok out, st') →
  Forall (λ it, Py.truthy (Py.get it "title") = true ∧
                Py.truthy (Py.get it "link") = true) out.
Proof.
  intros H. apply smart_search_filtered in H as (items & Hsub).
  eapply sublist_Forall; [exact Hsub|].
  apply Forall_forall. intros it Hit.
  apply list_elem_of_filter in Hit as [Hit _].
  unfold has_title_and_link in Hit. apply andb_true_iff in Hit. exact Hit.
Qed.

Lemma smart_search_results_usable_witness :
  let env := plain_env (λ _, Ok (Some [ item "A" "http://a.test/";
                                        item "" "http://b.test/";
                                        {[ "link" := PyStr "http://c.test/" ]};
                                        {[ "title" := PyStr "D" ]} ]))
                       (λ _, "") in
  smart_search env "q" 6 start
  = (Ok [item "A" "http://a.test/"],
     {| world := 8%nat;
        trace := searches [ item "A" "http://a.test/";
                            item "" "http://b.test/";
                            {[ "link" := PyStr "http://c.test/" ]};
                            {[ "title" := PyStr "D" ]} ] |})
  ∧ Forall (λ it, Py.truthy (Py.get it "title") = true ∧
                  Py.truthy (Py.get it "link") = true)
           [item "A" "http://a.test/"].
Proof.
  intros env.
  assert (Hrun : smart_search env "q" 6 start
    = (Ok [item "A" "http://a.test/"],
       {| world := 8%nat;
          trace := searches [ item "A" "http://a.test/";
                              item "" "http://b.test/";
                              {[ "link" := PyStr "http://c.test/" ]};
                              {[ "title" := PyStr "D" ]} ] |})) by vm_refl.
  split; [exact Hrun|].
  exact (smart_search_results_usable env "q" 6 start _ _ Hrun).
Defined.

(** *** Further properties of extraction *)

Lemma str_truthy_iff (s : string) : Py.str_truthy s = true ↔ s ≠ "".
Proof. destruct s; simpl; split; congruence. Qed.

Lemma lstrip_cases (s : string) :
  Py.lstrip s = "" ∨ ∃ c t, Py.lstrip s = String c t ∧ Py.isspace c = false.
Proof.
  induction s as [|c s IH]; simpl; [left; reflexivity|].
  destruct (Py.isspace c) eqn:Hc; [exact IH|]. right. eauto.
Qed.

Lemma rstrip_idem (s : string) : Py.rstrip (Py.rstrip s) = Py.rstrip s.
Proof.
  induction s as [|c s IH]; simpl; [reflexivity|].
  destruct (Py.rstrip s) as [|d r] eqn:Hr.
  - destruct (Py.isspace c) eqn:Hc; simpl; [reflexivity|]. rewrite Hc. reflexivity.
  - simpl in IH |- *. rewrite IH. reflexivity.
Qed.

Lemma rstrip_head c (t : string) :
  Py.isspace c = false → ∃ t', Py.rstrip (String c t) = String c t'.
Proof.
  intros Hc. simpl. destruct (Py.rstrip t); [rewrite Hc|]; eauto.
Qed.

(** Stripping twice is stripping once. *)
Lemma strip_idem (s : string) : Py.strip (Py.strip s) = Py.strip s.
Proof.
  unfold Py.strip. destruct (lstrip_cases s) as [->|(c & t & -> & Hc)];
    [reflexivity|].
  destruct (rstrip_head c t Hc) as (t' & Ht). rewrite Ht.
  simpl Py.lstrip. rewrite Hc, <- Ht. apply rstrip_idem.
Qed.

Lemma join_nonempty sep (l : string) (rest : list string) :
  l ≠ "" → Py.join sep (l :: rest) ≠ "".
Proof.
  intros Hl. destruct rest as [|l' rest]; simpl; [exact Hl|].
  destruct l; [congruence|]. rewrite append_cons. discriminate.
Qed.

Lemma filter_blank_lines (lines : list string) :
  Forall (λ line, Py.strip line = "") lines →
  filter (λ line, Py.str_truthy (Py.strip line) = true) lines = [].
Proof.
  induction 1 as [|line lines Hline _ IH]; [reflexivity|].
  rewrite filter_cons_False; [exact IH|]. rewrite Hline. discriminate.
Qed.

(** The lines kept are not empty and have no white space at their
    ends. *)
Lemma kept_lines_stripped (lines : list string) :
  Forall (λ l, l ≠ "" ∧ Py.strip l = l)
         (map Py.strip
              (filter (λ line, Py.str_truthy (Py.strip line) = true) lines)).
Proof.
  apply Forall_forall. intros l Hl.
  apply list_elem_of_In, in_map_iff in Hl as (line & <- & Hline).
  apply list_elem_of_In, list_elem_of_filter in Hline as [Hline _].
  split; [apply str_truthy_iff, Hline | apply strip_idem].
Qed.

(** X7: The text the fallback extraction keeps is made of the lines of the
    page that are not blank, each without white space at its ends and none
    of them empty; it is empty exactly when every line of the page is
    blank. *)
Theorem clean_lines_kept (raw : string) :
  let kept :=
    map Py.strip
        (filter (λ line, Py.str_truthy (Py.strip line) = true)
                (Py.splitlines raw)) in
  clean_lines raw = Py.join NL kept ∧
  Forall (λ l, l ≠ "" ∧ Py.strip l = l) kept ∧
  (clean_lines raw = "" ↔
   Forall (λ line, Py.strip line = "") (Py.splitlines raw)).
Proof.
  intros kept. split; [reflexivity|].
  pose proof (kept_lines_stripped (Py.splitlines raw)) as Hkept.
  fold kept in Hkept. split; [exact Hkept|].
  change (clean_lines raw) with (Py.join NL kept).
  split.
  - intros Hempty. apply Forall_forall. intros line Hline.
    destruct (Py.strip line) eqn:Hs; [reflexivity|]. exfalso.
    assert (Hin : Py.strip line ∈ kept).
    { unfold kept. apply list_elem_of_In, in_map, list_elem_of_In.
      apply list_elem_of_filter. split; [rewrite Hs; reflexivity | exact Hline]. }
    destruct kept as [|l rest]; [inversion Hin|].
    apply Forall_cons in Hkept as [[Hl _] _].
    exact (join_nonempty NL l rest Hl Hempty).
  - intros Hblank. unfold kept.
    rewrite (filter_blank_lines _ Hblank). reflexivity.
Qed.

Section ExtractionMore.
Context {World : Type} (env : Collaborators World).

(** [fetch_text] path by path, after the download of the primary
    extraction. *)
Lemma fetch_text_after_download url max_chars (st : state World) d w1 :
  trafilatura_fetch_url env url (world st) = (Ok d, w1) →
  fetch_text env url max_chars st
  = let tr := trace st ++ [EvFetch url] in
    match primary_text env d max_chars with
    | Raise e => (Ok (fetch_error env url e), {| world := w1; trace := tr |})
    | Ok (Some t) => (Ok t, {| world := w1; trace := tr |})
    | Ok None =>
        match session_get env url 15 w1 with
        | (Raise e, w2) =>
            (Ok (fetch_error env url e), {| world := w2; trace := tr |})
        | (Ok resp, w2) =>
            let st2 := {| world := w2; trace := tr |} in
            if (400 <=? status_code_of resp) && (status_code_of resp <? 600)
            then (Ok (fetch_error env url (HTTPError (status_code_of resp))),
                  st2)
            else
              match soup_get_text env (text_of resp) with
              | Raise e => (Ok (fetch_error env url e), st2)
              | Ok raw =>
                  (Ok (if Py.str_truthy (clean_lines raw)
                       then Py.slice_to max_chars (clean_lines raw)
                       else ""), st2)
              end
        end
    end.
Proof.
  intros Hd. rewrite fetch_text_cases.
  unfold fetch_text_try, primary_text, bind, call, lift, ret, raise. simpl.
  rewrite Hd. simpl.
  repeat (case_match; simplify_eq/=); reflexivity.
Qed.

End ExtractionMore.

(** X8: When the primary extraction finds text in the download, [fetch_text]
    returns that text, stripped and cut to [max_chars], and the page is
    not requested a second time: the world is as the download left it. *)
Theorem fetch_text_primary_wins {World} (env : Collaborators World)
    (url : pyval) (max_chars : Z) (st : state World)
    (html t : string) (w1 : World) :
  trafilatura_fetch_url env url (world st) = (Ok (Some html), w1) →
  html ≠ "" →
  trafilatura_extract env html = Ok (Some t) →
  Py.strip t ≠ "" →
  fetch_text env url max_chars st
  = (Ok (Py.slice_to max_chars (Py.strip t)),
     {| world := w1; trace := trace st ++ [EvFetch url] |}).
Proof.
  intros Hd Hhtml Hex Hs.
  rewrite (fetch_text_after_download env _ _ _ _ _ Hd). simpl.
  apply str_truthy_iff in Hhtml. rewrite Hhtml, Hex.
  assert (Ht : Py.str_truthy t = true).
  { destruct t; [exfalso; apply Hs; reflexivity | reflexivity]. }
  apply str_truthy_iff in Hs. rewrite Ht, Hs. reflexivity.
Qed.

Lemma fetch_text_primary_wins_witness :
  let env := toy_env (λ _, Ok None)
               (λ _, Ok (Some "<p> Hello world </p>"))
               (λ _, Ok (Some "  Hello world  "))
               (λ _, Raise (Exception_ "not asked")) (λ s, Ok s)
               (λ _, Ok []) in
  fetch_text env (PyStr "http://x.test/") 7 start
  = (Ok "Hello w",
     {| world := 1%nat; trace := [EvFetch (PyStr "http://x.test/")] |}).
Proof.
  intros env.
  exact (fetch_text_primary_wins env (PyStr "http://x.test/") 7 start
           "<p> Hello world </p>" "  Hello world  " 1%nat
           eq_refl ltac:(discriminate) eq_refl ltac:(discriminate)).
Defined.

(** X9: When the primary extraction finds nothing and the page answers with
    a client or server error status, the content is the placeholder for
    that HTTP error: the body of an error page is never parsed into
    content. *)
Theorem fetch_text_http_error {World} (env : Collaborators World)
    (url : pyval) (max_chars : Z) (st : state World)
    (d : option string) (resp : Response) (w1 w2 : World) :
  trafilatura_fetch_url env url (world st) = (Ok d, w1) →
  primary_text env d max_chars = Ok None →
  session_get env url 15 w1 = (Ok resp, w2) →
  400 ≤ status_code_of resp < 600 →
  fetch_text env url max_chars st
  = (Ok ("[Fetch error for " +:+ Py.str url +:+ ": "
           +:+ exn_str env (HTTPError (status_code_of resp)) +:+ "]"),
     {| world := w2; trace := trace st ++ [EvFetch url] |}).
Proof.
  intros Hd Hp Hget [Hlo Hhi].
  rewrite (fetch_text_after_download env _ _ _ _ _ Hd). simpl.
  rewrite Hp, Hget.
  apply Z.leb_le in Hlo. apply Z.ltb_lt in Hhi. rewrite Hlo, Hhi. reflexivity.
Qed.

Lemma fetch_text_http_error_witness :
  let env := toy_env (λ _, Ok None) (λ _, Ok None) (λ _, Ok None)
               (λ _, Ok {| status_code_of := 404;
                           text_of := filler 900 |})
               (λ s, Ok s) (λ _, Ok []) in
  fetch_text env (PyStr "http://x.test/") 30000 start
  = (Ok "[Fetch error for http://x.test/: 404 Error]",
     {| world := 2%nat; trace := [EvFetch (PyStr "http://x.test/")] |}).
Proof.
  intros env.
  exact (fetch_text_http_error env (PyStr "http://x.test/") 30000 start
           None {| status_code_of := 404; text_of := filler 900 |}
           1%nat 2%nat eq_refl eq_refl eq_refl ltac:(simpl; lia)).
Defined.

(** *** Further properties of the summary *)

Lemma str_take_prefix (n : nat) (s : string) :
  ∃ rest, s = Py.str_take n s +:+ rest.
Proof.
  revert s; induction n as [|n IH]; intros s; [exists s; reflexivity|].
  destruct s as [|c s]; [exists ""; reflexivity|].
  destruct (IH s) as [rest Hrest]. exists rest. simpl.
  rewrite append_cons, <- Hrest. reflexivity.
Qed.

Lemma str_take_all (n : nat) (s : string) :
  (String.length s ≤ n)%nat → Py.str_take n s = s.
Proof.
  revert s; induction n as [|n IH]; intros [|c s]; simpl; intros H;
    try reflexivity; [lia|].
  rewrite IH; [reflexivity | lia].
Qed.

Lemma slice_to_nonneg (n : Z) (s : string) :
  0 ≤ n → Py.slice_to n s = Py.str_take (Z.to_nat n) s.
Proof. intros H. unfold Py.slice_to. destruct (Z.leb_spec 0 n); [reflexivity|lia]. Qed.

(** X10: The excerpt of a source is the beginning of its content, and the
    whole of it when the content has at most 6000 characters. *)
Theorem excerpt_is_prefix (s : dict) :
  (∃ rest, Py.or_empty (Py.get s "content") = excerpt s +:+ rest) ∧
  (Py.len (Py.or_empty (Py.get s "content")) ≤ 6000 →
   excerpt s = Py.or_empty (Py.get s "content")).
Proof.
  unfold excerpt, EXCERPT_CAP. rewrite slice_to_nonneg by lia. split.
  - apply str_take_prefix.
  - intros H. apply str_take_all. unfold Py.len in H. lia.
Qed.

Lemma excerpt_is_prefix_witness :
  let s := source_dict (PyStr "T") (PyStr "http://x.test/") (PyStr "short") in
  Py.len (Py.or_empty (Py.get s "content")) ≤ 6000 ∧ excerpt s = "short".
Proof.
  intros s. split; [vm_compute; congruence|].
  apply (proj2 (excerpt_is_prefix
                  (source_dict (PyStr "T") (PyStr "http://x.test/")
                               (PyStr "short")))).
  vm_compute. congruence.
Defined.

(** X11: The answer of the synthesizer is made of the text parts of the reply
    only, joined in their order, and has no white space at its ends; the
    one call it makes carries the model name, the token limit of 1400, the
    system prompt and the user prompt built from the sources. *)
Theorem summarize_with_claude_answer {World} (env : Collaborators World)
    (sources : list dict) (user_query : string) (st : state World)
    (content : list part) (w : World) :
  claude_messages_create env "claude-3-5-sonnet-latest" 1400 system_prompt
    (user_prompt env sources user_query) (world st) = (Ok content, w) →
  ∃ answer,
    summarize_with_claude env sources user_query st
    = (Ok answer,
       {| world := w;
          trace := trace st ++ [EvLLM system_prompt
                                  (user_prompt env sources user_query)] |}) ∧
    answer = Py.strip (Py.join "" (map ptext
                         (filter (λ p, ptype p = "text") content))) ∧
    Py.strip answer = answer.
Proof.
  intros Hcall. eexists. split; [|split; [reflexivity | apply strip_idem]].
  unfold summarize_with_claude, bind, call, log, ret. simpl.
  rewrite Hcall. reflexivity.
Qed.

Lemma summarize_with_claude_answer_witness :
  let env := toy_env (λ _, Ok None) (λ _, Ok None) (λ _, Ok None)
               (λ _, Raise (Exception_ "offline")) (λ s, Ok s)
               (λ _, Ok [ {| ptype := "text"; ptext := "  The answer " |};
                          {| ptype := "tool_use"; ptext := "ignored" |};
                          {| ptype := "text"; ptext := "is 42 [1].  " |} ]) in
  summarize_with_claude env [] "q" start
  = (Ok "The answer is 42 [1].",
     {| world := 1%nat;
        trace := [EvLLM system_prompt (user_prompt env [] "q")] |}).
Proof.
  intros env.
  destruct (summarize_with_claude_answer env [] "q" start
              [ {| ptype := "text"; ptext := "  The answer " |};
                {| ptype := "tool_use"; ptext := "ignored" |};
                {| ptype := "text"; ptext := "is 42 [1].  " |} ] 1%nat eq_refl)
    as (answer & Hrun & Hanswer & _).
  rewrite Hrun, Hanswer. vm_refl.
Defined.

(** *** Further properties of the orchestration *)

Lemma or_untitled (v : pyval) :
  ∃ t, Py.or_ v (PyStr "Untitled") = PyStr t ∧ t ≠ "".
Proof.
  destruct v as [|[|c s]]; [exists "Untitled" .. | exists (String c s)];
    split; (reflexivity || discriminate).
Qed.

Lemma truthy_string (v : pyval) :
  Py.truthy v = true → ∃ t, v = PyStr t ∧ t ≠ "".
Proof.
  destruct v as [|[|c s]]; try discriminate. intros _. eexists.
  split; [reflexivity | discriminate].
Qed.

Lemma get_default_truthy (r : dict) key dflt :
  Py.truthy (Py.get r key) = true → Py.get_default r key dflt = Py.get r key.
Proof.
  unfold Py.get, Py.get_default. destruct (r !! key); [reflexivity|discriminate].
Qed.

Lemma slim_of_source_dict t l c :
  slim_of (source_dict (PyStr t) (PyStr l) c) = item t l.
Proof. reflexivity. Qed.

Lemma filter_all {A} (P : A → Prop) `{!∀ x, Decision (P x)} (l : list A) :
  Forall P l → filter P l = l.
Proof.
  induction 1 as [|x l Hx _ IH]; [reflexivity|].
  rewrite filter_cons_True by exact Hx. rewrite IH. reflexivity.
Qed.

Section OrchestrationMore.
Context {World : Type} (env : Collaborators World).

(** The fallback turns candidates with a title and a link into sources
    whose slim projections are string-valued. *)
Lemma fallback_slim (rs sources : list dict) :
  Forall (λ it, Py.truthy (Py.get it "title") = true ∧
                Py.truthy (Py.get it "link") = true) rs →
  Forall2 (λ r s, ∃ content,
             s = source_dict (Py.get_default r "title" (PyStr "Untitled"))
                             (Py.get r "link") (PyStr content))
          rs sources →
  Forall is_slim (slim_of <$> sources).
Proof.
  intros Hrs Hsh. induction Hsh as [|r s rs sources [c ->] _ IH]; [constructor|].
  apply Forall_cons in Hrs as [[Ht Hl] Hrs]. simpl.
  constructor; [|exact (IH Hrs)].
  rewrite (get_default_truthy _ _ _ Ht).
  destruct (truthy_string _ Ht) as (t & -> & Hne).
  destruct (truthy_string _ Hl) as (l & -> & Hnel).
  exists t, l. rewrite slim_of_source_dict. auto.
Qed.

(** So does the qualifier, for candidates with a link. *)
Lemma strong_slim (chosen sources : list dict) :
  Forall (λ r, has_link r = true) chosen →
  Forall2 (λ r s, ∃ content,
             s = strong_source r content ∧
             is_whitelisted (Py.get r "link") || long_enough content = true)
          chosen sources →
  Forall is_slim (slim_of <$> sources).
Proof.
  intros Hrs Hsh.
  induction Hsh as [|r s rs sources (c & -> & _) _ IH]; [constructor|].
  apply Forall_cons in Hrs as [Hl Hrs]. simpl.
  constructor; [|exact (IH Hrs)]. unfold strong_source.
  destruct (or_untitled (Py.get r "title")) as (t & -> & Hne).
  destruct (truthy_string _ Hl) as (l & -> & Hnel).
  exists t, l. rewrite slim_of_source_dict. auto.
Qed.

(** What a successful [agentic_search] went through. *)
Lemma agentic_search_inv q k (st st' : state World) answer (slim : list dict) :
  agentic_search env q k st = (Ok (answer, slim), st') →
  ∃ r rest st1 strong st2 sources st3,
    smart_search env q (Z.max 10 (k * 2)) st = (Ok (r :: rest), st1) ∧
    strong_sources env (r :: rest) k st1 = (Ok strong, st2) ∧
    (strong ≠ [] ∧ sources = strong ∧ st3 = st2 ∨
     strong = [] ∧ fallback_sources env (r :: rest) k st2 = (Ok sources, st3)) ∧
    summarize_with_claude env sources q st3 = (Ok answer, st') ∧
    slim = slim_of <$> sources.
Proof.
  intros H.
  destruct (smart_search env q (Z.max 10 (k * 2)) st)
    as [[[|r rest]|e] st1] eqn:Hs.
  - rewrite (agentic_search_no_results env _ _ _ _ Hs) in H. discriminate.
  - destruct (strong_sources_loop_spec env (r :: rest) k [] st1)
      as (strong & st2 & evs2 & Hq & Hpol & _).
    rewrite app_nil_l in Hq.
    change (strong_sources env (r :: rest) k st1 = (Ok strong, st2)) in Hq.
    rewrite (agentic_search_steps env _ _ _ _ _ _ _ _ Hs Hq) in H.
    exists r, rest, st1, strong, st2.
    destruct strong as [|s0 strong].
    + destruct (fallback_each_spec env (Py.take_to k (r :: rest)) st2)
        as (sources & st3 & Hrun & Hshape & _).
      fold (fallback_sources env (r :: rest) k) in Hrun.
      unfold bind at 1 in H. rewrite Hrun in H. unfold bind at 1 in H.
      destruct (summarize_with_claude env sources q st3)
        as [[ans|e] st4] eqn:Hsum; [|discriminate].
      unfold bind in H.
      rewrite (slim_sources_spec sources st4
                 (Forall2_sources_shape _ _ Hshape)) in H.
      injection H as <- <- <-. exists sources, st3. auto 10.
    + unfold bind at 1 in H. unfold ret at 1 in H. unfold bind at 1 in H.
      destruct (summarize_with_claude env (s0 :: strong) q st2)
        as [[ans|e] st4] eqn:Hsum; [|discriminate].
      unfold bind in H.
      assert (Hsh : Forall is_source (s0 :: strong))
        by (eapply Forall_impl; [exact Hpol|]; intros s [_ Hs']; exact Hs').
      rewrite (slim_sources_spec (s0 :: strong) st4 Hsh) in H.
      injection H as <- <- <-. exists (s0 :: strong), st2.
      split; [reflexivity|]. split; [exact Hq|].
      split; [left; split; [discriminate | auto]|]. auto.
  - unfold agentic_search, bind in H. rewrite Hs in H. discriminate.
Qed.

End OrchestrationMore.

Lemma smart_search_linked {World} (env : Collaborators World)
    (query : string) (k : Z) (st st' : state World) (out : list dict) :
  smart_search env query k st = (Ok out, st') →
  Forall (λ it, Py.truthy (Py.get it "title") = true ∧
                Py.truthy (Py.get it "link") = true) out.
Proof.
  intros H. apply smart_search_filtered in H as (items & Hsub).
  rewrite Forall_forall. intros it Hit.
  assert (Hin : it ∈ filter (λ it, has_title_and_link it = true) items)
    by (eapply elem_of_submseteq; [exact Hit | apply sublist_submseteq, Hsub]).
  apply list_elem_of_filter in Hin as [Hin _].
  apply andb_true_iff in Hin. exact Hin.
Qed.

(** X12: The slim sources of a successful [agentic_search] are all of the form
    [{"title": t, "link": l}] with [t] and [l] non-empty strings, on the
    qualified path and on the fallback path alike; so the response model,
    which wants string values, accepts them. *)
Theorem agentic_search_slim_strings {World} (env : Collaborators World)
    (query : string) (k : Z) (st st' : state World)
    (answer : string) (slim : list dict) :
  agentic_search env query k st = (Ok (answer, slim), st') →
  Forall (λ d : dict, ∃ title link,
            d = {[ "title" := PyStr title; "link" := PyStr link ]} ∧
            title ≠ "" ∧ link ≠ "") slim.
Proof.
  intros H.
  apply agentic_search_inv in H
    as (r & rest & st1 & strong & st2 & sources & st3
        & Hs & Hq & Hsrc & _ & ->).
  destruct Hsrc as [(_ & -> & ->)|(-> & Hfb)].
  - destruct (strong_sources_loop_full env (r :: rest) k [] st1)
      as (more & st2' & n & sub & Hrun & _ & Hsub & Hsh & _).
    rewrite app_nil_l in Hrun. unfold strong_sources in Hq.
    rewrite Hq in Hrun. injection Hrun as <- <-.
    refine (strong_slim sub strong _ Hsh).
    eapply sublist_Forall; [etrans; [exact Hsub | apply sublist_take]|].
    apply filter_has_link_Forall.
  - destruct (fallback_each_spec env (Py.take_to k (r :: rest)) st2)
      as (sources' & st3' & Hrun & Hsh & _).
    unfold fallback_sources in Hfb. rewrite Hfb in Hrun.
    injection Hrun as <- <-.
    refine (fallback_slim _ sources _ Hsh).
    eapply sublist_Forall; [apply take_to_sublist|].
    exact (smart_search_linked env _ _ _ _ _ Hs).
Qed.

(** X13: For [k ≥ 1] a successful [agentic_search] returns at least one source
    and at most [k]: when none qualifies, the fallback supplies the first
    candidates. *)
Theorem agentic_search_source_count {World} (env : Collaborators World)
    (query : string) (k : Z) (st st' : state World)
    (answer : string) (slim : list dict) :
  1 ≤ k →
  agentic_search env query k st = (Ok (answer, slim), st') →
  1 ≤ Py.llen slim ≤ k.
Proof.
  intros Hk H.
  apply agentic_search_inv in H
    as (r & rest & st1 & strong & st2 & sources & st3
        & Hs & Hq & Hsrc & _ & ->).
  unfold Py.llen. rewrite length_fmap.
  destruct Hsrc as [(Hne & -> & ->)|(-> & Hfb)].
  - destruct (strong_sources_loop_full env (r :: rest) k [] st1)
      as (more & st2' & n & sub & Hrun & _ & _ & _ & _ & Hbound).
    rewrite app_nil_l in Hrun, Hbound. unfold strong_sources in Hq.
    rewrite Hq in Hrun. injection Hrun as <- <-.
    unfold Py.llen in Hbound. simpl in Hbound.
    destruct strong; [congruence|]. simpl in *. lia.
  - destruct (fallback_each_spec env (Py.take_to k (r :: rest)) st2)
      as (sources' & st3' & Hrun & Hsh & _).
    unfold fallback_sources in Hfb. rewrite Hfb in Hrun.
    injection Hrun as <- <-.
    rewrite <- (Forall2_length _ _ _ Hsh).
    pose proof (take_to_length k (r :: rest) ltac:(lia)) as Hlen.
    unfold Py.llen in Hlen. simpl in *. lia.
Qed.

Lemma agentic_search_source_count_witness :
  let env := plain_env (λ _, Ok (Some three_results)) (λ _, "short") in
  let sources :=
    [ source_dict (PyStr "A") (PyStr "http://a.test/") (PyStr "short");
      source_dict (PyStr "B") (PyStr "http://b.test/") (PyStr "short") ] in
  let slim := [ item "A" "http://a.test/"; item "B" "http://b.test/" ] in
  let st' :=
    {| world := 19%nat;
       trace := searches three_results
                  ++ [EvFetch (PyStr "http://a.test/");
                      EvFetch (PyStr "http://b.test/");
                      EvFetch (PyStr "http://c.test/");
                      EvFetch (PyStr "http://a.test/");
                      EvFetch (PyStr "http://b.test/");
                      EvLLM system_prompt (user_prompt env sources "q")] |} in
  (1 ≤ 2 ∧ agentic_search env "q" 2 start = (Ok ("answer [1]", slim), st')) ∧
  1 ≤ Py.llen slim ≤ 2.
Proof.
  intros env sources slim st'.
  assert (Hrun : agentic_search env "q" 2 start
                 = (Ok ("answer [1]", slim), st')) by vm_refl.
  split; [split; [lia | exact Hrun]|].
  exact (agentic_search_source_count env "q" 2 start st' _ _ ltac:(lia) Hrun).
Defined.

Lemma agentic_search_slim_strings_witness :
  let env := plain_env (λ _, Ok (Some [ item "A" "https://en.wikipedia.org/A";
                                        item "B" "http://b.test/" ]))
                       (λ _, "short") in
  let sources :=
    [ source_dict (PyStr "A") (PyStr "https://en.wikipedia.org/A")
                  (PyStr "short") ] in
  let slim := [ item "A" "https://en.wikipedia.org/A" ] in
  let st' :=
    {| world := 13%nat;
       trace := searches [ item "A" "https://en.wikipedia.org/A";
                           item "B" "http://b.test/" ]
                  ++ [EvFetch (PyStr "https://en.wikipedia.org/A");
                      EvFetch (PyStr "http://b.test/");
                      EvLLM system_prompt (user_prompt env sources "q")] |} in
  agentic_search env "q" 3 start = (Ok ("answer [1]", slim), st') ∧
  Forall (λ d : dict, ∃ title link,
            d = {[ "title" := PyStr title; "link" := PyStr link ]} ∧
            title ≠ "" ∧ link ≠ "") slim.
Proof.
  intros env sources slim st'.
  assert (Hrun : agentic_search env "q" 3 start
                 = (Ok ("answer [1]", slim), st')) by vm_refl.
  split; [exact Hrun|].
  exact (agentic_search_slim_strings env "q" 3 start st' _ _ Hrun).
Defined.

(** X14: When nothing qualifies and [k ≥ 1], every candidate has been fetched
    once by the qualifier, in order, and the fallback then fetches the
    first [k] of them again. *)
Theorem fallback_refetches {World} (env : Collaborators World)
    (query : string) (k : Z) (st st1 st2 : state World)
    (results : list dict) :
  1 ≤ k →
  smart_search env query (Z.max 10 (k * 2)) st = (Ok results, st1) →
  strong_sources env results k st1 = (Ok [], st2) →
  trace st2 = trace st1 ++ ((λ r, EvFetch (Py.get r "link")) <$> results) ∧
  ∃ sources st3,
    fallback_sources env results k st2 = (Ok sources, st3) ∧
    trace st3
      = trace st2 ++ ((λ r, EvFetch (Py.get r "link"))
                        <$> take (Z.to_nat k) results).
Proof.
  intros Hk Hs Hq. split.
  - destruct (strong_sources_loop_full env results k [] st1)
      as (more & st2' & n & sub & Hrun & Htr & _ & _ & Hstop & _).
    rewrite app_nil_l in Hrun, Hstop. unfold strong_sources in Hq.
    rewrite Hq in Hrun. injection Hrun as <- <-.
    assert (Hall : filter (λ r, has_link r = true) results = results).
    { apply filter_all. eapply Forall_impl;
        [exact (smart_search_linked env _ _ _ _ _ Hs)|].
      intros r [_ Hl]. exact Hl. }
    rewrite Hall in *. rewrite Htr. f_equal. f_equal. apply take_ge.
    destruct (decide (n < length results)%nat) as [Hn|Hn]; [|lia].
    apply Hstop in Hn. unfold Py.llen in Hn. simpl in Hn. lia.
  - destruct (fallback_each_spec env (Py.take_to k results) st2)
      as (sources & st3 & Hrun & _ & Htr).
    exists sources, st3. split; [exact Hrun|]. rewrite Htr.
    unfold Py.take_to. destruct (Z.leb_spec 0 k); [reflexivity | lia].
Qed.

Lemma fallback_refetches_witness :
  let env := plain_env (λ _, Ok (Some three_results)) (λ _, "short") in
  let st1 := {| world := 8%nat; trace := searches three_results |} in
  let st2 := {| world := 14%nat;
                trace := searches three_results
                           ++ [EvFetch (PyStr "http://a.test/");
                               EvFetch (PyStr "http://b.test/");
                               EvFetch (PyStr "http://c.test/")] |} in
  (1 ≤ 2 ∧
   smart_search env "q" (Z.max 10 (2 * 2)) start = (Ok three_results, st1) ∧
   strong_sources env three_results 2 st1 = (Ok [], st2)) ∧
  ∃ sources st3,
    fallback_sources env three_results 2 st2 = (Ok sources, st3) ∧
    trace st3
      = trace st2 ++ ((λ r, EvFetch (Py.get r "link"))
                        <$> take (Z.to_nat 2) three_results).
Proof.
  intros env st1 st2.
  assert (Hs : smart_search env "q" (Z.max 10 (2 * 2)) start
               = (Ok three_results, st1)) by vm_refl.
  assert (Hq : strong_sources env three_results 2 st1 = (Ok [], st2))
    by vm_refl.
  split; [split; [lia | split; [exact Hs | exact Hq]]|].
  exact (proj2 (fallback_refetches env "q" 2 start st1 st2 three_results
                  ltac:(lia) Hs Hq)).
Defined.

(** X15: Whatever goes wrong under [search] reaches the client as an
    [HTTPException] with status 502 or 500, never another status: 502
    with a "Claude error" detail when [agentic_search] raised an
    [APIStatusError], 500 with the string form of the exception for
    anything else, the no-results condition included. *)
Theorem search_failure_statuses {World} (env : Collaborators World)
    (req : SearchRequest) (st st' : state World) (e : exn) :
  search env req st = (Raise e, st') →
  ∃ cause,
    agentic_search env (query_of req) (k_of req) st = (Raise cause, st') ∧
    ((∃ m, cause = APIStatusError m ∧
           e = HTTPException 502 ("Claude error: " +:+ exn_str env cause)) ∨
     ((∀ m, cause ≠ APIStatusError m) ∧
      e = HTTPException 500 (exn_str env cause))).
Proof.
  unfold search, try_except, bind, ret, raise.
  destruct (agentic_search env (query_of req) (k_of req) st)
    as [[r|cause] st1]; [discriminate|].
  intros H. exists cause.
  destruct cause; injection H as <- <-; split; try reflexivity;
    try (right; split; [intros m; discriminate | reflexivity]).
  left. eauto.
Qed.

Lemma search_failure_statuses_witness :
  let env := toy_env (λ _, Ok (Some three_results))
               (λ _, Ok None) (λ _, Ok None)
               (λ _, Ok {| status_code_of := 200; text_of := "short" |})
               (λ s, Ok s)
               (λ _, Raise (APIStatusError "overloaded")) in
  let sources :=
    [ source_dict (PyStr "A") (PyStr "http://a.test/") (PyStr "short") ] in
  let st' :=
    {| world := 17%nat;
       trace := searches three_results
                  ++ [EvFetch (PyStr "http://a.test/");
                      EvFetch (PyStr "http://b.test/");
                      EvFetch (PyStr "http://c.test/");
                      EvFetch (PyStr "http://a.test/");
                      EvLLM system_prompt (user_prompt env sources "q")] |} in
  search env {| query_of := "q"; k_of := 1 |} start
  = (Raise (HTTPException 502 "Claude error: overloaded"), st') ∧
  ∃ cause,
    agentic_search env "q" 1 start = (Raise cause, st') ∧
    ((∃ m, cause = APIStatusError m ∧
           HTTPException 502 "Claude error: overloaded"
           = HTTPException 502 ("Claude error: " +:+ exn_str env cause)) ∨
     ((∀ m, cause ≠ APIStatusError m) ∧
      HTTPException 502 "Claude error: overloaded"
      = HTTPException 500 (exn_str env cause))).
Proof.
  intros env sources st'.
  assert (Hrun : search env {| query_of := "q"; k_of := 1 |} start
    = (Raise (HTTPException 502 "Claude error: overloaded"), st')) by vm_refl.
  split; [exact Hrun|].
  exact (search_failure_statuses env _ start st' _ Hrun).
Defined.

(** *** Start-up *)

(** X16: The module loads only when the three environment variables are set
    to non-empty strings; an empty string counts as missing, and a missing
    Anthropic key is reported first, whatever the other two are. *)
Theorem check_env_requires_all (a g s : pyval) :
  (check_env a g s = Ok tt ↔
   Py.truthy a = true ∧ Py.truthy g = true ∧ Py.truthy s = true) ∧
  (Py.truthy a = false →
   check_env a g s = Raise (Exception_ "ANTHROPIC_API_KEY missing in .env")) ∧
  (Py.truthy a = true → Py.truthy g && Py.truthy s = false →
   check_env a g s
   = Raise (Exception_ "GSEARCH_API_KEY or SEARCH_ENGINE_ID missing in .env")).
Proof.
  unfold check_env.
  destruct (Py.truthy a), (Py.truthy g), (Py.truthy s); simpl;
    repeat split; try congruence; intros; intuition congruence.
Qed.

Lemma check_env_requires_all_witness :
  check_env (PyStr "sk-ant") (PyStr "") (PyStr "cx")
  = Raise (Exception_ "GSEARCH_API_KEY or SEARCH_ENGINE_ID missing in .env").
Proof.
  exact (proj2 (proj2 (check_env_requires_all
                         (PyStr "sk-ant") (PyStr "") (PyStr "cx")))
               eq_refl eq_refl).
Defined.

(** *** The query variants *)

(** X17: The eight query variants are pairwise different, whatever the query,
    so no search is issued twice; the plain query comes first. *)
Theorem query_variants_distinct (query : string) :
  NoDup (query_variants query) ∧
  query_variants query !! 0%nat = Some query ∧
  length (query_variants query) = 8%nat.
Proof.
  split; [|split; reflexivity].
  assert (Heq : query_variants query
    = (String.app query)
        <$> [ ""; " official list"; " locations"; " site:wikipedia.org";
              " site:britannica.com"; " site:new7wonders.com";
              " site:nationalgeographic.com"; " site:unesco.org" ]).
  { unfold query_variants. simpl. rewrite append_nil_r. reflexivity. }
  rewrite Heq. apply NoDup_fmap_2; [apply _|].
  repeat (constructor;
          [rewrite ?elem_of_cons, elem_of_nil; intuition discriminate|]).
  constructor.
Qed.

(** *** The normalisation of the fallback extraction *)

Lemma rev_app_rev_app (l a b : string) :
  String.rev_app (String.rev_app l a) b = String.rev_app a (l +:+ b).
Proof.
  revert a b; induction l as [|c l IH]; intros a b; [reflexivity|].
  simpl. rewrite IH. reflexivity.
Qed.

Lemma rev_rev_app (l : string) : String.rev (String.rev_app l "") = l.
Proof. unfold String.rev. rewrite rev_app_rev_app. apply append_nil_r. Qed.

Lemma one_line_rev_app (l acc : string) :
  one_line l → one_line acc → one_line (String.rev_app l acc).
Proof.
  revert acc; induction l as [|c l IH]; intros acc Hl Hacc; [exact Hacc|].
  destruct Hl as [Hc Hl]. simpl. apply IH; [exact Hl | split; assumption].
Qed.

Lemma one_line_lstrip (s : string) : one_line s → one_line (Py.lstrip s).
Proof.
  induction s as [|c s IH]; [trivial|]. intros [Hc Hs]. simpl.
  destruct (Py.isspace c); [apply IH, Hs | split; assumption].
Qed.

Lemma one_line_rstrip (s : string) : one_line s → one_line (Py.rstrip s).
Proof.
  induction s as [|c s IH]; [trivial|]. intros [Hc Hs]. simpl.
  specialize (IH Hs). destruct (Py.rstrip s).
  - destruct (Py.isspace c); simpl; auto.
  - split; assumption.
Qed.

Lemma one_line_strip (s : string) : one_line s → one_line (Py.strip s).
Proof. intros H. apply one_line_rstrip, one_line_lstrip, H. Qed.

(** The lines [splitlines] gives hold no line boundary. *)
Lemma splitlines_go_one_line (s : string) b (cur : string) :
  one_line cur → Forall one_line (Py.splitlines_go b cur s).
Proof.
  revert b cur; induction s as [|c s IH]; intros b cur Hcur; simpl.
  - destruct cur; [constructor|]. constructor; [|constructor].
    apply (one_line_rev_app (String a cur) ""); [exact Hcur | exact I].
  - destruct (b && (nat_of_ascii c =? 10)%nat); [apply IH; exact I|].
    destruct (Py.is_linebreak c) eqn:Hc.
    + constructor; [|apply IH; exact I].
      apply (one_line_rev_app cur ""); [exact Hcur | exact I].
    + apply IH. split; assumption.
Qed.

(** Going through a line without a boundary only collects it. *)
Lemma splitlines_go_line (l rest cur : string) :
  one_line l →
  Py.splitlines_go false cur (l +:+ rest)
  = Py.splitlines_go false (String.rev_app l cur) rest.
Proof.
  revert cur; induction l as [|c l IH]; intros cur Hl; [reflexivity|].
  destruct Hl as [Hc Hl]. rewrite append_cons. simpl. rewrite Hc.
  apply IH, Hl.
Qed.

Lemma rev_app_nonempty (l acc : string) :
  l ≠ "" → String.rev_app l acc ≠ "".
Proof.
  revert acc; induction l as [|c l IH]; intros acc Hl; [congruence|].
  simpl. destruct l as [|d l]; [discriminate|]. apply IH. discriminate.
Qed.

Lemma splitlines_go_nl (cur rest : string) :
  Py.splitlines_go false cur (NL +:+ rest)
  = String.rev cur :: Py.splitlines_go false "" rest.
Proof. reflexivity. Qed.

(** Lines that are not empty and hold no boundary come back from
    [splitlines] after a [join] with line feeds. *)
Lemma splitlines_join (ls : list string) :
  Forall (λ l, l ≠ "" ∧ one_line l) ls →
  Py.splitlines (Py.join NL ls) = ls.
Proof.
  unfold Py.splitlines.
  induction 1 as [|l ls [Hne Hl] Hls IH]; [reflexivity|].
  destruct ls as [|l2 ls].
  - simpl. rewrite <- (append_nil_r l) at 1.
    rewrite (splitlines_go_line l "" "" Hl). simpl.
    pose proof (rev_app_nonempty l "" Hne) as Hcur.
    destruct (String.rev_app l "") eqn:E; [congruence|].
    rewrite <- E, rev_rev_app. reflexivity.
  - change (Py.join NL (l :: l2 :: ls))
      with (l +:+ NL +:+ Py.join NL (l2 :: ls)).
    rewrite (splitlines_go_line l _ "" Hl), splitlines_go_nl.
    rewrite rev_rev_app, IH. reflexivity.
Qed.

Lemma map_strip_stripped (ls : list string) :
  Forall (λ l, Py.strip l = l) ls → map Py.strip ls = ls.
Proof.
  induction 1 as [|l ls Hl _ IH]; [reflexivity|].
  simpl. rewrite Hl, IH. reflexivity.
Qed.

(** X18: Normalising a text that the fallback extraction has normalised leaves
    it as it is. *)
Theorem clean_lines_idempotent (raw : string) :
  clean_lines (clean_lines raw) = clean_lines raw.
Proof.
  pose proof (kept_lines_stripped (Py.splitlines raw)) as Hkept.
  assert (Heq : clean_lines raw
    = Py.join NL (map Py.strip
                    (filter (λ line, Py.str_truthy (Py.strip line) = true)
                            (Py.splitlines raw)))) by reflexivity.
  set (kept := map Py.strip
                 (filter (λ line, Py.str_truthy (Py.strip line) = true)
                         (Py.splitlines raw))) in *.
  assert (Hone : Forall one_line kept).
  { unfold kept. apply Forall_forall. intros l Hl.
    apply list_elem_of_In, in_map_iff in Hl as (line & <- & Hline).
    apply list_elem_of_In, list_elem_of_filter in Hline as [_ Hline].
    apply one_line_strip.
    pose proof (splitlines_go_one_line raw false "" I) as Hall.
    rewrite Forall_forall in Hall. apply Hall, Hline. }
  rewrite Heq. unfold clean_lines at 1.
  rewrite splitlines_join.
  - f_equal. rewrite filter_all.
    + apply map_strip_stripped. eapply Forall_impl; [exact Hkept|].
      intros l [_ Hl]. exact Hl.
    + eapply Forall_impl; [exact Hkept|]. intros l [Hne Hl].
      rewrite Hl. apply str_truthy_iff, Hne.
  - rewrite Forall_forall in Hkept, Hone |- *. intros l Hl.
    split; [apply (Hkept l Hl) | apply (Hone l Hl)].
Qed.

(** *** Candidates on the trusted domains *)

Lemma on_whitelist_has_link (r : dict) :
  on_whitelist r = true → Py.truthy (Py.get r "link") = true.
Proof. apply is_whitelisted_truthy. Qed.

(** Unless it reaches [k] sources, the loop of [strong_sources] adds a
    source for every candidate on a trusted domain. *)
Lemma strong_sources_loop_whitelisted {World} (env : Collaborators World)
    (results : list dict) k (sources : list dict) (st : state World) :
  ∃ more st',
    strong_sources_loop env results k sources st = (Ok (sources ++ more), st')
    ∧ (k ≤ Py.llen (sources ++ more) ∨
       (length (filter (λ r, on_whitelist r = true) results)
        ≤ length more)%nat).
Proof.
  revert sources st; induction results as [|r rest IH]; intros sources st.
  - exists [], st. simpl. rewrite app_nil_r. split; [reflexivity|]. right. lia.
  - simpl. destruct (Py.truthy (Py.get r "link")) eqn:Hlink; simpl.
    + unfold bind at 1.
      destruct (fetch_text_returns env (Py.get r "link") FETCH_MAX_CHARS st)
        as (content & st1 & ->).
      fold (strong_source r content).
      destruct (is_whitelisted (Py.get r "link") || long_enough content)
        eqn:Hpol.
      * destruct (Z.leb_spec k (Py.llen (sources ++ [strong_source r content])))
          as [Hfull|Hroom].
        -- exists [strong_source r content], st1. split; [reflexivity|].
           left. exact Hfull.
        -- destruct (IH (sources ++ [strong_source r content]) st1)
             as (more & st' & -> & Hcount).
           exists (strong_source r content :: more), st'.
           rewrite <- app_assoc in *. split; [reflexivity|].
           destruct Hcount as [Hk|Hcount]; [left; exact Hk|]. right.
           pose proof (filter_cons (λ r, on_whitelist r = true) r rest) as Hf.
           rewrite Hf. destruct (decide (on_whitelist r = true)); simpl; lia.
      * assert (Hw : on_whitelist r ≠ true).
        { unfold on_whitelist. apply orb_false_iff in Hpol as [-> _].
          discriminate. }
        rewrite filter_cons_False by exact Hw.
        destruct (Z.leb_spec k (Py.llen sources)) as [Hfull|Hroom].
        -- exists [], st1. rewrite app_nil_r. split; [reflexivity|].
           left. exact Hfull.
        -- apply IH.
    + rewrite filter_cons_False; [apply IH|].
      intros Hw. apply on_whitelist_has_link in Hw. congruence.
Qed.

(** X19: For [k ≥ 1], when at least [k] candidates are on the trusted domains,
    [strong_sources] returns exactly [k] sources, whatever the pages
    hold. *)
Theorem strong_sources_fills_from_whitelist {World}
    (env : Collaborators World) (results : list dict) (k : Z)
    (st : state World) :
  1 ≤ k →
  k ≤ Py.llen (filter (λ r, is_whitelisted (Py.get r "link") = true) results) →
  ∃ sources st',
    strong_sources env results k st = (Ok sources, st') ∧
    Py.llen sources = k.
Proof.
  intros Hk Hwl.
  destruct (strong_sources_loop_full env results k [] st)
    as (more & st' & n & sub & Hrun & _ & _ & _ & _ & Hbound).
  destruct (strong_sources_loop_whitelisted env results k [] st)
    as (more' & st'' & Hrun' & Hcount).
  rewrite Hrun in Hrun'. injection Hrun' as <- <-.
  rewrite app_nil_l in *. exists more, st'. split; [exact Hrun|].
  unfold Py.llen, on_whitelist in *. simpl in Hbound.
  destruct Hcount as [Hge|Hcount]; lia.
Qed.

Lemma strong_sources_fills_from_whitelist_witness :
  let env := plain_env (λ _, Ok None) (λ _, "short") in
  let results :=
    [ item "Blog" "http://blog.test/";
      item "Wiki" "https://en.wikipedia.org/wiki/W";
      {[ "title" := PyStr "no link" ]};
      item "Unesco" "https://whc.unesco.org/en/list/";
      item "Britannica" "https://www.britannica.com/topic/W" ] in
  (1 ≤ 2 ∧
   2 ≤ Py.llen (filter (λ r, is_whitelisted (Py.get r "link") = true) results))
  ∧ strong_sources env results 2 start
    = (Ok [ source_dict (PyStr "Wiki")
              (PyStr "https://en.wikipedia.org/wiki/W") (PyStr "short");
            source_dict (PyStr "Unesco")
              (PyStr "https://whc.unesco.org/en/list/") (PyStr "short") ],
       {| world := 6%nat;
          trace := [ EvFetch (PyStr "http://blog.test/");
                     EvFetch (PyStr "https://en.wikipedia.org/wiki/W");
                     EvFetch (PyStr "https://whc.unesco.org/en/list/") ] |})
  ∧ ∃ sources st',
      strong_sources env results 2 start = (Ok sources, st') ∧
      Py.llen sources = 2.
Proof.
  intros env results.
  assert (Hwl : 2 ≤ Py.llen
            (filter (λ r, is_whitelisted (Py.get r "link") = true) results))
    by (vm_compute; congruence).
  split; [split; [lia | exact Hwl]|]. split; [vm_refl|].
  exact (strong_sources_fills_from_whitelist env results 2 start
           ltac:(lia) Hwl).
Defined.

(** *** The search adapter *)

(** X20: Asking [google_search_once] for ten results or more is asking for
    ten: the provider is never asked for more. *)
Theorem google_search_once_clamps {World} (env : Collaborators World)
    (query : string) (num_results : Z) (st : state World) :
  10 ≤ num_results →
  google_search_once env query num_results st
  = google_search_once env query 10 st.
Proof.
  intros H. unfold google_search_once.
  replace (Z.min num_results 10) with (Z.min 10 10) by lia. reflexivity.
Qed.

Lemma google_search_once_clamps_witness :
  let env := plain_env (λ q, Ok (Some (ten_results q))) (λ _, "") in
  google_search_once env "q" 50 start
  = (Ok (ten_results "q"),
     {| world := 1%nat; trace := [EvSearch "q" 10 (ten_results "q")] |}).
Proof.
  intros env.
  rewrite (google_search_once_clamps env "q" 50 start ltac:(lia)). vm_refl.
Defined.

(** *** The standalone script *)

Section ScriptProperties.
Context {World : Type} (env : Standalone.Env World).

Lemma script_fetch_text_cases url max_chars (st : state World) :
  Standalone.fetch_text env url max_chars st =
    match Standalone.fetch_text_try env url max_chars
            {| world := world st; trace := trace st ++ [EvFetch url] |} with
    | (Ok s, st') => (Ok s, st')
    | (Raise e, st') => (Ok (Standalone.fetch_error env url e), st')
    end.
Proof. reflexivity. Qed.

Lemma script_fetch_text_returns url max_chars (st : state World) :
  ∃ s st', Standalone.fetch_text env url max_chars st = (Ok s, st')
           ∧ trace st' = trace st ++ [EvFetch url].
Proof.
  rewrite script_fetch_text_cases.
  unfold Standalone.fetch_text_try, bind, call, lift, ret. simpl.
  repeat (case_match; simplify_eq/=); eauto.
Qed.

(** A [print] that works leaves the trace alone. *)
Lemma script_print_ok line (st st' : state World) :
  call (Standalone.print env line) st = (Ok tt, st') →
  trace st' = trace st.
Proof.
  unfold call. destruct (Standalone.print env line (world st)).
  intros [= _ <-]. reflexivity.
Qed.

(** The loop of the script: one source per result, in order, each result
    fetched once. *)
Lemma script_fetch_all_spec (results sources out : list dict)
    (st st' : state World) :
  Standalone.fetch_all env results sources st = (Ok out, st') →
  ∃ more,
    out = sources ++ more ∧
    Forall2 (λ r s, ∃ content,
               s = source_dict (Py.get r "title") (Py.get r "link")
                               (PyStr content))
            results more ∧
    trace st' = trace st ++ ((λ r, EvFetch (Py.get r "link")) <$> results).
Proof.
  revert sources st; induction results as [|r rest IH]; intros sources st;
    simpl.
  - intros [= <- <-]. exists []. rewrite !app_nil_r. split_all.
  - unfold bind at 1.
    destruct (call (Standalone.print env _) st) as [[[]|e] st0] eqn:Hp;
      [|discriminate].
    apply script_print_ok in Hp.
    unfold bind at 1.
    destruct (script_fetch_text_returns (Py.get r "link")
                Standalone.FETCH_MAX_CHARS st0)
      as (content & st1 & Hf & Htr1).
    rewrite Hf. intros Hrec.
    apply IH in Hrec as (more & -> & Hsh & Htr).
    exists (source_dict (Py.get r "title") (Py.get r "link") (PyStr content)
            :: more).
    rewrite <- app_assoc. split; [reflexivity|]. split.
    + constructor; [eauto | exact Hsh].
    + rewrite Htr, Htr1, Hp, <- app_assoc. reflexivity.
Qed.

End ScriptProperties.

(** X21: The script's [fetch_text] never raises either; for [max_chars ≥ 0]
    what it returns has at most [max_chars] characters unless it is the
    error placeholder. *)
Theorem script_fetch_text_safe {World} (env : Standalone.Env World)
    (url : pyval) (max_chars : Z) (st : state World) :
  ∃ s st',
    Standalone.fetch_text env url max_chars st = (Ok s, st') ∧
    (0 ≤ max_chars →
     Py.len s ≤ max_chars ∨ ∃ e, s = Standalone.fetch_error env url e).
Proof.
  rewrite script_fetch_text_cases.
  destruct (Standalone.fetch_text_try env url max_chars _)
    as [[s|e] st'] eqn:Htry.
  - exists s, st'. split; [reflexivity|]. intros Hn. left.
    unfold Standalone.fetch_text_try, bind, call, lift, ret in Htry.
    simpl in Htry. repeat (case_match; simplify_eq/=).
    apply slice_to_len, Hn.
  - eexists _, st'. split; [reflexivity|]. intros _. right. eauto.
Qed.

(** X22: The two pipelines differ on error pages: for a page that answers with
    a client or server error status, the server's [fetch_text] (once the
    primary extraction has found nothing) gives the placeholder of the
    HTTP error, while the script's, which does not look at the status,
    gives the text of the error page as content. *)
Theorem error_page_server_and_script {World}
    (env : Collaborators World) (senv : Standalone.Env World)
    (url : pyval) (max_chars : Z) (st : state World)
    (d : option string) (resp : Response) (raw : string) (w1 w2 w3 : World) :
  400 ≤ status_code_of resp < 600 →
  trafilatura_fetch_url env url (world st) = (Ok d, w1) →
  primary_text env d max_chars = Ok None →
  session_get env url 15 w1 = (Ok resp, w2) →
  Standalone.requests_get senv url 12 (world st) = (Ok resp, w3) →
  Standalone.soup_get_text senv (text_of resp) = Ok raw →
  fetch_text env url max_chars st
  = (Ok (fetch_error env url (HTTPError (status_code_of resp))),
     {| world := w2; trace := trace st ++ [EvFetch url] |}) ∧
  Standalone.fetch_text senv url max_chars st
  = (Ok (Py.slice_to max_chars (clean_lines raw)),
     {| world := w3; trace := trace st ++ [EvFetch url] |}).
Proof.
  intros [Hlo Hhi] Hd Hp Hget Hsget Hsoup. split.
  - rewrite (fetch_text_after_download env _ _ _ _ _ Hd). simpl.
    rewrite Hp, Hget.
    apply Z.leb_le in Hlo. apply Z.ltb_lt in Hhi. rewrite Hlo, Hhi.
    reflexivity.
  - rewrite script_fetch_text_cases.
    unfold Standalone.fetch_text_try, bind, call, lift, ret. simpl.
    rewrite Hsget, Hsoup. reflexivity.
Qed.

Lemma error_page_server_and_script_witness :
  let page := {| status_code_of := 404; text_of := "  Not Found  " |} in
  let env := toy_env (λ _, Ok None) (λ _, Ok None) (λ _, Ok None)
               (λ _, Ok page) (λ s, Ok s) (λ _, Ok []) in
  let senv := script_env (Ok None) (λ _, Ok page) (Ok []) in
  fetch_text env (PyStr "http://x.test/") 30000 start
  = (Ok "[Fetch error for http://x.test/: 404 Error]",
     {| world := 2%nat; trace := [EvFetch (PyStr "http://x.test/")] |}) ∧
  Standalone.fetch_text senv (PyStr "http://x.test/") 30000 start
  = (Ok "Not Found",
     {| world := 1%nat; trace := [EvFetch (PyStr "http://x.test/")] |}).
Proof.
  intros page env senv.
  exact (error_page_server_and_script env senv (PyStr "http://x.test/")
           30000 start None page "  Not Found  " 1%nat 2%nat 1%nat
           ltac:(simpl; lia) eq_refl eq_refl eq_refl eq_refl eq_refl).
Defined.

(** X23: When the search returns no items the script answers with its
    no-results text, as a normal return and not as an exception, having
    searched once, for [k] results, and fetched nothing. *)
Theorem script_no_results {World} (env : Standalone.Env World)
    (query : string) (k : Z) (st : state World)
    (res : option (list dict)) (w1 w2 : World) :
  Standalone.print env ("🔎 Searching: " +:+ query) (world st) = (Ok tt, w1) →
  Standalone.cse_list_execute env query k w1 = (Ok res, w2) →
  default [] res = [] →
  Standalone.agentic_search env query k st
  = (Ok "No search results returned. Check your Google CSE settings (entire web, API enabled).",
     {| world := w2; trace := trace st ++ [EvSearch query k []] |}).
Proof.
  intros Hp Hs Hres.
  unfold Standalone.agentic_search, Standalone.google_search,
    bind, call, log, ret. simpl.
  rewrite Hp. simpl. rewrite Hs, Hres. reflexivity.
Qed.

Lemma script_no_results_witness :
  Standalone.agentic_search (script_env (Ok None) (λ _, Raise (Exception_ "x"))
                                        (Ok [])) "q" 5 start
  = (Ok "No search results returned. Check your Google CSE settings (entire web, API enabled).",
     {| world := 2%nat; trace := [EvSearch "q" 5 []] |}).
Proof.
  exact (script_no_results
           (script_env (Ok None) (λ _, Raise (Exception_ "x")) (Ok []))
           "q" 5 start None 1%nat 2%nat eq_refl eq_refl eq_refl).
Defined.

(** X24: A run of the script that returns has searched once, for [k] results;
    when there were results, it has fetched every one of them, in order
    and whatever it holds, made one source of each, with the title and
    link as they are, and sent the prompt built from these sources to the
    LLM. *)
Theorem script_one_source_per_result {World} (env : Standalone.Env World)
    (query : string) (k : Z) (st st' : state World) (answer : string) :
  Standalone.agentic_search env query k st = (Ok answer, st') →
  ∃ results : list dict,
    (results = [] ∧ answer = Standalone.NO_RESULTS ∧
     trace st' = trace st ++ [EvSearch query k []]) ∨
    (∃ sources blocks,
       results ≠ [] ∧
       Forall2 (λ r s, ∃ content,
                  s = source_dict (Py.get r "title") (Py.get r "link")
                                  (PyStr content))
               results sources ∧
       Standalone.context_blocks_from env 1 sources = Ok blocks ∧
       trace st'
       = trace st ++ EvSearch query k results
           :: ((λ r, EvFetch (Py.get r "link")) <$> results)
           ++ [EvLLM Standalone.system_prompt
                 (Standalone.user_prompt env (Py.join (NL +:+ NL) blocks)
                                         query)]).
Proof.
  unfold Standalone.agentic_search. unfold bind at 1.
  destruct (call (Standalone.print env _) st) as [[[]|e] st0] eqn:Hp;
    [|discriminate].
  apply script_print_ok in Hp.
  unfold bind at 1.
  destruct (Standalone.google_search env query k st0)
    as [[results|e] st1] eqn:Hs; [|discriminate].
  assert (Htr1 : trace st1 = trace st ++ [EvSearch query k results]).
  { unfold Standalone.google_search, bind, call, log, ret in Hs.
    simpl in Hs. repeat (case_match; simplify_eq/=). rewrite Hp. reflexivity. }
  intros H. exists results. destruct results as [|r rest].
  - injection H as <- <-. left. auto.
  - right. unfold bind at 1 in H.
    destruct (Standalone.fetch_all env (r :: rest) [] st1)
      as [[sources|e] st2] eqn:Hf; [|discriminate].
    apply script_fetch_all_spec in Hf as (more & -> & Hsh & Htr2).
    unfold bind at 1 in H.
    destruct (call (Standalone.print env _) st2) as [[[]|e] st3] eqn:Hp3;
      [|discriminate].
    apply script_print_ok in Hp3.
    unfold Standalone.summarize_with_claude, bind, lift, call, log, ret in H.
    destruct (Standalone.context_blocks_from env 1 ([] ++ more))
      as [blocks|e] eqn:Hb; [|discriminate].
    simpl in H. repeat (case_match; simplify_eq/=).
    exists more, blocks. split; [discriminate|]. split; [exact Hsh|].
    split; [exact Hb|].
    rewrite Hp3, Htr2, Htr1, <- !app_assoc. reflexivity.
Qed.

Lemma script_one_source_per_result_witness :
  let env := script_env (Ok (Some [ item "A" "http://a.test/";
                                    {[ "title" := PyStr "no link" ]};
                                    item "A" "http://a.test/" ]))
                        (λ url, match url with
                                | PyStr _ => Ok {| status_code_of := 200;
                                                   text_of := "page" |}
                                | PyNone => Raise (Exception_ "Invalid URL 'None'")
                                end)
                        (Ok [{| ptype := "text"; ptext := " answer " |}]) in
  ∃ st',
    Standalone.agentic_search env "q" 5 start = (Ok " answer ", st') ∧
    ∃ results : list dict,
      (results = [] ∧ " answer " = Standalone.NO_RESULTS ∧
       trace st' = trace start ++ [EvSearch "q" 5 []]) ∨
      (∃ sources blocks,
         results ≠ [] ∧
         Forall2 (λ r s, ∃ content,
                    s = source_dict (Py.get r "title") (Py.get r "link")
                                    (PyStr content))
                 results sources ∧
         Standalone.context_blocks_from env 1 sources = Ok blocks ∧
         trace st'
         = trace start ++ EvSearch "q" 5 results
             :: ((λ r, EvFetch (Py.get r "link")) <$> results)
             ++ [EvLLM Standalone.system_prompt
                   (Standalone.user_prompt env (Py.join (NL +:+ NL) blocks)
                                           "q")]).
Proof.
  intros env.
  destruct (Standalone.agentic_search env "q" 5 start) as [r st'] eqn:Hrun.
  assert (Hr : r = Ok " answer ").
  { assert (Hfst : (Standalone.agentic_search env "q" 5 start).1
                   = Ok " answer ") by vm_refl.
    rewrite Hrun in Hfst. exact Hfst. }
  subst r. exists st'. split; [reflexivity|].
  exact (script_one_source_per_result env "q" 5 start st' _ Hrun).
Defined.

Lemma script_blocks_none_content {World} (env : Standalone.Env World)
    (i : Z) (sources : list dict) (s : dict) :
  s ∈ sources → s !! "content" = Some PyNone →
  Standalone.context_blocks_from env i sources
  = Raise (Exception_ "'NoneType' object is not subscriptable").
Proof.
  intros Hin Hnone. revert i.
  induction sources as [|s0 rest IH]; intros i; [inversion Hin|].
  simpl. unfold Standalone.block, Standalone.excerpt, Py.get_default.
  apply elem_of_cons in Hin as [<-|Hin].
  - rewrite Hnone. reflexivity.
  - destruct (default (PyStr "") (s0 !! "content")); [reflexivity|].
    rewrite (IH Hin). reflexivity.
Qed.

(** X25: The two synthesizers differ on a source whose content is [None]: the
    server's takes it for an empty excerpt, the script's raises the type
    error of slicing [None] before it calls the LLM, and leaves the world
    and the trace as they were.  A source without the key gets an empty
    excerpt in both. *)
Theorem none_content_server_and_script {World}
    (env : Collaborators World) (senv : Standalone.Env World)
    (sources : list dict) (s : dict) (user_query : string)
    (st : state World) :
  s ∈ sources →
  s !! "content" = Some PyNone →
  excerpt s = "" ∧
  Standalone.summarize_with_claude senv sources user_query st
  = (Raise (Exception_ "'NoneType' object is not subscriptable"), st) ∧
  (∀ s', s' !! "content" = None →
         excerpt s' = "" ∧ Standalone.excerpt s' = Ok "").
Proof.
  intros Hin Hnone. split; [|split].
  - unfold excerpt, Py.get. rewrite Hnone. reflexivity.
  - unfold Standalone.summarize_with_claude, bind, lift.
    rewrite (script_blocks_none_content senv 1 sources s Hin Hnone).
    reflexivity.
  - intros s' Hs'. unfold excerpt, Standalone.excerpt, Py.get, Py.get_default.
    rewrite Hs'. split; reflexivity.
Qed.

Lemma none_content_server_and_script_witness :
  let s : dict := {[ "title" := PyStr "T"; "link" := PyStr "http://x.test/";
                     "content" := PyNone ]} in
  Standalone.summarize_with_claude (script_env (Ok None) (λ _, Ok {| status_code_of := 200; text_of := "" |}) (Ok []))
    [s] "q" start
  = (Raise (Exception_ "'NoneType' object is not subscriptable"), start).
Proof.
  intros s.
  refine (proj1 (proj2 (none_content_server_and_script
            (plain_env (λ _, Ok None) (λ _, ""))
            (script_env (Ok None)
               (λ _, Ok {| status_code_of := 200; text_of := "" |}) (Ok []))
            [s] s "q" start _ _))).
  - apply list_elem_of_here.
  - vm_refl.
Defined.

Lemma script_fetch_text_safe_witness :
  let env := script_env (Ok None)
               (λ _, Ok {| status_code_of := 200; text_of := "hello" |})
               (Ok []) in
  Standalone.fetch_text env (PyStr "u") 3 start
  = (Ok "hel", {| world := 1%nat; trace := [EvFetch (PyStr "u")] |}) ∧
  ∃ s st',
    Standalone.fetch_text env (PyStr "u") 3 start = (Ok s, st') ∧
    (0 ≤ 3 → Py.len s ≤ 3 ∨ ∃ e, s = Standalone.fetch_error env (PyStr "u") e).
Proof.
  intros env. split; [vm_refl|].
  exact (script_fetch_text_safe env (PyStr "u") 3 start).
Defined.
